(** * The V4L2 input source of obs-studio (plugins/linux-v4l2/v4l2-input.c)

    A shallow embedding of the capture source: the packed-tuple codec, the
    pixel-format mapper, the plane layout, the buffer pool, the session
    controller (init / terminate / update), the device enumeration and the
    capture thread.  Calls into the kernel and into libobs are recorded in a
    trace of operations; what the kernel answers is read from an explicit
    environment record, so every statement below quantifies over all
    answers the device can give. *)

From Stdlib Require Import ZArith Lia Bool String Ascii.
From stdpp Require Import base list.
From Stdlib Require Import DecimalString.

Local Open Scope Z_scope.

(** ** Machine integers

    The plugin is Linux-only; on the LP64 targets it builds for, [int] and
    [uint32_t] have 32 bits while [int_fast32_t], [uint_fast32_t],
    [size_t] and [uint64_t] have 64.  Signed conversions and the signed
    left shift wrap (GCC's documented behaviour). *)

Definition wrap_int (z : Z) : Z := (z + 2 ^ 31) mod 2 ^ 32 - 2 ^ 31.
Definition wrap_u32 (z : Z) : Z := z mod 2 ^ 32.
Definition wrap_u64 (z : Z) : Z := z mod 2 ^ 64.

(** ** Packed-tuple codec (lines 101-110) *)

(** [return (a << 16) | (b & 0xffff);] on [int]. *)
Definition pack_tuple (a b : Z) : Z :=
  wrap_int (Z.lor (Z.shiftl a 16) (Z.land b 65535)).

(** [*a = packed >> 16; *b = packed & 0xffff;]: the two out-parameters are
    returned as a pair.  [>>] on a negative [int] is the arithmetic shift. *)
Definition unpack_tuple (packed : Z) : Z * Z :=
  (Z.shiftr packed 16, Z.land packed 65535).

(** ** Pixel formats *)

(** [v4l2_fourcc(a,b,c,d)] of linux/videodev2.h. *)
Definition v4l2_fourcc (a b c d : ascii) : Z :=
  Z.lor (Z.lor (Z.of_N (N_of_ascii a)) (Z.shiftl (Z.of_N (N_of_ascii b)) 8))
        (Z.lor (Z.shiftl (Z.of_N (N_of_ascii c)) 16)
               (Z.shiftl (Z.of_N (N_of_ascii d)) 24)).

Definition V4L2_PIX_FMT_YVYU   : Z := Eval cbv in v4l2_fourcc "Y" "V" "Y" "U".
Definition V4L2_PIX_FMT_YUYV   : Z := Eval cbv in v4l2_fourcc "Y" "U" "Y" "V".
Definition V4L2_PIX_FMT_UYVY   : Z := Eval cbv in v4l2_fourcc "U" "Y" "V" "Y".
Definition V4L2_PIX_FMT_NV12   : Z := Eval cbv in v4l2_fourcc "N" "V" "1" "2".
Definition V4L2_PIX_FMT_YUV420 : Z := Eval cbv in v4l2_fourcc "Y" "U" "1" "2".
Definition V4L2_PIX_FMT_YVU420 : Z := Eval cbv in v4l2_fourcc "Y" "V" "1" "2".

(** [enum video_format] of libobs. *)
Inductive video_format : Type :=
| VIDEO_FORMAT_NONE
| VIDEO_FORMAT_I420
| VIDEO_FORMAT_NV12
| VIDEO_FORMAT_YVYU
| VIDEO_FORMAT_YUY2
| VIDEO_FORMAT_UYVY
| VIDEO_FORMAT_RGBA
| VIDEO_FORMAT_BGRA
| VIDEO_FORMAT_BGRX.

(** The [switch] of lines 85-96. *)
Definition v4l2_to_obs_video_format (format : Z) : video_format :=
  if format =? V4L2_PIX_FMT_YVYU then VIDEO_FORMAT_YVYU
  else if format =? V4L2_PIX_FMT_YUYV then VIDEO_FORMAT_YUY2
  else if format =? V4L2_PIX_FMT_UYVY then VIDEO_FORMAT_UYVY
  else if format =? V4L2_PIX_FMT_NV12 then VIDEO_FORMAT_NV12
  else if format =? V4L2_PIX_FMT_YUV420 then VIDEO_FORMAT_I420
  else if format =? V4L2_PIX_FMT_YVU420 then VIDEO_FORMAT_I420
  else VIDEO_FORMAT_NONE.

(** The five-element description of the recognised set: two packed 4:2:2
    ids [p] and [q], the semi-planar id and the two planar ids. *)
Definition described_set (p q : Z) : list Z :=
  [p; q; V4L2_PIX_FMT_NV12; V4L2_PIX_FMT_YUV420; V4L2_PIX_FMT_YVU420].

(** The ids that have a [case] label. *)
Definition recognized_formats : list Z :=
  [V4L2_PIX_FMT_YVYU; V4L2_PIX_FMT_YUYV; V4L2_PIX_FMT_UYVY;
   V4L2_PIX_FMT_NV12; V4L2_PIX_FMT_YUV420; V4L2_PIX_FMT_YVU420].

(** ** The source's data (lines 45-83) *)

Definition MAP_FAILED : Z := -1.

(** [struct v4l2_buffer_data]; the fields are [length] and [start] in the
    source. *)
Record v4l2_buffer_data : Type := mk_buffer {
  buf_length : Z;
  buf_start : Z
}.

(** [struct v4l2_data].  [set_device] is a [char *]: [None] is the null
    pointer.  [thread] is zero until a thread has been created; [dev] is -1
    while no descriptor is held.  [buf] is the array [bzalloc] returned. *)
Record v4l2_data : Type := mk_data {
  source : Z;
  thread : Z;
  event : Z;
  set_device : option string;
  set_pixfmt : Z;
  set_res : Z;
  set_fps : Z;
  dev : Z;
  frames : Z;
  width : Z;
  height : Z;
  pixfmt : Z;
  linesize : Z;
  buf_count : Z;
  buf : list v4l2_buffer_data
}.

(** [bzalloc(sizeof(struct v4l2_data)); data->dev = -1; data->source = source]
    of [v4l2_create]. *)
Definition fresh_data (src : Z) : v4l2_data :=
  mk_data src 0 0 None 0 0 0 (-1) 0 0 0 0 0 0 [].

Definition with_thread (t ev : Z) (d : v4l2_data) : v4l2_data :=
  mk_data (source d) t ev (set_device d) (set_pixfmt d) (set_res d)
          (set_fps d) (dev d) (frames d) (width d) (height d) (pixfmt d)
          (linesize d) (buf_count d) (buf d).

Definition with_event (ev : Z) (d : v4l2_data) : v4l2_data :=
  with_thread (thread d) ev d.

Definition with_config (devname : option string) (fmt res fps : Z)
    (d : v4l2_data) : v4l2_data :=
  mk_data (source d) (thread d) (event d) devname fmt res fps (dev d)
          (frames d) (width d) (height d) (pixfmt d) (linesize d)
          (buf_count d) (buf d).

Definition with_dev (fd : Z) (d : v4l2_data) : v4l2_data :=
  mk_data (source d) (thread d) (event d) (set_device d) (set_pixfmt d)
          (set_res d) (set_fps d) fd (frames d) (width d) (height d)
          (pixfmt d) (linesize d) (buf_count d) (buf d).

Definition with_frames (n : Z) (d : v4l2_data) : v4l2_data :=
  mk_data (source d) (thread d) (event d) (set_device d) (set_pixfmt d)
          (set_res d) (set_fps d) (dev d) n (width d) (height d)
          (pixfmt d) (linesize d) (buf_count d) (buf d).

Definition with_format (w h fmt stride : Z) (d : v4l2_data) : v4l2_data :=
  mk_data (source d) (thread d) (event d) (set_device d) (set_pixfmt d)
          (set_res d) (set_fps d) (dev d) (frames d) w h fmt stride
          (buf_count d) (buf d).

Definition with_buffers (n : Z) (bs : list v4l2_buffer_data)
    (d : v4l2_data) : v4l2_data :=
  mk_data (source d) (thread d) (event d) (set_device d) (set_pixfmt d)
          (set_res d) (set_fps d) (dev d) (frames d) (width d) (height d)
          (pixfmt d) (linesize d) n bs.

(** ** Plane layout (lines 286-323) *)

(** Modelled from the spec: the fixed-size per-plane arrays of section 9
    ("fixed-size array of per-plane pointers with unused slots zeroed");
    libobs declares their size, MAX_AV_PLANES, in a header that is not
    part of the plugin.  The layout code writes planes 0 to 2 only. *)
Definition MAX_AV_PLANES : nat := 8.

(** The fields of [struct source_frame] the plugin fills in.  [frame_data]
    holds the plane pointers, [frame_linesize] the [uint32_t] strides. *)
Record source_frame : Type := mk_frame {
  frame_data : list Z;
  frame_linesize : list Z;
  frame_width : Z;
  frame_height : Z;
  frame_timestamp : Z;
  frame_format : video_format
}.

Definition zero_planes : list Z := replicate MAX_AV_PLANES 0.

(** [v4l2_prep_obs_frame]: both arrays are cleared, then the [switch] on the
    negotiated pixel format writes strides and offsets.  Offsets are
    [size_t] products of the [uint_fast32_t] stride and the height. *)
Definition v4l2_prep_obs_frame (data : v4l2_data) : source_frame * list Z :=
  let ls := wrap_u32 (linesize data) in
  let half := wrap_u32 (linesize data / 2) in
  let luma := wrap_u64 (linesize data * wrap_u64 (height data)) in
  let luma54 := wrap_u64 (luma * 5) / 4 in
  let frame (strides : list Z) :=
    mk_frame zero_planes strides (wrap_u32 (width data))
             (wrap_u32 (height data)) 0
             (v4l2_to_obs_video_format (wrap_u64 (pixfmt data))) in
  if pixfmt data =? V4L2_PIX_FMT_NV12 then
    (frame (<[1%nat := half]> (<[0%nat := ls]> zero_planes)),
     <[1%nat := luma]> zero_planes)
  else if pixfmt data =? V4L2_PIX_FMT_YVU420 then
    (frame (<[2%nat := half]> (<[1%nat := half]> (<[0%nat := ls]> zero_planes))),
     <[2%nat := luma]> (<[1%nat := luma54]> zero_planes))
  else if pixfmt data =? V4L2_PIX_FMT_YUV420 then
    (frame (<[2%nat := half]> (<[1%nat := half]> (<[0%nat := ls]> zero_planes))),
     <[2%nat := luma54]> (<[1%nat := luma]> zero_planes))
  else
    (frame (<[0%nat := ls]> zero_planes), zero_planes).

(** ** Operations on the outside world

    Every call that leaves the plugin is logged, in program order.  [fd]
    arguments are the descriptor the call was made on. *)
Inductive op : Type :=
| OpOpen (path : string) (fd : Z)            (* v4l2_open; fd = -1: failed *)
| OpV4l2Close (fd : Z)                       (* v4l2_close *)
| OpClose (fd : Z)                           (* close, used by enumeration *)
| OpQueryCap (fd : Z) (ok : bool)            (* VIDIOC_QUERYCAP *)
| OpSetFormat (fd w h fmt : Z) (ok : bool)   (* VIDIOC_S_FMT *)
| OpSetParm (fd num den : Z) (ok : bool)     (* VIDIOC_S_PARM *)
| OpReqBufs (fd : Z) (ok : bool)             (* VIDIOC_REQBUFS *)
| OpQueryBuf (fd : Z) (index : nat) (ok : bool)
| OpBzalloc (count : Z)
| OpBfree
| OpMmap (len off addr : Z)                  (* v4l2_mmap; addr = MAP_FAILED: failed *)
| OpMunmap (addr len : Z)                    (* v4l2_munmap *)
| OpEventInit (ok : bool)
| OpEventSignal (ev : Z)
| OpEventDestroy (ev : Z)
| OpThreadCreate (ok : bool)
| OpThreadJoin (tid : Z)
| OpQbuf (fd : Z) (index : nat) (ok : bool)  (* VIDIOC_QBUF *)
| OpDqbuf (fd : Z) (ok : bool)               (* VIDIOC_DQBUF *)
| OpStreamOn (fd : Z) (ok : bool)
| OpStreamOff (fd : Z) (ok : bool)
| OpSelect (fd sec usec : Z)                 (* select with timeout sec, usec *)
| OpDeliver (src : Z) (frame : source_frame) (* obs_source_output_video *)
| OpListAdd (name value : string).           (* obs_property_list_add_string *)

(** The process-side state outside [struct v4l2_data]: the regions
    currently mapped, as (address, length), and the log. *)
Record world : Type := mk_world {
  mapped : list (Z * Z);
  trace : list op
}.

Definition log (ops : list op) (w : world) : world :=
  mk_world (mapped w) (trace w ++ ops).

Definition region_eqb (r s : Z * Z) : bool :=
  (fst r =? fst s) && (snd r =? snd s).

(** [munmap] of a region that is not mapped fails and changes nothing. *)
Fixpoint unmap_region (r : Z * Z) (m : list (Z * Z)) : list (Z * Z) :=
  match m with
  | [] => []
  | s :: m' => if region_eqb r s then m' else s :: unmap_region r m'
  end.

Definition do_mmap (len off addr : Z) (w : world) : world :=
  mk_world (if addr =? MAP_FAILED then mapped w else mapped w ++ [(addr, len)])
           (trace w ++ [OpMmap len off addr]).

Definition do_munmap (addr len : Z) (w : world) : world :=
  mk_world (unmap_region (addr, len) (mapped w))
           (trace w ++ [OpMunmap addr len]).

(** ** What the device answers

    One record per session attempt: the result of each kernel or libobs
    call that [v4l2_init] and [v4l2_create_mmap] make.  [None] (or -1, or
    [MAP_FAILED]) is the failing answer. *)
Record device : Type := mk_device {
  answer_open : string -> Z;
  answer_s_fmt : Z -> Z -> Z -> option (Z * Z * Z * Z);
  answer_s_parm : Z -> Z -> bool;
  answer_reqbufs : option Z;
  answer_querybuf : nat -> option (Z * Z);
  answer_mmap : nat -> Z;
  answer_event_init : option Z;
  answer_thread_create : option Z
}.

(** ** Buffer pool (lines 214-273) *)

(** The [for] loop of [v4l2_create_mmap], lines 235-256: [todo] buffers
    remain, [i] is the index.  Both failure branches [return -1] at once. *)
Fixpoint map_buffers (e : device) (todo i : nat) (data : v4l2_data)
    (w : world) : Z * v4l2_data * world :=
  match todo with
  | O => (0, data, w)
  | S todo' =>
      match answer_querybuf e i with
      | None => (-1, data, log [OpQueryBuf (dev data) i false] w)
      | Some (len, off) =>
          let addr := answer_mmap e i in
          let data' :=
            with_buffers (buf_count data)
                         (<[i := mk_buffer len addr]> (buf data)) data in
          let w' := do_mmap len off addr
                            (log [OpQueryBuf (dev data) i true] w) in
          if addr =? MAP_FAILED then (-1, data', w')
          else map_buffers e todo' (S i) data' w'
      end
  end.

Definition v4l2_create_mmap (e : device) (data : v4l2_data) (w : world)
    : Z * v4l2_data * world :=
  match answer_reqbufs e with
  | None => (-1, data, log [OpReqBufs (dev data) false] w)
  | Some count =>
      let w1 := log [OpReqBufs (dev data) true] w in
      if count <? 2 then (-1, data, w1)
      else
        let data1 :=
          with_buffers count (replicate (Z.to_nat count) (mk_buffer 0 0))
                       data in
        map_buffers e (Z.to_nat count) 0 data1 (log [OpBzalloc count] w1)
  end.

(** The loop of [v4l2_destroy_mmap] over the first [buf_count] slots. *)
Fixpoint unmap_buffers (bs : list v4l2_buffer_data) (w : world) : world :=
  match bs with
  | [] => w
  | b :: bs' =>
      unmap_buffers bs'
        (if buf_start b =? MAP_FAILED then w
         else do_munmap (buf_start b) (buf_length b) w)
  end.

(** [buf_count] is the length of [buf] whenever it is not zero, so [take]
    reads exactly the slots the loop reads.  The pointer [data->buf] is
    left as it is after [bfree]. *)
Definition v4l2_destroy_mmap (data : v4l2_data) (w : world)
    : v4l2_data * world :=
  let w1 := unmap_buffers (take (Z.to_nat (buf_count data)) (buf data)) w in
  (with_buffers 0 (buf data) data, log [OpBfree] w1).

(** ** Session controller (lines 690-796) *)

Definition v4l2_terminate (data : v4l2_data) (w : world)
    : v4l2_data * world :=
  let w1 :=
    if thread data =? 0 then w
    else log [OpEventSignal (event data); OpThreadJoin (thread data);
              OpEventDestroy (event data)] w in
  let '(data2, w2) :=
    if buf_count data =? 0 then (data, w1) else v4l2_destroy_mmap data w1 in
  if dev data2 =? -1 then (data2, w2)
  else (with_dev (-1) data2, log [OpV4l2Close (dev data2)] w2).

(** [v4l2_init]; every [goto fail] is a call of [v4l2_terminate]. *)
Definition v4l2_init (e : device) (data : v4l2_data) (w : world)
    : v4l2_data * world :=
  let path := default EmptyString (set_device data) in
  let fd := match set_device data with
            | Some p => answer_open e p
            | None => -1
            end in
  let data1 := with_dev fd data in
  let w1 := log [OpOpen path fd] w in
  if fd =? -1 then v4l2_terminate data1 w1
  else
    let '(rw, rh) := unpack_tuple (wrap_int (set_res data)) in
    let rw := wrap_u32 rw in
    let rh := wrap_u32 rh in
    let rf := wrap_u32 (set_pixfmt data) in
    match answer_s_fmt e rw rh rf with
    | None => v4l2_terminate data1 (log [OpSetFormat fd rw rh rf false] w1)
    | Some (gw, gh, gf, stride) =>
        let data2 := with_format gw gh gf stride data1 in
        let w2 := log [OpSetFormat fd rw rh rf true] w1 in
        let '(num, den) := unpack_tuple (wrap_int (set_fps data)) in
        let num := wrap_u32 num in
        let den := wrap_u32 den in
        if negb (answer_s_parm e num den)
        then v4l2_terminate data2 (log [OpSetParm fd num den false] w2)
        else
          let w3 := log [OpSetParm fd num den true] w2 in
          let '(r, data3, w4) := v4l2_create_mmap e data2 w3 in
          if r <? 0 then v4l2_terminate data3 w4
          else
            match answer_event_init e with
            | None => v4l2_terminate data3 (log [OpEventInit false] w4)
            | Some ev =>
                let data4 := with_event ev data3 in
                let w5 := log [OpEventInit true] w4 in
                match answer_thread_create e with
                | None =>
                    v4l2_terminate data4 (log [OpThreadCreate false] w5)
                | Some tid =>
                    (with_thread tid ev data4,
                     log [OpThreadCreate true] w5)
                end
            end
    end.

(** ** Settings and device enumeration (lines 411-465) *)

(** Modelled from the spec: the settings store of section 6, which holds
    the four scalar configuration fields [device_id], [pixelformat],
    [resolution] and [framerate]; [obs_data_getstring] and
    [obs_data_getint] read them, [obs_data_setstring] writes [device_id].
    A null [obs_data_t] ignores writes. *)
Record obs_data : Type := mk_settings {
  device_id : string;
  pixelformat : Z;
  resolution : Z;
  framerate : Z
}.

Definition obs_data_setstring_device_id (settings : option obs_data)
    (value : string) : option obs_data :=
  match settings with
  | Some s => Some (mk_settings value (pixelformat s) (resolution s)
                                (framerate s))
  | None => None
  end.

(** Modelled from the spec: the property list of section 6 that receives
    the (label, value) pairs; a null [obs_property_t] ignores additions. *)
Definition obs_property_list_add_string (prop : option (list (string * string)))
    (name value : string) : option (list (string * string)) :=
  match prop with
  | Some items => Some (items ++ [(name, value)])
  | None => None
  end.

Definition obs_property_list_clear (prop : option (list (string * string)))
    : option (list (string * string)) :=
  match prop with
  | Some _ => Some []
  | None => None
  end.

(** One entry [readdir] returns from /sys/class/video4linux, with what the
    system answers when the entry's device node is probed: the descriptor
    [v4l2_open] returns (-1 on failure) and the capabilities and card name
    of VIDIOC_QUERYCAP ([None] when the ioctl fails). *)
Record dir_entry : Type := mk_entry {
  d_name : string;
  d_is_dir : bool;
  probe_fd : Z;
  probe_cap : option (Z * string)
}.

Definition V4L2_CAP_VIDEO_CAPTURE : Z := 1.

(** The [while ((dp = readdir(dirp)) != NULL)] loop, lines 428-461. *)
Fixpoint scan_devices (entries : list dir_entry) (first : bool)
    (prop : option (list (string * string))) (settings : option obs_data)
    (w : world)
    : option (list (string * string)) * option obs_data * world :=
  match entries with
  | [] => (prop, settings, w)
  | dp :: rest =>
      if d_is_dir dp then scan_devices rest first prop settings w
      else
        let device := ("/dev/" ++ d_name dp)%string in
        let fd := probe_fd dp in
        let w1 := log [OpOpen device fd] w in
        if fd =? -1 then scan_devices rest first prop settings w1
        else
          match probe_cap dp with
          | None =>
              scan_devices rest first prop settings
                           (log [OpQueryCap fd false; OpClose fd] w1)
          | Some (caps, card) =>
              if Z.land caps V4L2_CAP_VIDEO_CAPTURE =? 0 then
                scan_devices rest first prop settings
                             (log [OpQueryCap fd true; OpClose fd] w1)
              else
                scan_devices rest false
                  (obs_property_list_add_string prop card device)
                  (if first
                   then obs_data_setstring_device_id settings device
                   else settings)
                  (log [OpQueryCap fd true; OpListAdd card device;
                        OpClose fd] w1)
          end
  end.

(** [v4l2_device_list]; [sysfs] is [None] when [opendir] fails. *)
Definition v4l2_device_list (sysfs : option (list dir_entry))
    (prop : option (list (string * string))) (settings : option obs_data)
    (w : world)
    : option (list (string * string)) * option obs_data * world :=
  match sysfs with
  | None => (prop, settings, w)
  | Some entries =>
      scan_devices entries true (obs_property_list_clear prop) settings w
  end.

(** ** Reconfiguration (lines 798-836) *)

Definition strlen (s : string) : Z := Z.of_nat (String.length s).

(** The four comparisons of [v4l2_update], each committing its field and
    raising [restart]; the result is the updated data and the flag. *)
Definition commit_config (data : v4l2_data) (settings : obs_data)
    : v4l2_data * bool :=
  let new_device := device_id settings in
  let '(data1, restart1) :=
    match set_device data with
    | Some old =>
        if String.eqb old new_device then (data, false)
        else (with_config (Some new_device) (set_pixfmt data) (set_res data)
                          (set_fps data) data, true)
    | None =>
        (with_config (Some new_device) (set_pixfmt data) (set_res data)
                     (set_fps data) data, true)
    end in
  let '(data2, restart2) :=
    if set_pixfmt data1 =? pixelformat settings then (data1, restart1)
    else (with_config (set_device data1) (pixelformat settings)
                      (set_res data1) (set_fps data1) data1, true) in
  let '(data3, restart3) :=
    if set_res data2 =? resolution settings then (data2, restart2)
    else (with_config (set_device data2) (set_pixfmt data2)
                      (resolution settings) (set_fps data2) data2, true) in
  if set_fps data3 =? framerate settings then (data3, restart3)
  else (with_config (set_device data3) (set_pixfmt data3) (set_res data3)
                    (framerate settings) data3, true).

(** Lines 804-808: a blank device id runs the enumeration on the settings
    and reads the id again. *)
Definition select_device (sysfs : option (list dir_entry))
    (settings : obs_data) (w : world) : obs_data * world :=
  if strlen (device_id settings) =? 0 then
    match v4l2_device_list sysfs None (Some settings) w with
    | (_, Some settings', w') => (settings', w')
    | (_, None, w') => (settings, w')
    end
  else (settings, w).

Definition v4l2_update (sysfs : option (list dir_entry)) (e : device)
    (data : v4l2_data) (settings : obs_data) (w : world)
    : v4l2_data * obs_data * world :=
  let '(settings1, w1) := select_device sysfs settings w in
  let '(data1, restart) := commit_config data settings1 in
  if restart then
    let '(data2, w2) := v4l2_terminate data1 w1 in
    let '(data3, w3) := v4l2_init e data2 w2 in
    (data3, settings1, w3)
  else (data1, settings1, w1).

(** [v4l2_create]: zeroed data, then the initial update. *)
Definition v4l2_create (sysfs : option (list dir_entry)) (e : device)
    (settings : obs_data) (src : Z) (w : world)
    : v4l2_data * obs_data * world :=
  v4l2_update sysfs e (fresh_data src) settings w.

(** ** Capture thread (lines 167-205 and 328-393) *)

Definition EINTR : Z := 4.
Definition EAGAIN : Z := 11.

Inductive select_result : Type :=
| SelectError (errno : Z)      (* r < 0 *)
| SelectTimeout                (* r == 0 *)
| SelectReady.                 (* r > 0 *)

Inductive dqbuf_result : Type :=
| DqbufError (errno : Z)
| DqbufOk (index : nat) (tv_sec tv_usec : Z).

(** What happens during one pass of the [while] loop: whether the control
    context signals the stop event while the thread is inside the pass (it
    blocks only in [select]), and what [select], VIDIOC_DQBUF and the
    re-queueing VIDIOC_QBUF answer if they are reached. *)
Record tick : Type := mk_tick {
  stop_during_wait : bool;
  tick_select : select_result;
  tick_dqbuf : dqbuf_result;
  tick_requeue : bool
}.

(** The answers to the start-up and shut-down requests. *)
Record stream : Type := mk_stream {
  answer_qbuf : nat -> bool;
  answer_streamon : bool;
  answer_streamoff : bool
}.

(** The queueing loop of [v4l2_start_capture]. *)
Fixpoint queue_buffers (s : stream) (todo i : nat) (data : v4l2_data)
    (w : world) : Z * world :=
  match todo with
  | O => (0, w)
  | S todo' =>
      if answer_qbuf s i
      then queue_buffers s todo' (S i) data (log [OpQbuf (dev data) i true] w)
      else (-1, log [OpQbuf (dev data) i false] w)
  end.

Definition v4l2_start_capture (s : stream) (data : v4l2_data) (w : world)
    : Z * world :=
  let '(r, w1) := queue_buffers s (Z.to_nat (buf_count data)) 0 data w in
  if r <? 0 then (-1, w1)
  else if answer_streamon s then (0, log [OpStreamOn (dev data) true] w1)
  else (-1, log [OpStreamOn (dev data) false] w1).

(** [v4l2_stop_capture] logs a failure and returns 0 either way. *)
Definition v4l2_stop_capture (s : stream) (data : v4l2_data) (w : world)
    : Z * world :=
  (0, log [OpStreamOff (dev data) (answer_streamoff s)] w).

(** [timeval2ns]. *)
Definition timeval2ns (tv_sec tv_usec : Z) : Z :=
  wrap_u64 (wrap_u64 (wrap_u64 tv_sec * 1000000000)
            + wrap_u64 (wrap_u64 tv_usec * 1000)).

(** Lines 374-377: the frame handed to the sink for the buffer dequeued.
    An index past the array is not a read the model gives a value to. *)
Definition output_frame (data : v4l2_data) (out : source_frame)
    (plane_offsets : list Z) (index : nat) (tv_sec tv_usec : Z)
    : source_frame :=
  let start := match buf data !! index with
               | Some b => buf_start b
               | None => 0
               end in
  mk_frame (map (fun off => start + off) plane_offsets)
           (frame_linesize out) (frame_width out) (frame_height out)
           (timeval2ns tv_sec tv_usec) (frame_format out).

(** The [while (os_event_try(data->event) == EAGAIN)] loop.  [stopped] is
    the state of the manual-reset event; the loop consumes one [tick] per
    pass and yields [None] when the script ends while it is still running.
    A [Some] result is the state at the statement after the loop.

    The descriptor set is filled once, before the loop (lines 344-345),
    and [select] rewrites it: every pass takes its answer from the
    script, so the scripts range over more than the kernel answers, in
    particular over a ready descriptor after a wait that timed out. *)
Fixpoint capture_loop (script : list tick) (stopped : bool)
    (out : source_frame) (plane_offsets : list Z) (data : v4l2_data)
    (w : world) : option (v4l2_data * world) :=
  if stopped then Some (data, w)
  else
    match script with
    | [] => None
    | t :: rest =>
        let stopped' := stop_during_wait t in
        let w1 := log [OpSelect (dev data) 1 0] w in
        match tick_select t with
        | SelectError errno =>
            if errno =? EINTR
            then capture_loop rest stopped' out plane_offsets data w1
            else Some (data, w1)
        | SelectTimeout =>
            capture_loop rest stopped' out plane_offsets data w1
        | SelectReady =>
            match tick_dqbuf t with
            | DqbufError errno =>
                let w2 := log [OpDqbuf (dev data) false] w1 in
                if errno =? EAGAIN
                then capture_loop rest stopped' out plane_offsets data w2
                else Some (data, w2)
            | DqbufOk index tv_sec tv_usec =>
                let frame :=
                  output_frame data out plane_offsets index tv_sec tv_usec in
                let w2 := log [OpDqbuf (dev data) true;
                               OpDeliver (source data) frame] w1 in
                if tick_requeue t
                then capture_loop rest stopped' out plane_offsets
                       (with_frames (wrap_u64 (frames data + 1)) data)
                       (log [OpQbuf (dev data) index true] w2)
                else Some (data, log [OpQbuf (dev data) index false] w2)
            end
        end
    end.

(** [v4l2_thread].  [stopped] is whether the stop event is already
    signalled when the loop is first reached. *)
Definition v4l2_thread (s : stream) (script : list tick) (stopped : bool)
    (data : v4l2_data) (w : world) : option (v4l2_data * world) :=
  let '(r, w1) := v4l2_start_capture s data w in
  if r <? 0 then Some (data, snd (v4l2_stop_capture s data w1))
  else
    let data1 := with_frames 0 data in
    let '(out, plane_offsets) := v4l2_prep_obs_frame data1 in
    match capture_loop script stopped out plane_offsets data1 w1 with
    | Some (data2, w2) => Some (data2, snd (v4l2_stop_capture s data2 w2))
    | None => None
    end.

(** ** Destruction and a source's life (lines 707-719, 838-849) *)

(** [v4l2_destroy]: a null pointer is ignored; otherwise the session is
    terminated and the device name and the data are freed.  The two
    [bfree] calls on the name and on the structure leave the world as it
    is. *)
Definition v4l2_destroy (vptr : option v4l2_data) (w : world) : world :=
  match vptr with
  | None => w
  | Some data => (v4l2_terminate data w).2
  end.

(** The calls of [v4l2_update] the host makes on one source, each with the
    directory listing, the device answers and the settings of its time. *)
Fixpoint v4l2_updates
    (calls : list (option (list dir_entry) * device * obs_data))
    (data : v4l2_data) (w : world) : v4l2_data * world :=
  match calls with
  | [] => (data, w)
  | (sysfs, e, settings) :: rest =>
      let r := v4l2_update sysfs e data settings w in
      v4l2_updates rest r.1.1 r.2
  end.

(** ** Fallback tables (lines 113-162) *)

(** The table entries are written [w<<16 | h] in the source. *)
Definition table_entry (a b : Z) : Z := Z.lor (Z.shiftl a 16) b.

(** [fixed_framesizes], with its terminating 0. *)
Definition fixed_framesizes : list Z :=
  [ (* 4:3 *)
    table_entry 160 120; table_entry 320 240; table_entry 480 320;
    table_entry 640 480; table_entry 800 600; table_entry 1024 768;
    table_entry 1280 960; table_entry 1440 1050; table_entry 1440 1080;
    table_entry 1600 1200;
    (* 16:9 *)
    table_entry 640 360; table_entry 960 540; table_entry 1280 720;
    table_entry 1600 900; table_entry 1920 1080; table_entry 1920 1200;
    (* tv *)
    table_entry 432 520; table_entry 480 320; table_entry 480 530;
    table_entry 486 440; table_entry 576 310; table_entry 576 520;
    table_entry 576 570; table_entry 720 576; table_entry 1024 576;
    0 ].

(** [fixed_framerates], with its terminating 0. *)
Definition fixed_framerates : list Z :=
  [ table_entry 1 60; table_entry 1 50; table_entry 1 30; table_entry 1 25;
    table_entry 1 20; table_entry 1 15; table_entry 1 10; table_entry 1 5;
    0 ].

(** ** Format, resolution and frame-rate lists (lines 470-597) *)

(** What VIDIOC_ENUM_FMT fills in for one index. *)
Record v4l2_fmtdesc : Type := mk_fmtdesc {
  fmt_description : string;
  fmt_flags : Z;
  fmt_pixelformat : Z
}.

Definition V4L2_FMT_FLAG_EMULATED : Z := 2.
Definition V4L2_FRMSIZE_TYPE_DISCRETE : Z := 1.
Definition V4L2_FRMIVAL_TYPE_DISCRETE : Z := 1.

(** What an open device enumerates.  An enumeration ioctl succeeds for the
    indices of its list and fails for the next one, which ends the
    [while] loop.  The two [type] fields are what the [switch] finds in
    the structure after the first call, made before the loop. *)
Record enumeration : Type := mk_enumeration {
  answer_enum_fmt : list v4l2_fmtdesc;
  answer_frmsize_type : Z -> Z;
  answer_enum_framesizes : Z -> list (Z * Z);
  answer_frmival_type : Z -> Z -> Z -> Z;
  answer_enum_frameintervals : Z -> Z -> Z -> list (Z * Z)
}.

(** [%d] applied to an [int]. *)
Definition print_int (z : Z) : string :=
  NilZero.string_of_int (Z.to_int z).

(** [dstr_printf(&buffer, "%dx%d", width, height)]. *)
Definition size_label (w h : Z) : string :=
  (print_int w ++ "x" ++ print_int h)%string.

(** The label [dstr_printf(&buffer, "%.2f", fps)] prints, with [fps =
    (float) denominator / numerator]: the floating-point rendering is not
    modelled, the label stands for the two integers it is computed
    from. *)
Inductive fps_label : Type :=
| FpsLabel (numerator denominator : Z).

(** The loop of [v4l2_format_list] over the descriptions the device
    enumerates: the label is the description, with a suffix for emulated
    formats; the entry is added only if the mapper knows the format. *)
Fixpoint list_formats (descs : list v4l2_fmtdesc) : list (string * Z) :=
  match descs with
  | [] => []
  | fmt :: rest =>
      let buffer :=
        if Z.land (fmt_flags fmt) V4L2_FMT_FLAG_EMULATED =? 0
        then fmt_description fmt
        else (fmt_description fmt ++ " (Emulated)")%string in
      match v4l2_to_obs_video_format (fmt_pixelformat fmt) with
      | VIDEO_FORMAT_NONE => list_formats rest
      | _ => (buffer, fmt_pixelformat fmt) :: list_formats rest
      end
  end.

(** [v4l2_format_list]: the property list is cleared, then filled. *)
Definition v4l2_format_list (q : enumeration) : list (string * Z) :=
  list_formats (answer_enum_fmt q).

(** The discrete loop of [v4l2_resolution_list]; the [__u32] sizes are
    passed as [int] to [dstr_printf] and to [pack_tuple]. *)
Definition list_framesizes (sizes : list (Z * Z)) : list (string * Z) :=
  map (fun size =>
         (size_label (wrap_int size.1) (wrap_int size.2),
          pack_tuple (wrap_int size.1) (wrap_int size.2)))
      sizes.

(** The fallback loop: [for (i = 0; ; ++i)] until the entry is 0. *)
Fixpoint list_fixed_framesizes (table : list Z) : list (string * Z) :=
  match table with
  | [] => []
  | packed :: rest =>
      if packed =? 0 then []
      else
        let '(width, height) := unpack_tuple packed in
        (size_label width height, packed) :: list_fixed_framesizes rest
  end.

Definition v4l2_resolution_list (q : enumeration) (pixelformat : Z)
    : list (string * Z) :=
  let pixel_format := wrap_u32 pixelformat in
  if answer_frmsize_type q pixel_format =? V4L2_FRMSIZE_TYPE_DISCRETE
  then list_framesizes (answer_enum_framesizes q pixel_format)
  else list_fixed_framesizes fixed_framesizes.

(** The discrete loop of [v4l2_framerate_list]. *)
Definition list_frameintervals (intervals : list (Z * Z))
    : list (fps_label * Z) :=
  map (fun ival =>
         (FpsLabel ival.1 ival.2,
          pack_tuple (wrap_int ival.1) (wrap_int ival.2)))
      intervals.

Fixpoint list_fixed_framerates (table : list Z) : list (fps_label * Z) :=
  match table with
  | [] => []
  | packed :: rest =>
      if packed =? 0 then []
      else
        let '(num, denom) := unpack_tuple packed in
        (FpsLabel num denom, packed) :: list_fixed_framerates rest
  end.

Definition v4l2_framerate_list (q : enumeration) (pixelformat width height : Z)
    : list (fps_label * Z) :=
  let pixel_format := wrap_u32 pixelformat in
  let w := wrap_u32 width in
  let h := wrap_u32 height in
  if answer_frmival_type q pixel_format w h =? V4L2_FRMIVAL_TYPE_DISCRETE
  then list_frameintervals (answer_enum_frameintervals q pixel_format w h)
  else list_fixed_framerates fixed_framerates.

(** ** Properties and selection callbacks (lines 599-688) *)

(** The four lists [v4l2_properties] creates. *)
Record obs_properties : Type := mk_properties {
  list_device_id : list (string * string);
  list_pixelformat : list (string * Z);
  list_resolution : list (string * Z);
  list_framerate : list (fps_label * Z)
}.

(** A modified-callback, as [obs_property_set_modified_callback] takes
    it: from the properties and the settings to a flag. *)
Definition callback : Type :=
  obs_properties -> obs_data -> world -> bool * obs_properties * world.

(** Modelled from the spec: section 6 has a selection-changed notification
    on device, format or resolution trigger the re-enumeration of the
    dependent downstream list (device change, format list; format change,
    resolution list; resolution change, frame-rate list).
    [obs_property_modified] on a list is that notification: it runs the
    callback registered for the list, with the same settings, and does
    nothing for a list without one. *)
Definition obs_property_modified (modified : option callback)
    (props : obs_properties) (settings : obs_data) (w : world)
    : bool * obs_properties * world :=
  match modified with
  | Some cb => cb props settings w
  | None => (false, props, w)
  end.

(** The callbacks.  [open n path] is what the [n]-th [v4l2_open] of a run
    answers: a callback opens the device while the descriptor of the
    callback that notified it is still open.  Lines 683-686 register
    [format_selected] on the pixel format list and [resolution_selected]
    on the resolution list, and nothing on the frame-rate list; these are
    the callbacks [obs_property_modified] is given below.  No caller
    reads its result. *)
Definition resolution_selected (open : nat -> string -> Z) (q : enumeration)
    (n : nat) : callback :=
  fun props settings w =>
    let dev := open n (device_id settings) in
    let w1 := log [OpOpen (device_id settings) dev] w in
    if dev =? -1 then (false, props, w1)
    else
      let '(width, height) := unpack_tuple (wrap_int (resolution settings)) in
      let props1 :=
        mk_properties (list_device_id props) (list_pixelformat props)
                      (list_resolution props)
                      (v4l2_framerate_list q (wrap_u64 (pixelformat settings))
                                           (wrap_u64 width) (wrap_u64 height)) in
      let '(_, props2, w2) := obs_property_modified None props1 settings w1 in
      (true, props2, log [OpV4l2Close dev] w2).

Definition format_selected (open : nat -> string -> Z) (q : enumeration)
    (n : nat) : callback :=
  fun props settings w =>
    let dev := open n (device_id settings) in
    let w1 := log [OpOpen (device_id settings) dev] w in
    if dev =? -1 then (false, props, w1)
    else
      let props1 :=
        mk_properties (list_device_id props) (list_pixelformat props)
                      (v4l2_resolution_list q (wrap_u64 (pixelformat settings)))
                      (list_framerate props) in
      let '(_, props2, w2) :=
        obs_property_modified (Some (resolution_selected open q (S n)))
                              props1 settings w1 in
      (true, props2, log [OpV4l2Close dev] w2).

Definition device_selected (open : nat -> string -> Z) (q : enumeration)
    (n : nat) : callback :=
  fun props settings w =>
    let dev := open n (device_id settings) in
    let w1 := log [OpOpen (device_id settings) dev] w in
    if dev =? -1 then (false, props, w1)
    else
      let props1 :=
        mk_properties (list_device_id props) (v4l2_format_list q)
                      (list_resolution props) (list_framerate props) in
      let '(_, props2, w2) :=
        obs_property_modified (Some (format_selected open q (S n)))
                              props1 settings w1 in
      (true, props2, log [OpV4l2Close dev] w2).

(** [v4l2_properties]: the four lists are created and the device list is
    filled by [v4l2_device_list], called without settings.  The three
    registrations that follow are the [Some] arguments above. *)
Definition v4l2_properties (sysfs : option (list dir_entry)) (w : world)
    : obs_properties * world :=
  let r := v4l2_device_list sysfs (Some []) None w in
  (mk_properties (default [] r.1.1) [] [] [], r.2).

(** * Vocabulary of the properties, and sample inputs

    Predicates over logs and answers in which the properties are stated,
    and the concrete devices, directories and settings on which they are
    run. *)

(** ** Plane layout *)

(** Source data negotiated to 640 by 480 with a stride of 640 bytes. *)
Definition vga_data (fmt : Z) (data : v4l2_data) : v4l2_data :=
  with_format 640 480 fmt 640 data.

(** ** Buffer pool *)

(** The region a filled slot stands for. *)
Definition region (b : v4l2_buffer_data) : Z * Z :=
  (buf_start b, buf_length b).

Definition is_mapped (b : v4l2_buffer_data) : Prop :=
  buf_start b <> MAP_FAILED.

(** Buffers 0 to [i]-1 are queried and mapped successfully. *)
Definition maps_until (e : device) (i : nat) : Prop :=
  forall j : nat, (j < i)%nat ->
    (exists len off, answer_querybuf e j = Some (len, off))
    /\ answer_mmap e j <> MAP_FAILED.

(** Querying or mapping buffer [i] fails. *)
Definition fails_at (e : device) (i : nat) : Prop :=
  answer_querybuf e i = None \/ answer_mmap e i = MAP_FAILED.

Definition is_munmap (o : op) : bool :=
  match o with OpMunmap _ _ => true | _ => false end.

(** A device that grants four buffers and fails to map the third. *)
Definition third_mapping_fails : device :=
  mk_device (fun _ => 3) (fun w h f => Some (w, h, f, 2 * w))
            (fun _ _ => true) (Some 4)
            (fun i => Some (614400, 614400 * Z.of_nat i))
            (fun i => if Nat.eqb i 2 then MAP_FAILED
                      else 4096 * (1 + Z.of_nat i))
            (Some 1) (Some 7).

Definition vga_request : v4l2_data :=
  with_config (Some "/dev/video0"%string) V4L2_PIX_FMT_YUYV
              (pack_tuple 640 480) (pack_tuple 1 30) (fresh_data 0).

Definition idle_world : world := mk_world [] [].

(** ** Teardown *)

(** What the thread branch of [v4l2_terminate] does. *)
Definition stop_thread_ops (data : v4l2_data) : list op :=
  if thread data =? 0 then []
  else [OpEventSignal (event data); OpThreadJoin (thread data);
        OpEventDestroy (event data)].

(** A live session: thread 7 waiting on event 1, four buffers mapped,
    descriptor 3 open. *)
Definition live_session : v4l2_data :=
  mk_data 0 7 1 (Some "/dev/video0"%string) V4L2_PIX_FMT_YUYV
          (pack_tuple 640 480) (pack_tuple 1 30) 3 0 640 480
          V4L2_PIX_FMT_YUYV 1280 4
          [mk_buffer 614400 4096; mk_buffer 614400 8192;
           mk_buffer 614400 12288; mk_buffer 614400 16384].

Definition live_world : world :=
  mk_world [(4096, 614400); (8192, 614400); (12288, 614400); (16384, 614400)]
           [].

(** ** Reconfiguration *)

(** The stored configuration, as [v4l2_update] compares it. *)
Definition stored_config (data : v4l2_data) : option string * Z * Z * Z :=
  (set_device data, set_pixfmt data, set_res data, set_fps data).

Definition config_of (settings : obs_data) : option string * Z * Z * Z :=
  (Some (device_id settings), pixelformat settings, resolution settings,
   framerate settings).

(** All four fields of [settings] equal the stored ones. *)
Definition same_config (data : v4l2_data) (settings : obs_data) : Prop :=
  stored_config data = config_of settings.

(** The stored fields overwritten with those of [settings]. *)
Definition committed (data : v4l2_data) (settings : obs_data) : v4l2_data :=
  with_config (Some (device_id settings)) (pixelformat settings)
              (resolution settings) (framerate settings) data.

(** Opening, closing, mapping and unmapping. *)
Definition is_resource_op (o : op) : bool :=
  match o with
  | OpOpen _ _ | OpV4l2Close _ | OpClose _ | OpMmap _ _ _ | OpMunmap _ _ =>
      true
  | _ => false
  end.

(** What the enumeration does on a probe handle. *)
Definition is_probe_op (o : op) : bool :=
  match o with
  | OpOpen _ _ | OpClose _ | OpQueryCap _ _ | OpListAdd _ _ => true
  | _ => false
  end.

(** Lines 832-835: [v4l2_terminate] followed by [v4l2_init]. *)
Definition restart (e : device) (data : v4l2_data) (w : world)
    : v4l2_data * world :=
  let stop := v4l2_terminate data w in
  v4l2_init e stop.1 stop.2.

Definition blank_settings : obs_data :=
  mk_settings EmptyString V4L2_PIX_FMT_YUYV (pack_tuple 640 480)
              (pack_tuple 1 30).

Definition video0_settings : obs_data :=
  mk_settings "/dev/video0" V4L2_PIX_FMT_YUYV (pack_tuple 640 480)
              (pack_tuple 1 30).

(** The source after an update with [blank_settings] found no device. *)
Definition blank_previous : v4l2_data := committed (fresh_data 0) blank_settings.

(** /sys/class/video4linux with one node that opens but cannot capture
    (its capabilities are V4L2_CAP_VIDEO_OUTPUT only). *)
Definition tuner_only : option (list dir_entry) :=
  Some [mk_entry "video0" false 5 (Some (2, "tuner"%string))].

(** The same directory with one capture device. *)
Definition one_camera : option (list dir_entry) :=
  Some [mk_entry "video0" false 5 (Some (1, "camera"%string))].

(** A device on which every request succeeds. *)
Definition working_device : device :=
  mk_device (fun _ => 3) (fun w h f => Some (w, h, f, 2 * w))
            (fun _ _ => true) (Some 4)
            (fun i => Some (614400, 614400 * Z.of_nat i))
            (fun i => 4096 * (1 + Z.of_nat i))
            (Some 1) (Some 7).

(** No device node can be opened. *)
Definition no_device : device :=
  mk_device (fun _ => -1) (fun _ _ _ => None) (fun _ _ => false) None
            (fun _ => None) (fun _ => MAP_FAILED) None None.

(** ** Device enumeration *)

(** The entry is a device node that opens, answers the capability query
    and advertises video capture. *)
Definition capture_capable (dp : dir_entry) : bool :=
  negb (d_is_dir dp) && negb (probe_fd dp =? -1)
  && match probe_cap dp with
     | Some (caps, _) => negb (Z.land caps V4L2_CAP_VIDEO_CAPTURE =? 0)
     | None => false
     end.

Definition device_path (dp : dir_entry) : string :=
  ("/dev/" ++ d_name dp)%string.

Definition card_name (dp : dir_entry) : string :=
  match probe_cap dp with
  | Some (_, card) => card
  | None => EmptyString
  end.

(** The list items of the capture devices among [entries], in order. *)
Definition capture_items (entries : list dir_entry) : list (string * string) :=
  map (fun dp => (card_name dp, device_path dp))
      (List.filter capture_capable entries).

(** [settings] with the first capture device of [entries], if any, as its
    device id. *)
Definition with_default_device (entries : list dir_entry)
    (settings : option obs_data) : option obs_data :=
  match List.filter capture_capable entries with
  | dp :: _ => obs_data_setstring_device_id settings (device_path dp)
  | [] => settings
  end.

(** [video0_settings] at 60 frames per second. *)
Definition video0_faster : obs_data :=
  mk_settings "/dev/video0" V4L2_PIX_FMT_YUYV (pack_tuple 640 480)
              (pack_tuple 1 60).

Definition video1_settings : obs_data :=
  mk_settings "/dev/video1" V4L2_PIX_FMT_YUYV (pack_tuple 640 480)
              (pack_tuple 1 30).

(** ** Capture thread *)

Definition is_streamoff (o : op) : bool :=
  match o with OpStreamOff _ _ => true | _ => false end.

Definition is_deliver (o : op) : bool :=
  match o with OpDeliver _ _ => true | _ => false end.

Definition is_select (o : op) : bool :=
  match o with OpSelect _ _ _ => true | _ => false end.

(** Every wait in [ops] is a [select] on [fd] bounded by one second. *)
Definition waits_one_second (fd : Z) (ops : list op) : Prop :=
  filter is_select ops =
  replicate (length (filter is_select ops)) (OpSelect fd 1 0).

(** [ops] ends with the one stream-off request it contains. *)
Definition stream_off_last (fd : Z) (ops : list op) : Prop :=
  exists before ok,
    ops = before ++ [OpStreamOff fd ok] /\ filter is_streamoff before = [].

(** No frame is handed to the sink after a stream-off request. *)
Definition no_frame_after_stream_off (ops : list op) : Prop :=
  forall l1 o l2, ops = l1 ++ o :: l2 -> is_streamoff o = true ->
    filter is_deliver l2 = [].

(** A device that answers every streaming request. *)
Definition good_stream : stream := mk_stream (fun _ => true) true true.

(** The second buffer cannot be queued. *)
Definition bad_queue : stream := mk_stream (fun i => Nat.eqb i 0) true true.

(** A pass in which the wait times out. *)
Definition idle_tick : tick :=
  mk_tick false SelectTimeout (DqbufError EAGAIN) true.

(** A pass in which buffer 1 is ready; the stop event is signalled
    while the thread waits. *)
Definition stop_tick : tick :=
  mk_tick true SelectReady (DqbufOk 1 10 500000) true.

(** ** Initialisation *)

(** The mapped regions are those of the filled slots of the buffer array
    (or nothing is mapped at all), so that [v4l2_destroy_mmap] reaches
    every one of them. *)
Definition owns_mappings (data : v4l2_data) (w : world) : Prop :=
  mapped w = []
  \/ exists done pending,
       buf data = done ++ pending
       /\ Forall is_mapped done
       /\ mapped w = map region done
       /\ (length (buf data) <= Z.to_nat (buf_count data))%nat.

(** A device that grants a single buffer. *)
Definition one_buffer : device :=
  mk_device (fun _ => 3) (fun w h f => Some (w, h, f, 2 * w))
            (fun _ _ => true) (Some 1)
            (fun i => Some (614400, 614400 * Z.of_nat i))
            (fun i => 4096 * (1 + Z.of_nat i))
            (Some 1) (Some 7).

(** ** A source's life *)

(** The descriptors open once [fd] is closed.  Closing a descriptor that
    is not open is an error. *)
Fixpoint close_fd (fd : Z) (open : list Z) : option (list Z) :=
  match open with
  | [] => None
  | x :: rest =>
      if x =? fd then Some rest else option_map (cons x) (close_fd fd rest)
  end.

(** The descriptors open after a log, given those open before it: a
    successful open adds the descriptor it returns, a close removes the
    descriptor it names.  [None]: the log closes a descriptor that is not
    open at that point. *)
Fixpoint open_after (ops : list op) (open : list Z) : option (list Z) :=
  match ops with
  | [] => Some open
  | OpOpen _ fd :: rest =>
      open_after rest (if fd =? -1 then open else fd :: open)
  | OpV4l2Close fd :: rest | OpClose fd :: rest =>
      match close_fd fd open with
      | Some open' => open_after rest open'
      | None => None
      end
  | _ :: rest => open_after rest open
  end.

(** The descriptors the data holds. *)
Definition held_descriptors (data : v4l2_data) : list Z :=
  if dev data =? -1 then [] else [dev data].

(** The mapped regions are the buffer array's, and the descriptors open
    are exactly the one in [dev], if any. *)
Definition session_ok (data : v4l2_data) (w : world) : Prop :=
  owns_mappings data w
  /\ open_after (trace w) [] = Some (held_descriptors data).

(** Whether a capture thread runs and a stop event exists after an
    operation, as a pair (thread, event).  [None]: the operation joins a
    thread that is not running, or signals or destroys an event that
    does not exist; the code has no defined behaviour from there on. *)
Definition handle_step (o : op) (h : bool * bool) : option (bool * bool) :=
  match o with
  | OpEventInit true => Some (h.1, true)
  | OpEventSignal _ => if h.2 then Some h else None
  | OpEventDestroy _ => if h.2 then Some (h.1, false) else None
  | OpThreadCreate true => Some (true, h.2)
  | OpThreadJoin _ => if h.1 then Some (false, h.2) else None
  | _ => Some h
  end.

Fixpoint handles_after (ops : list op) (h : bool * bool)
    : option (bool * bool) :=
  match ops with
  | [] => Some h
  | o :: rest =>
      match handle_step o h with
      | Some h' => handles_after rest h'
      | None => None
      end
  end.

(** The log of a process that started without thread and event never
    uses a handle that does not exist. *)
Definition handles_ok (ops : list op) : bool :=
  match handles_after ops (false, false) with
  | Some _ => true
  | None => false
  end.

Definition is_fd_op (o : op) : bool :=
  match o with
  | OpOpen _ _ | OpV4l2Close _ | OpClose _ => true
  | _ => false
  end.

(** The thread has been created. *)
Definition is_thread_start (o : op) : bool :=
  match o with OpThreadCreate true => true | _ => false end.

(** The three operations of the thread branch of [v4l2_terminate]. *)
Definition is_thread_stop (o : op) : bool :=
  match o with
  | OpEventSignal _ | OpThreadJoin _ | OpEventDestroy _ => true
  | _ => false
  end.

(** The requests [v4l2_init] makes between opening the device and
    creating the thread. *)
Definition is_setup_op (o : op) : bool :=
  match o with
  | OpSetFormat _ _ _ _ _ | OpSetParm _ _ _ _ | OpReqBufs _ _
  | OpQueryBuf _ _ _ | OpBzalloc _ | OpMmap _ _ _ | OpEventInit _
  | OpThreadCreate false => true
  | _ => false
  end.

(** Two updates of one source: the first finds the camera and starts
    the session, the second changes the frame rate and restarts it. *)
Definition two_updates
    : list (option (list dir_entry) * device * obs_data) :=
  [(one_camera, working_device, blank_settings);
   (one_camera, working_device, video0_faster)].

(** ** Streaming start-up and the frames of a run *)

(** The queueing requests for buffers 0 to [n]-1, all accepted. *)
Definition queued (fd : Z) (n : nat) : list op :=
  map (fun i => OpQbuf fd i true) (seq 0 n).

(** The frames handed to the sink in a log, in order. *)
Definition delivered (ops : list op) : list source_frame :=
  omap (fun o => match o with OpDeliver _ frame => Some frame | _ => None end)
       ops.

(** The frame a pass of the loop hands over, if the device is ready and a
    buffer is dequeued in it. *)
Definition tick_frame (data : v4l2_data) (out : source_frame)
    (offsets : list Z) (t : tick) : option source_frame :=
  match tick_select t, tick_dqbuf t with
  | SelectReady, DqbufOk index tv_sec tv_usec =>
      Some (output_frame data out offsets index tv_sec tv_usec)
  | _, _ => None
  end.

(** The frames the device hands out over [script], in dequeue order, as
    [v4l2_thread] would present them. *)
Definition dequeued_frames (data : v4l2_data) (script : list tick)
    : list source_frame :=
  omap (tick_frame (with_frames 0 data)
                   (v4l2_prep_obs_frame (with_frames 0 data)).1
                   (v4l2_prep_obs_frame (with_frames 0 data)).2)
       script.

Definition is_failed_qbuf (o : op) : bool :=
  match o with OpQbuf _ _ false => true | _ => false end.

(** A pass that ends in a [continue] statement and leaves the descriptor
    set of [select] as it was: the wait was interrupted (a failing
    [select] does not touch the set), or the descriptor was ready and the
    dequeue found nothing.  A wait that times out is not one of them:
    [select] then clears the set, which is filled before the loop
    only. *)
Definition is_transient (t : tick) : bool :=
  negb (stop_during_wait t)
  && match tick_select t with
     | SelectTimeout => false
     | SelectError errno => errno =? EINTR
     | SelectReady =>
         match tick_dqbuf t with
         | DqbufError errno => errno =? EAGAIN
         | DqbufOk _ _ _ => false
         end
     end.

(** What a run of the thread leaves behind that its caller and the sink
    can see: the final data and the frames delivered. *)
Definition outcome (r : option (v4l2_data * world))
    : option (v4l2_data * list source_frame) :=
  option_map (fun r => (r.1, delivered (trace r.2))) r.

(** ** Option lists *)

(** The mapper knows the format. *)
Definition is_offered (fmt : v4l2_fmtdesc) : bool :=
  match v4l2_to_obs_video_format (fmt_pixelformat fmt) with
  | VIDEO_FORMAT_NONE => false
  | _ => true
  end.

(** The label [v4l2_format_list] gives a format. *)
Definition format_label (fmt : v4l2_fmtdesc) : string :=
  if Z.land (fmt_flags fmt) V4L2_FMT_FLAG_EMULATED =? 0
  then fmt_description fmt
  else (fmt_description fmt ++ " (Emulated)")%string.

(** Both halves of a pair fit their slots in a packed tuple. *)
Definition fits_tuple (p : Z * Z) : Prop :=
  0 <= p.1 < 32768 /\ 0 <= p.2 < 65536.

(** What [unpack_tuple] returns for a packed pair: the first kept as a
    signed and the second as an unsigned 16-bit number. *)
Definition truncated (p : Z * Z) : Z * Z :=
  ((p.1 + 2 ^ 15) mod 2 ^ 16 - 2 ^ 15, p.2 mod 2 ^ 16).

(** The value of a list item is the packed form of a pair that fits. *)
Definition value_ok (value : Z) : Prop :=
  pack_tuple (unpack_tuple value).1 (unpack_tuple value).2 = value
  /\ fits_tuple (unpack_tuple value).


(** A device that reports a size wider than a packed tuple holds. *)
Definition wide_enumeration : enumeration :=
  mk_enumeration [mk_fmtdesc "YUYV 4:2:2" 0 V4L2_PIX_FMT_YUYV]
                 (fun _ => V4L2_FRMSIZE_TYPE_DISCRETE)
                 (fun _ => [(640, 480); (40000, 480)])
                 (fun _ _ _ => V4L2_FRMIVAL_TYPE_DISCRETE)
                 (fun _ _ _ => [(1, 30); (1, 100000)]).

(** A device with two formats, one of them unknown to the mapper, three
    discrete sizes for YUYV and two frame intervals. *)
Definition sample_enumeration : enumeration :=
  mk_enumeration
    [mk_fmtdesc "YUYV 4:2:2" 0 V4L2_PIX_FMT_YUYV;
     mk_fmtdesc "Motion-JPEG" 1 1196444237;
     mk_fmtdesc "Planar YUV 4:2:0" 2 V4L2_PIX_FMT_YUV420]
    (fun _ => V4L2_FRMSIZE_TYPE_DISCRETE)
    (fun _ => [(640, 480); (1280, 720); (1920, 1080)])
    (fun _ _ _ => V4L2_FRMIVAL_TYPE_DISCRETE)
    (fun _ _ _ => [(1, 30); (1, 15)]).

(** A device that reports its sizes and intervals as ranges. *)
Definition stepwise_enumeration : enumeration :=
  mk_enumeration [mk_fmtdesc "YUYV 4:2:2" 0 V4L2_PIX_FMT_YUYV]
                 (fun _ => 3) (fun _ => []) (fun _ _ _ => 3) (fun _ _ _ => []).

(** ** Requests, teardown order and fatal passes *)

Definition is_release (o : op) : bool :=
  match o with OpMunmap _ _ | OpBfree => true | _ => false end.

(** A pass that ends in one of the three [break] statements: the wait
    failed otherwise than by interruption, the dequeue failed otherwise
    than for lack of a buffer, or the buffer could not be queued again. *)
Definition is_fatal (t : tick) : bool :=
  match tick_select t with
  | SelectError errno => negb (errno =? EINTR)
  | SelectTimeout => false
  | SelectReady =>
      match tick_dqbuf t with
      | DqbufError errno => negb (errno =? EAGAIN)
      | DqbufOk _ _ _ => negb (tick_requeue t)
      end
  end.

(** A [struct timeval] of a capture: microseconds below a million,
    seconds below 2^34 (some five centuries). *)
Definition is_timeval (tv : Z * Z) : Prop :=
  0 <= tv.1 < 2 ^ 34 /\ 0 <= tv.2 < 1000000.

(** [tv] is earlier than [tv']. *)
Definition timeval_lt (tv tv' : Z * Z) : Prop :=
  tv.1 < tv'.1 \/ (tv.1 = tv'.1 /\ tv.2 < tv'.2).

(** ** Selection callbacks and their opens *)

(** The [k] opens of [path] from the [n]-th on all succeed. *)
Definition opens (open : nat -> string -> Z) (path : string) (n k : nat)
    : bool :=
  forallb (fun i => negb (open i path =? -1)) (seq n k).

(** The device can be opened twice, not a third time. *)
Definition two_opens (n : nat) (path : string) : Z :=
  match n with
  | 0%nat => 5
  | 1%nat => 6
  | _ => -1
  end.

(** ** Further vocabulary *)

(** Bytes of one chroma plane of a 4:2:0 image, at the stride the layout
    gives it. *)
Definition chroma_bytes (data : v4l2_data) : Z :=
  (linesize data / 2) * (height data / 2).

Definition is_planar_420 (fmt : Z) : Prop :=
  fmt = V4L2_PIX_FMT_YUV420 \/ fmt = V4L2_PIX_FMT_YVU420.

(** The slot [v4l2_create_mmap] fills for buffer [i]: the length the
    device reports and the address [v4l2_mmap] returns. *)
Definition granted_buffer (e : device) (i : nat) : v4l2_buffer_data :=
  mk_buffer (match answer_querybuf e i with
             | Some (len, _) => len
             | None => 0
             end)
            (answer_mmap e i).

Definition granted_buffers (e : device) (n : nat) : list v4l2_buffer_data :=
  map (granted_buffer e) (seq 0 n).

Definition munmap_of (b : v4l2_buffer_data) : op :=
  OpMunmap (buf_start b) (buf_length b).

(** * Properties *)

(** ** Packed-tuple codec *)

Lemma land_shiftl_low a b :
  0 <= b < 2 ^ 16 -> Z.land (Z.shiftl a 16) b = 0.
Proof.
  intros Hb. apply Z.bits_inj'. intros n Hn.
  rewrite Z.land_spec, Z.bits_0.
  destruct (Z.lt_ge_cases n 16) as [Hlt | Hge].
  - rewrite Z.shiftl_spec_low by lia. reflexivity.
  - assert (Hbit : Z.testbit b n = false).
    { destruct (Z.eq_dec b 0) as [-> | Hnz]; [apply Z.bits_0 |].
      apply Z.bits_above_log2; [lia |].
      apply Z.lt_le_trans with 16; [| exact Hge].
      apply Z.log2_lt_pow2; lia. }
    rewrite Hbit. apply andb_false_r.
Qed.

Lemma lor_shiftl_low a b :
  0 <= b < 2 ^ 16 -> Z.lor (Z.shiftl a 16) b = a * 2 ^ 16 + b.
Proof.
  intros Hb.
  pose proof (Z.add_lor_land (Z.shiftl a 16) b) as Hadd.
  rewrite (land_shiftl_low a b Hb) in Hadd.
  rewrite Z.shiftl_mul_pow2 in Hadd |- * by lia. lia.
Qed.

Lemma land_low_mask b : Z.land b 65535 = b mod 2 ^ 16.
Proof. change 65535 with (Z.ones 16). apply Z.land_ones. lia. Qed.

Lemma wrap_int_small z : - 2 ^ 31 <= z < 2 ^ 31 -> wrap_int z = z.
Proof.
  intros Hz. unfold wrap_int. rewrite Z.mod_small; lia.
Qed.

(** The packed value, as a number, when both halves fit their slots. *)
Lemma pack_tuple_value a b :
  - 2 ^ 15 <= a < 2 ^ 15 -> 0 <= b < 2 ^ 16 ->
  pack_tuple a b = a * 2 ^ 16 + b.
Proof.
  intros Ha Hb. unfold pack_tuple.
  rewrite land_low_mask, (Z.mod_small b) by lia.
  rewrite lor_shiftl_low by lia.
  apply wrap_int_small. lia.
Qed.

(** C5, as amended: unpacking a packed pair returns the pair whenever [a]
    fits the signed upper half of the [int] (-32768 to 32767) and [b] the
    masked lower half (0 to 65535); both functions are total. *)
Theorem unpack_pack_tuple (a b : Z) :
  - 32768 <= a < 32768 -> 0 <= b < 65536 ->
  unpack_tuple (pack_tuple a b) = (a, b).
Proof.
  intros Ha Hb. rewrite pack_tuple_value by lia.
  unfold unpack_tuple. f_equal.
  - rewrite Z.shiftr_div_pow2 by lia.
    rewrite Z.div_add_l by lia. rewrite Z.div_small; lia.
  - rewrite land_low_mask.
    rewrite Z.add_comm, Z.mod_add by lia. apply Z.mod_small. lia.
Qed.

Lemma unpack_pack_tuple_witness :
  unpack_tuple (pack_tuple 640 480) = (640, 480).
Proof. apply (unpack_pack_tuple 640 480); lia. Defined.

(** C5, as stated, fails under both uniform readings of "16-bit range":
    an [a] of 40000 comes back as -25536 (the shift reaches the sign bit),
    and a [b] of -1 comes back as 65535 (the mask drops the sign). *)
Lemma pack_tuple_roundtrip_fails :
  ~ (forall a b : Z, 0 <= a < 65536 -> 0 <= b < 65536 ->
       unpack_tuple (pack_tuple a b) = (a, b))
  /\ ~ (forall a b : Z, - 32768 <= a < 32768 -> - 32768 <= b < 32768 ->
       unpack_tuple (pack_tuple a b) = (a, b)).
Proof.
  split; intros H.
  - specialize (H 40000 0 ltac:(lia) ltac:(lia)). vm_compute in H. discriminate H.
  - specialize (H 0 (-1) ltac:(lia) ltac:(lia)). vm_compute in H. discriminate H.
Qed.

Example unpack_pack_high : unpack_tuple (pack_tuple 40000 0) = (-25536, 0).
Proof. reflexivity. Qed.

Example unpack_pack_negative : unpack_tuple (pack_tuple 0 (-1)) = (0, 65535).
Proof. reflexivity. Qed.

(** ** Format mapper *)

Lemma v4l2_to_obs_video_format_none (format : Z) :
  ~ In format recognized_formats ->
  v4l2_to_obs_video_format format = VIDEO_FORMAT_NONE.
Proof.
  intros Hnot. unfold v4l2_to_obs_video_format.
  repeat match goal with
         | |- context [?x =? ?c] =>
             destruct (Z.eqb_spec x c) as [Heq | _];
             [exfalso; apply Hnot; rewrite Heq; simpl; tauto |]
         end.
  reflexivity.
Qed.

Lemma v4l2_to_obs_video_format_some (format : Z) :
  In format recognized_formats ->
  v4l2_to_obs_video_format format <> VIDEO_FORMAT_NONE.
Proof.
  simpl. intros H.
  repeat (destruct H as [<- | H]; [vm_compute; discriminate |]).
  destruct H.
Qed.

(** C8, as amended: the mapper is a total function that returns a format
    other than none exactly on the six ids with a [case] label, the three
    packed 4:2:2 ids YVYU, YUYV and UYVY, the semi-planar NV12 and the
    planar YUV420 and YVU420, and none on every other id. *)
Theorem v4l2_to_obs_video_format_recognized (format : Z) :
  (In format recognized_formats <->
     v4l2_to_obs_video_format format <> VIDEO_FORMAT_NONE)
  /\ (~ In format recognized_formats <->
        v4l2_to_obs_video_format format = VIDEO_FORMAT_NONE).
Proof.
  split; split.
  - apply v4l2_to_obs_video_format_some.
  - intros Hsome. destruct (in_dec Z.eq_dec format recognized_formats) as [Hin | Hout].
    + exact Hin.
    + contradiction Hsome. apply v4l2_to_obs_video_format_none, Hout.
  - apply v4l2_to_obs_video_format_none.
  - intros Hnone Hin. exact (v4l2_to_obs_video_format_some format Hin Hnone).
Qed.

(** C8, as stated, fails: whichever two packed 4:2:2 ids [p] and [q] the
    description means, a third packed 4:2:2 id lies outside the described
    five-element set and is still mapped to a format. *)
Lemma v4l2_to_obs_video_format_third_packed :
  ~ (exists p q : Z, forall format : Z,
       ~ In format (described_set p q) ->
       v4l2_to_obs_video_format format = VIDEO_FORMAT_NONE).
Proof.
  intros (p & q & H).
  assert (Hin : forall format, In format recognized_formats ->
                               In format (described_set p q)).
  { intros format Hrec.
    destruct (in_dec Z.eq_dec format (described_set p q)) as [Hin | Hout];
      [exact Hin |].
    exfalso. exact (v4l2_to_obs_video_format_some format Hrec (H format Hout)). }
  pose proof (Hin V4L2_PIX_FMT_YVYU ltac:(simpl; tauto)) as H1.
  pose proof (Hin V4L2_PIX_FMT_YUYV ltac:(simpl; tauto)) as H2.
  pose proof (Hin V4L2_PIX_FMT_UYVY ltac:(simpl; tauto)) as H3.
  unfold described_set, V4L2_PIX_FMT_YVYU, V4L2_PIX_FMT_YUYV,
    V4L2_PIX_FMT_UYVY, V4L2_PIX_FMT_NV12, V4L2_PIX_FMT_YUV420,
    V4L2_PIX_FMT_YVU420 in H1, H2, H3.
  simpl in H1, H2, H3. lia.
Qed.

Example uyvy_is_mapped :
  v4l2_to_obs_video_format V4L2_PIX_FMT_UYVY = VIDEO_FORMAT_UYVY.
Proof. reflexivity. Qed.

(** ** Plane layout *)

(** C7: for the planar 4:2:0 formats at 640 by 480, stride 640, the luma
    plane is at offset 0 with stride 640 and both chroma planes are present
    with stride 320; YUV420 puts plane 1 at 640*480 and plane 2 at
    640*480*5/4, YVU420 puts plane 1 at 640*480*5/4 and plane 2 at
    640*480. *)
Theorem v4l2_prep_obs_frame_planar_420 (data : v4l2_data) :
  let yuv := v4l2_prep_obs_frame (vga_data V4L2_PIX_FMT_YUV420 data) in
  let yvu := v4l2_prep_obs_frame (vga_data V4L2_PIX_FMT_YVU420 data) in
  (snd yuv !! 0%nat = Some 0
   /\ snd yuv !! 1%nat = Some (640 * 480)
   /\ snd yuv !! 2%nat = Some (640 * 480 * 5 / 4)
   /\ take 3 (frame_linesize (fst yuv)) = [640; 320; 320]
   /\ frame_format (fst yuv) = VIDEO_FORMAT_I420)
  /\ (snd yvu !! 0%nat = Some 0
      /\ snd yvu !! 1%nat = Some (640 * 480 * 5 / 4)
      /\ snd yvu !! 2%nat = Some (640 * 480)
      /\ take 3 (frame_linesize (fst yvu)) = [640; 320; 320]
      /\ frame_format (fst yvu) = VIDEO_FORMAT_I420).
Proof.
  vm_compute. repeat split.
Qed.

(** ** Buffer pool *)

Lemma region_eqb_refl r : region_eqb r r = true.
Proof. unfold region_eqb. rewrite !Z.eqb_refl. reflexivity. Qed.

Lemma mapped_log ops w : mapped (log ops w) = mapped w.
Proof. reflexivity. Qed.

Lemma trace_log ops w : trace (log ops w) = trace w ++ ops.
Proof. reflexivity. Qed.

(** The loop stops at the failing index with -1 and leaves the regions of
    all earlier buffers mapped: [done] are the slots already filled. *)
Lemma map_buffers_fails (e : device) (i : nat) :
  maps_until e i -> fails_at e i ->
  forall (todo : nat) (done pending : list v4l2_buffer_data)
         (data : v4l2_data) (w : world),
    (length done <= i < length done + todo)%nat ->
    buf data = done ++ pending ->
    (todo <= length pending)%nat ->
    Forall is_mapped done ->
    mapped w = map region done ->
    exists (data' : v4l2_data) (w' : world)
           (done' pending' : list v4l2_buffer_data),
      map_buffers e todo (length done) data w = (-1, data', w')
      /\ buf data' = done' ++ pending'
      /\ length done' = i
      /\ Forall is_mapped done'
      /\ mapped w' = map region done'
      /\ buf_count data' = buf_count data
      /\ filter is_munmap (trace w') = filter is_munmap (trace w)
      /\ length (buf data') = length (buf data).
Proof.
  intros Hmaps Hfails todo.
  induction todo as [| todo IH]; intros done pending data w Hi Hbuf Hlen Hok Hmap;
    [lia |].
  cbn [map_buffers].
  destruct (decide (length done = i)) as [Heq | Hne].
  - (* the failing index *)
    rewrite <- Heq in Hfails.
    destruct (answer_querybuf e (length done)) as [[len off] |] eqn:Hq.
    + destruct Hfails as [Hnone | Hfail]; [congruence |].
      rewrite Hfail. change (MAP_FAILED =? MAP_FAILED) with true. cbv iota.
      do 2 eexists. exists done, (<[0%nat := mk_buffer len MAP_FAILED]> pending).
      split; [reflexivity |]. cbn.
      rewrite Hbuf.
      replace (length done) with (length done + 0)%nat at 1 by lia.
      rewrite insert_app_r.
      repeat split; try assumption.
      * rewrite !filter_app. cbn. rewrite !app_nil_r. reflexivity.
      * rewrite length_app, length_insert, <- length_app. reflexivity.
    + do 2 eexists. exists done, pending.
      split; [reflexivity |]. cbn.
      repeat split; try assumption.
      rewrite filter_app. cbn. apply app_nil_r.
  - (* an earlier index: the buffer is mapped and the loop goes on *)
    destruct (Hmaps (length done) ltac:(lia)) as [(len & off & Hq) Haddr].
    rewrite Hq.
    destruct (Z.eqb_spec (answer_mmap e (length done)) MAP_FAILED) as [|_];
      [contradiction |].
    destruct pending as [| p pending]; [simpl in Hlen; lia |].
    set (b := mk_buffer len (answer_mmap e (length done))).
    replace (S (length done)) with (length (done ++ [b]))
      by (rewrite length_app; simpl; lia).
    edestruct (IH (done ++ [b]) pending) as (data' & w' & done' & pending' & H1 & H2 & H3 & H4 & H5 & H6 & H7 & H8);
      [| | | | | exists data', w', done', pending'; repeat split; [exact H1 | exact H2 | exact H3 | exact H4 | exact H5 | exact H6 | | ]].
    + rewrite length_app. simpl. lia.
    + cbn. rewrite Hbuf.
      replace (length done) with (length done + 0)%nat at 1 by lia.
      rewrite insert_app_r. cbn. rewrite <- app_assoc. reflexivity.
    + simpl in Hlen. lia.
    + apply Forall_app. split; [exact Hok |]. constructor; [exact Haddr | constructor].
    + cbn. destruct (Z.eqb_spec (answer_mmap e (length done)) MAP_FAILED) as [|_];
        [contradiction |].
      rewrite Hmap, map_app. reflexivity.
    + rewrite H7. cbn. rewrite !filter_app. cbn. rewrite !app_nil_r. reflexivity.
    + rewrite H8. cbn. apply length_insert.
Qed.

Lemma unmap_buffers_nil bs w :
  mapped w = [] -> mapped (unmap_buffers bs w) = [].
Proof.
  revert w. induction bs as [| b bs IH]; intros w Hw; [exact Hw |].
  cbn [unmap_buffers]. apply IH.
  destruct (buf_start b =? MAP_FAILED); [exact Hw |].
  cbn. rewrite Hw. reflexivity.
Qed.

(** Unmapping an array whose filled slots are exactly the mapped regions
    leaves nothing mapped, whatever the unfilled slots hold. *)
Lemma unmap_buffers_all done pending w :
  Forall is_mapped done -> mapped w = map region done ->
  mapped (unmap_buffers (done ++ pending) w) = [].
Proof.
  revert w. induction done as [| b done IH]; intros w Hok Hw.
  - apply unmap_buffers_nil. exact Hw.
  - inversion Hok as [| ? ? Hb Hok']; subst.
    cbn [app unmap_buffers]. apply IH; [exact Hok' |].
    destruct (Z.eqb_spec (buf_start b) MAP_FAILED) as [Heq | _];
      [contradiction |].
    cbn. rewrite Hw. cbn. fold (region b). rewrite region_eqb_refl.
    reflexivity.
Qed.

Lemma v4l2_terminate_mapped_nil data w :
  mapped w = [] -> mapped (v4l2_terminate data w).2 = [].
Proof.
  intros Hw. unfold v4l2_terminate, v4l2_destroy_mmap.
  destruct (thread data =? 0), (buf_count data =? 0); cbn;
    destruct (dev data =? -1); cbn;
    try exact Hw; apply unmap_buffers_nil; exact Hw.
Qed.

(** [v4l2_terminate] unmaps what a failed mapping run left mapped. *)
Lemma v4l2_terminate_unmaps data w done pending :
  buf data = done ++ pending -> Forall is_mapped done ->
  mapped w = map region done ->
  (length (buf data) <= Z.to_nat (buf_count data))%nat ->
  mapped (v4l2_terminate data w).2 = [].
Proof.
  intros Hbuf Hok Hw Hlen. unfold v4l2_terminate.
  destruct (Z.eqb_spec (buf_count data) 0) as [Hzero | _].
  - (* no slot: nothing was mapped *)
    rewrite Hzero in Hlen. destruct (buf data) eqn:Hnil; [| simpl in Hlen; lia].
    symmetry in Hbuf. apply app_eq_nil in Hbuf as [-> _]. cbn in Hw.
    destruct (thread data =? 0); cbn; destruct (dev data =? -1); exact Hw.
  - unfold v4l2_destroy_mmap. rewrite take_ge by exact Hlen. rewrite Hbuf.
    assert (Hall : forall w0, mapped w0 = map region done ->
                     mapped (unmap_buffers (done ++ pending) w0) = [])
      by (intros; apply unmap_buffers_all; assumption).
    destruct (thread data =? 0); cbn; destruct (dev data =? -1); cbn;
      apply Hall; exact Hw.
Qed.

Lemma v4l2_create_mmap_fails (e : device) (count : Z) (i : nat)
    (data : v4l2_data) (w : world) :
  answer_reqbufs e = Some count -> 2 <= count -> Z.of_nat i < count ->
  maps_until e i -> fails_at e i -> mapped w = [] ->
  exists (data' : v4l2_data) (w' : world),
    v4l2_create_mmap e data w = (-1, data', w')
    /\ length (mapped w') = i
    /\ filter is_munmap (trace w') = filter is_munmap (trace w)
    /\ mapped (v4l2_terminate data' w').2 = [].
Proof.
  intros Hreq Hcount Hi Hmaps Hfails Hw. unfold v4l2_create_mmap.
  rewrite Hreq. destruct (Z.ltb_spec count 2) as [| _]; [lia |].
  set (n := Z.to_nat count).
  set (data1 := with_buffers count (replicate n (mk_buffer 0 0)) data).
  set (w1 := log [OpBzalloc count] (log [OpReqBufs (dev data) true] w)).
  destruct (map_buffers_fails e i Hmaps Hfails n [] (replicate n (mk_buffer 0 0))
              data1 w1)
    as (data' & w' & done' & pending' & Hrun & Hbuf & Hlen & Hok & Hmap & Hcnt & Htr & Hsize).
  - cbn. lia.
  - reflexivity.
  - rewrite length_replicate. lia.
  - constructor.
  - cbn. exact Hw.
  - exists data', w'. cbn in Hrun. split; [exact Hrun |].
    split; [rewrite Hmap, length_map; exact Hlen |].
    split.
    + rewrite Htr. unfold w1. rewrite !trace_log, !filter_app. cbn.
      rewrite !app_nil_r. reflexivity.
    + apply (v4l2_terminate_unmaps data' w' done' pending' Hbuf Hok Hmap).
      rewrite Hsize, Hcnt. cbn. rewrite length_replicate. lia.
Qed.

Lemma v4l2_init_mapping_failure (e : device) (count : Z) (i : nat)
    (data : v4l2_data) (w : world) :
  answer_reqbufs e = Some count -> 2 <= count -> Z.of_nat i < count ->
  maps_until e i -> fails_at e i -> mapped w = [] ->
  mapped (v4l2_init e data w).2 = [].
Proof.
  intros Hreq Hcount Hi Hmaps Hfails Hw. unfold v4l2_init.
  destruct (_ =? -1); [apply v4l2_terminate_mapped_nil; exact Hw |].
  destruct (unpack_tuple (wrap_int (set_res data))) as [rw rh].
  destruct (answer_s_fmt e _ _ _) as [[[[gw gh] gf] stride] |];
    [| apply v4l2_terminate_mapped_nil; exact Hw].
  destruct (unpack_tuple (wrap_int (set_fps data))) as [num den].
  destruct (answer_s_parm e _ _); cbn [negb];
    [| apply v4l2_terminate_mapped_nil; exact Hw].
  match goal with
  | |- context [v4l2_create_mmap e ?d ?w0] =>
      destruct (v4l2_create_mmap_fails e count i d w0 Hreq Hcount Hi Hmaps
                  Hfails Hw) as (data' & w' & Hrun & _ & _ & Hnil)
  end.
  rewrite Hrun. exact Hnil.
Qed.

(** C1, as amended: when querying or mapping buffer [i] fails after buffers
    0 to [i]-1 were mapped, [v4l2_create_mmap] returns -1 with those [i]
    buffers still mapped and without unmapping anything; the rollback is
    its caller's: [v4l2_init] goes to [fail] and [v4l2_terminate] unmaps
    them, so that no buffer is mapped when [v4l2_init] returns. *)
Theorem v4l2_create_mmap_failure_rollback (e : device) (count : Z) (i : nat)
    (data : v4l2_data) (w : world) :
  answer_reqbufs e = Some count -> 2 <= count -> Z.of_nat i < count ->
  maps_until e i -> fails_at e i -> mapped w = [] ->
  (exists (data' : v4l2_data) (w' : world),
      v4l2_create_mmap e data w = (-1, data', w')
      /\ length (mapped w') = i
      /\ filter is_munmap (trace w') = filter is_munmap (trace w)
      /\ mapped (v4l2_terminate data' w').2 = [])
  /\ mapped (v4l2_init e data w).2 = [].
Proof.
  intros Hreq Hcount Hi Hmaps Hfails Hw. split.
  - exact (v4l2_create_mmap_fails e count i data w Hreq Hcount Hi Hmaps Hfails Hw).
  - exact (v4l2_init_mapping_failure e count i data w Hreq Hcount Hi Hmaps Hfails Hw).
Qed.

Lemma v4l2_create_mmap_failure_rollback_witness :
  (exists (data' : v4l2_data) (w' : world),
      v4l2_create_mmap third_mapping_fails vga_request idle_world
        = (-1, data', w')
      /\ length (mapped w') = 2%nat
      /\ filter is_munmap (trace w') = filter is_munmap (trace idle_world)
      /\ mapped (v4l2_terminate data' w').2 = [])
  /\ mapped (v4l2_init third_mapping_fails vga_request idle_world).2 = [].
Proof.
  apply (v4l2_create_mmap_failure_rollback third_mapping_fails 4 2
           vga_request idle_world).
  - reflexivity.
  - lia.
  - lia.
  - intros j Hj. destruct j as [| [| j]].
    + split; [eexists _, _; reflexivity | vm_compute; discriminate].
    + split; [eexists _, _; reflexivity | vm_compute; discriminate].
    + lia.
  - right. reflexivity.
  - reflexivity.
Defined.

(** C1, as stated, fails: with four buffers granted and the mapping of
    index 2 failing, [v4l2_create_mmap] returns -1 with two buffers mapped
    and no unmap issued. *)
Lemma v4l2_create_mmap_no_rollback :
  let res := v4l2_create_mmap third_mapping_fails
               (with_dev 3 vga_request) idle_world in
  res.1.1 = -1
  /\ mapped res.2 = [(4096, 614400); (8192, 614400)]
  /\ filter is_munmap (trace res.2) = [].
Proof. vm_compute. repeat split. Qed.

(** The whole failing initialisation: the unmapping is [v4l2_terminate]'s,
    reached through [fail]; slot 2 holds [MAP_FAILED] and is skipped,
    slot 3 was never filled. *)
Example v4l2_init_third_mapping_fails :
  trace (v4l2_init third_mapping_fails vga_request idle_world).2 =
  [OpOpen "/dev/video0" 3; OpSetFormat 3 640 480 1448695129 true;
   OpSetParm 3 1 30 true; OpReqBufs 3 true; OpBzalloc 4;
   OpQueryBuf 3 0 true; OpMmap 614400 0 4096; OpQueryBuf 3 1 true;
   OpMmap 614400 614400 8192; OpQueryBuf 3 2 true;
   OpMmap 614400 1228800 (-1); OpMunmap 4096 614400;
   OpMunmap 8192 614400; OpMunmap 0 0; OpBfree; OpV4l2Close 3].
Proof. reflexivity. Qed.

(** ** Teardown *)

Lemma v4l2_terminate_fields data w :
  thread (v4l2_terminate data w).1 = thread data
  /\ event (v4l2_terminate data w).1 = event data
  /\ buf_count (v4l2_terminate data w).1 = 0
  /\ dev (v4l2_terminate data w).1 = -1.
Proof.
  unfold v4l2_terminate, v4l2_destroy_mmap.
  destruct (Z.eqb_spec (buf_count data) 0) as [Hb | Hb];
    destruct (Z.eqb_spec (dev data) (-1)) as [Hd | Hd]; cbn;
    rewrite ?Hb, ?Hd; try destruct (Z.eqb_spec (dev data) (-1)); cbn; auto; try lia.
Qed.

(** A session that is torn down (no buffer, no descriptor) stays so, and
    the only operations of [v4l2_terminate] on it are those of the thread
    branch. *)
Lemma v4l2_terminate_torn_down data w :
  buf_count data = 0 -> dev data = -1 ->
  v4l2_terminate data w = (data, log (stop_thread_ops data) w).
Proof.
  intros Hb Hd. unfold v4l2_terminate, stop_thread_ops.
  rewrite Hb. cbn. rewrite Hd. cbn.
  destruct (thread data =? 0); [| reflexivity].
  unfold log. rewrite app_nil_r. destruct w; reflexivity.
Qed.

(** C2 on the code: a second [v4l2_terminate] right after a first one does
    not close the descriptor or unmap or free the buffers again, but it
    repeats the whole thread branch whenever a thread had been created:
    [data->thread] is never cleared, so the stop event is signalled and
    destroyed and the thread joined a second time. *)
Theorem v4l2_terminate_twice (data : v4l2_data) (w : world) :
  let first := v4l2_terminate data w in
  let second := v4l2_terminate first.1 first.2 in
  second.1 = first.1
  /\ mapped second.2 = mapped first.2
  /\ trace second.2 = trace first.2 ++ stop_thread_ops data.
Proof.
  cbv zeta.
  destruct (v4l2_terminate_fields data w) as (Ht & He & Hb & Hd).
  rewrite (v4l2_terminate_torn_down _ _ Hb Hd).
  cbn. repeat split. unfold stop_thread_ops. rewrite Ht, He. reflexivity.
Qed.

Example v4l2_terminate_live :
  trace (v4l2_terminate live_session live_world).2 =
  [OpEventSignal 1; OpThreadJoin 7; OpEventDestroy 1;
   OpMunmap 4096 614400; OpMunmap 8192 614400; OpMunmap 12288 614400;
   OpMunmap 16384 614400; OpBfree; OpV4l2Close 3].
Proof. reflexivity. Qed.

Example v4l2_terminate_live_again :
  let first := v4l2_terminate live_session live_world in
  trace (v4l2_terminate first.1 first.2).2 =
  trace first.2 ++ [OpEventSignal 1; OpThreadJoin 7; OpEventDestroy 1].
Proof. reflexivity. Qed.

(** The two calls in a row happen inside one [v4l2_update]: the frame rate
    of the live session changes, the session is stopped, the device cannot
    be opened again, and [v4l2_init] ends in [fail]. *)
Example v4l2_update_terminates_twice :
  trace (v4l2_update None no_device live_session video0_faster live_world).2 =
  [OpEventSignal 1; OpThreadJoin 7; OpEventDestroy 1;
   OpMunmap 4096 614400; OpMunmap 8192 614400; OpMunmap 12288 614400;
   OpMunmap 16384 614400; OpBfree; OpV4l2Close 3;
   OpOpen "/dev/video0" (-1);
   OpEventSignal 1; OpThreadJoin 7; OpEventDestroy 1].
Proof. reflexivity. Qed.

(** ** Reconfiguration *)

Lemma commit_config_same data settings :
  same_config data settings -> commit_config data settings = (data, false).
Proof.
  unfold same_config, stored_config, config_of. intros H.
  destruct data as [src th ev sd sf sr sp fd fr wd ht pf ls bc bs].
  cbn in H. injection H as -> -> -> ->. unfold commit_config. cbn.
  repeat (rewrite ?String.eqb_refl, ?Z.eqb_refl; cbn). reflexivity.
Qed.

Lemma commit_config_commits data settings :
  (commit_config data settings).1 = committed data settings.
Proof.
  unfold commit_config, committed.
  destruct data as [src th ev sd sf sr sp fd fr wd ht pf ls bc bs]. cbn.
  destruct sd as [old |]; [destruct (String.eqb_spec old (device_id settings)) |];
    cbn; destruct (Z.eqb_spec sf (pixelformat settings)); cbn;
    destruct (Z.eqb_spec sr (resolution settings)); cbn;
    destruct (Z.eqb_spec sp (framerate settings)); cbn; subst; reflexivity.
Qed.

Lemma commit_config_differs data settings :
  ~ same_config data settings -> (commit_config data settings).2 = true.
Proof.
  unfold same_config, stored_config, config_of, commit_config. intros H.
  destruct (set_device data) as [old |] eqn:Hd;
    [destruct (String.eqb_spec old (device_id settings)) |];
    cbn; destruct (Z.eqb_spec (set_pixfmt data) (pixelformat settings)); cbn;
    destruct (Z.eqb_spec (set_res data) (resolution settings)); cbn;
    destruct (Z.eqb_spec (set_fps data) (framerate settings)); cbn;
    try reflexivity.
  exfalso. apply H. congruence.
Qed.

Lemma scan_devices_probes entries : forall first prop settings w,
  exists ops,
    (scan_devices entries first prop settings w).2 =
      mk_world (mapped w) (trace w ++ ops)
    /\ forallb is_probe_op ops = true.
Proof.
  induction entries as [| dp rest IH]; intros first prop settings w.
  - exists []. cbn. rewrite app_nil_r. destruct w; split; reflexivity.
  - cbn [scan_devices].
    destruct (d_is_dir dp); [apply IH |].
    destruct (probe_fd dp =? -1).
    { destruct (IH first prop settings (log [OpOpen ("/dev/" ++ d_name dp) (probe_fd dp)] w))
        as (ops & Heq & Hall).
      eexists. rewrite Heq. cbn. rewrite <- app_assoc. split; [reflexivity |].
      cbn. exact Hall. }
    destruct (probe_cap dp) as [[caps card] |].
    + destruct (Z.land caps V4L2_CAP_VIDEO_CAPTURE =? 0);
        match goal with
        | |- context [scan_devices rest ?f ?p ?s ?w0] =>
            destruct (IH f p s w0) as (ops & Heq & Hall)
        end;
        eexists; rewrite Heq; cbn; rewrite <- !app_assoc;
        (split; [reflexivity | cbn; exact Hall]).
    + match goal with
      | |- context [scan_devices rest ?f ?p ?s ?w0] =>
          destruct (IH f p s w0) as (ops & Heq & Hall)
      end.
      eexists. rewrite Heq. cbn. rewrite <- !app_assoc.
      split; [reflexivity | cbn; exact Hall].
Qed.

(** Device selection leaves the mappings alone and logs probe operations
    only; with a device id it does nothing at all. *)
Lemma strlen_zero s : strlen s = 0 -> s = EmptyString.
Proof. destruct s; [reflexivity |]. unfold strlen. cbn [String.length]. lia. Qed.

Lemma select_device_probes sysfs settings w :
  exists ops,
    (select_device sysfs settings w).2 = mk_world (mapped w) (trace w ++ ops)
    /\ forallb is_probe_op ops = true
    /\ (device_id settings <> EmptyString -> ops = []).
Proof.
  unfold select_device.
  destruct (Z.eqb_spec (strlen (device_id settings)) 0) as [Hlen | Hlen].
  - apply strlen_zero in Hlen.
    unfold v4l2_device_list. cbn [obs_property_list_clear].
    destruct sysfs as [entries |].
    + destruct (scan_devices_probes entries true None (Some settings) w)
        as (ops & Heq & Hall).
      exists ops.
      destruct (scan_devices entries true None (Some settings) w)
        as [[p s'] w'].
      cbn in Heq. split; [destruct s'; exact Heq |].
      split; [exact Hall | congruence].
    + exists []. cbn. rewrite app_nil_r. destruct w. repeat split.
  - exists []. rewrite app_nil_r. destruct w. repeat split.
Qed.

Lemma select_device_named sysfs settings w :
  device_id settings <> EmptyString ->
  select_device sysfs settings w = (settings, w).
Proof.
  intros Hid. unfold select_device.
  destruct (Z.eqb_spec (strlen (device_id settings)) 0) as [Hlen | _];
    [| reflexivity].
  contradiction Hid. apply strlen_zero, Hlen.
Qed.

Lemma v4l2_update_same sysfs e data settings w :
  same_config data (select_device sysfs settings w).1 ->
  v4l2_update sysfs e data settings w =
    (data, (select_device sysfs settings w).1,
     (select_device sysfs settings w).2).
Proof.
  intros Hsame. unfold v4l2_update.
  destruct (select_device sysfs settings w) as [settings1 w1]. cbn in *.
  rewrite (commit_config_same _ _ Hsame). reflexivity.
Qed.

Lemma v4l2_update_differs sysfs e data settings w :
  ~ same_config data (select_device sysfs settings w).1 ->
  v4l2_update sysfs e data settings w =
    ((restart e (committed data (select_device sysfs settings w).1)
              (select_device sysfs settings w).2).1,
     (select_device sysfs settings w).1,
     (restart e (committed data (select_device sysfs settings w).1)
              (select_device sysfs settings w).2).2).
Proof.
  intros Hdiff. unfold v4l2_update, restart.
  destruct (select_device sysfs settings w) as [settings1 w1]. cbn in *.
  pose proof (commit_config_commits data settings1) as Hc.
  pose proof (commit_config_differs data settings1 Hdiff) as Hr.
  destruct (commit_config data settings1) as [data1 r]. cbn in Hc, Hr.
  subst data1 r.
  destruct (v4l2_terminate (committed data settings1) w1) as [data2 w2].
  cbn. destruct (v4l2_init e data2 w2). reflexivity.
Qed.

(** C3, as amended: the comparison is made on the configuration in which
    a blank device id has first been replaced by the enumeration's default
    ([select_device]); that replacement logs probe operations only, and
    none when the device id is not blank.  If all four fields of that
    configuration equal the stored ones, nothing else happens: the data is
    unchanged and no session resource is opened, closed, mapped or
    unmapped.  If any field differs, the frame rate alone included, the
    new fields are committed and [v4l2_terminate] then [v4l2_init] run. *)
Theorem v4l2_update_restart (sysfs : option (list dir_entry)) (e : device)
    (data : v4l2_data) (settings : obs_data) (w : world) :
  let sel := select_device sysfs settings w in
  (exists ops : list op,
      sel.2 = mk_world (mapped w) (trace w ++ ops)
      /\ forallb is_probe_op ops = true
      /\ (device_id settings <> EmptyString -> ops = [] /\ sel.1 = settings))
  /\ (same_config data sel.1 ->
      v4l2_update sysfs e data settings w = (data, sel.1, sel.2))
  /\ (~ same_config data sel.1 ->
      v4l2_update sysfs e data settings w =
        ((restart e (committed data sel.1) sel.2).1, sel.1,
         (restart e (committed data sel.1) sel.2).2))
  /\ (set_fps data <> framerate sel.1 -> ~ same_config data sel.1).
Proof.
  cbv zeta. split; [| split; [| split]].
  - destruct (select_device_probes sysfs settings w) as (ops & Heq & Hall & Hnil).
    exists ops. split; [exact Heq |]. split; [exact Hall |].
    intros Hid. split; [exact (Hnil Hid) |].
    rewrite (select_device_named _ _ _ Hid). reflexivity.
  - apply v4l2_update_same.
  - apply v4l2_update_differs.
  - intros Hfps Hsame. apply Hfps.
    unfold same_config, stored_config, config_of in Hsame. congruence.
Qed.

(** C3, as stated, fails when the supplied device id is blank.  First,
    with all four supplied fields equal to the stored ones the enumeration
    still opens and closes a device node.  Second, a supplied blank id
    differs from the stored "/dev/video0", yet the enumeration substitutes
    that very id and no stop or start follows. *)
Lemma v4l2_update_blank_device :
  (same_config blank_previous blank_settings
   /\ filter is_resource_op
        (trace (v4l2_update tuner_only third_mapping_fails blank_previous
                            blank_settings idle_world).2)
      = [OpOpen "/dev/video0" 5; OpClose 5])
  /\ (~ same_config vga_request blank_settings
      /\ v4l2_update one_camera third_mapping_fails vga_request
                     blank_settings idle_world
         = (vga_request, video0_settings,
            mk_world [] [OpOpen "/dev/video0" 5; OpQueryCap 5 true;
                         OpListAdd "camera" "/dev/video0"; OpClose 5])).
Proof.
  split; split.
  - reflexivity.
  - reflexivity.
  - intros H. discriminate H.
  - reflexivity.
Qed.

Example v4l2_update_framerate_alone :
  let faster := mk_settings "/dev/video0" V4L2_PIX_FMT_YUYV
                            (pack_tuple 640 480) (pack_tuple 1 60) in
  filter is_resource_op
    (trace (v4l2_update None third_mapping_fails
              (with_dev 3 vga_request) faster idle_world).2)
  = [OpV4l2Close 3; OpOpen "/dev/video0" 3; OpMmap 614400 0 4096;
     OpMmap 614400 614400 8192; OpMmap 614400 1228800 (-1);
     OpMunmap 4096 614400; OpMunmap 8192 614400; OpMunmap 0 0;
     OpV4l2Close 3].
Proof. reflexivity. Qed.

Lemma same_config_decide data settings :
  same_config data settings \/ ~ same_config data settings.
Proof.
  unfold same_config, stored_config, config_of.
  destruct (set_device data) as [old |].
  - destruct (String.eqb_spec old (device_id settings)) as [-> | Hne];
      [| right; congruence].
    destruct (Z.eq_dec (set_pixfmt data) (pixelformat settings)) as [-> | Hne];
      [| right; congruence].
    destruct (Z.eq_dec (set_res data) (resolution settings)) as [-> | Hne];
      [| right; congruence].
    destruct (Z.eq_dec (set_fps data) (framerate settings)) as [-> | Hne];
      [left; reflexivity | right; congruence].
  - right. discriminate.
Qed.

Lemma v4l2_terminate_config data w :
  stored_config (v4l2_terminate data w).1 = stored_config data.
Proof.
  unfold v4l2_terminate, v4l2_destroy_mmap.
  destruct (thread data =? 0), (buf_count data =? 0); cbn;
    destruct (dev data =? -1); reflexivity.
Qed.

Lemma map_buffers_config e todo : forall i data w,
  stored_config (map_buffers e todo i data w).1.2 = stored_config data.
Proof.
  induction todo as [| todo IH]; intros i data w; [reflexivity |].
  cbn [map_buffers].
  destruct (answer_querybuf e i) as [[len off] |]; [| reflexivity].
  destruct (answer_mmap e i =? MAP_FAILED); [reflexivity |].
  rewrite IH. reflexivity.
Qed.

Lemma v4l2_create_mmap_config e data w :
  stored_config (v4l2_create_mmap e data w).1.2 = stored_config data.
Proof.
  unfold v4l2_create_mmap.
  destruct (answer_reqbufs e) as [count |]; [| reflexivity].
  destruct (count <? 2); [reflexivity |].
  rewrite map_buffers_config. reflexivity.
Qed.

Lemma v4l2_init_config e data w :
  stored_config (v4l2_init e data w).1 = stored_config data.
Proof.
  unfold v4l2_init.
  destruct (_ =? -1); [rewrite v4l2_terminate_config; reflexivity |].
  destruct (unpack_tuple (wrap_int (set_res data))) as [rw rh].
  destruct (answer_s_fmt e _ _ _) as [[[[gw gh] gf] stride] |];
    [| rewrite v4l2_terminate_config; reflexivity].
  destruct (unpack_tuple (wrap_int (set_fps data))) as [num den].
  destruct (answer_s_parm e _ _); cbn [negb];
    [| rewrite v4l2_terminate_config; reflexivity].
  match goal with
  | |- context [v4l2_create_mmap e ?d ?w0] =>
      pose proof (v4l2_create_mmap_config e d w0) as Hc;
      destruct (v4l2_create_mmap e d w0) as [[r data3] w4]
  end.
  cbn in Hc.
  destruct (r <? 0); [rewrite v4l2_terminate_config; exact Hc |].
  destruct (answer_event_init e) as [ev |];
    [| rewrite v4l2_terminate_config; exact Hc].
  destruct (answer_thread_create e) as [tid |];
    [exact Hc | rewrite v4l2_terminate_config; exact Hc].
Qed.

(** After any update the stored configuration is the one the update
    compared against, whether or not a session could be started. *)
Lemma v4l2_update_commits sysfs e data settings w :
  same_config (v4l2_update sysfs e data settings w).1.1
              (v4l2_update sysfs e data settings w).1.2.
Proof.
  destruct (same_config_decide data (select_device sysfs settings w).1) as [Hs | Hd].
  - rewrite (v4l2_update_same _ _ _ _ _ Hs). exact Hs.
  - rewrite (v4l2_update_differs _ _ _ _ _ Hd). cbn.
    unfold same_config, restart.
    rewrite v4l2_init_config, v4l2_terminate_config. reflexivity.
Qed.

Lemma v4l2_update_settings sysfs e data settings w :
  (v4l2_update sysfs e data settings w).1.2 =
  (select_device sysfs settings w).1.
Proof.
  destruct (same_config_decide data (select_device sysfs settings w).1)
    as [Hs | Hd].
  - rewrite (v4l2_update_same _ _ _ _ _ Hs). reflexivity.
  - rewrite (v4l2_update_differs _ _ _ _ _ Hd). reflexivity.
Qed.

(** C10, as amended: [v4l2_update] commits the new fields before it calls
    [v4l2_init], which runs on the committed data, and the stored
    configuration is the new one afterwards whether or not the
    initialisation succeeded.  A later update whose configuration, once a
    blank device id has been replaced by the enumeration's default, is
    that same configuration compares equal, performs no stop and no start
    and leaves the source data as it was; with a device id that is not
    blank the later update does nothing at all. *)
Theorem v4l2_update_no_retry (sysfs1 sysfs2 : option (list dir_entry))
    (e1 e2 : device) (data : v4l2_data) (settings later : obs_data)
    (w : world) :
  let first := v4l2_update sysfs1 e1 data settings w in
  let sel := select_device sysfs2 later first.2 in
  sel.1 = first.1.2 ->
  same_config first.1.1 first.1.2
  /\ (~ same_config data first.1.2 ->
      first.1.1 = (restart e1 (committed data first.1.2)
                           (select_device sysfs1 settings w).2).1)
  /\ v4l2_update sysfs2 e2 first.1.1 later first.2 = (first.1.1, sel.1, sel.2)
  /\ (device_id later <> EmptyString -> sel.2 = first.2).
Proof.
  cbv zeta. intros Hsel. split; [| split; [| split]].
  - apply v4l2_update_commits.
  - rewrite v4l2_update_settings. intros Hd.
    rewrite (v4l2_update_differs _ _ _ _ _ Hd). reflexivity.
  - apply v4l2_update_same. rewrite Hsel. apply v4l2_update_commits.
  - intros Hid. rewrite (select_device_named _ _ _ Hid). reflexivity.
Qed.

Lemma v4l2_update_no_retry_witness :
  let first := v4l2_update None third_mapping_fails (fresh_data 0)
                           video0_settings idle_world in
  let sel := select_device one_camera video0_settings first.2 in
  same_config first.1.1 first.1.2
  /\ (~ same_config (fresh_data 0) first.1.2 ->
      first.1.1 = (restart third_mapping_fails
                           (committed (fresh_data 0) first.1.2)
                           (select_device None video0_settings idle_world).2).1)
  /\ v4l2_update one_camera working_device first.1.1 video0_settings first.2
     = (first.1.1, sel.1, sel.2)
  /\ (device_id video0_settings <> EmptyString -> sel.2 = first.2).
Proof.
  apply (v4l2_update_no_retry None one_camera third_mapping_fails
           working_device (fresh_data 0) video0_settings video0_settings
           idle_world).
  reflexivity.
Defined.

(** The failed initialisation is indeed not retried there: the second
    update leaves the descriptor closed and the log as it was. *)
Example v4l2_update_video0_again :
  let first := v4l2_update None third_mapping_fails (fresh_data 0)
                           video0_settings idle_world in
  dev first.1.1 = -1 /\ buf_count first.1.1 = 0 /\ thread first.1.1 = 0
  /\ v4l2_update one_camera working_device first.1.1 video0_settings first.2
     = first.
Proof. vm_compute. repeat split. Qed.

(** C10, as stated, fails for a blank device id: the first update finds
    no device and its initialisation fails; the settings still hold the
    blank id.  A later update carrying the same settings, made after a
    camera has appeared, selects that camera, restarts and captures. *)
Lemma v4l2_update_blank_retries :
  let first := v4l2_update (Some []) no_device (fresh_data 0)
                           blank_settings idle_world in
  let second := v4l2_update one_camera working_device first.1.1
                            blank_settings first.2 in
  first.1.2 = blank_settings
  /\ (dev first.1.1 = -1 /\ buf_count first.1.1 = 0 /\ thread first.1.1 = 0)
  /\ (dev second.1.1 = 3 /\ buf_count second.1.1 = 4 /\ thread second.1.1 = 7)
  /\ filter is_resource_op (trace second.2) =
     [OpOpen "" (-1); OpOpen "/dev/video0" 5; OpClose 5;
      OpOpen "/dev/video0" 3; OpMmap 614400 0 4096;
      OpMmap 614400 614400 8192; OpMmap 614400 1228800 12288;
      OpMmap 614400 1843200 16384].
Proof. vm_compute. repeat split. Qed.

(** ** Device enumeration *)

Lemma scan_devices_result entries : forall first prop settings w,
  (scan_devices entries first prop settings w).1 =
  (match prop with
   | Some items => Some (items ++ capture_items entries)
   | None => None
   end,
   if first then with_default_device entries settings else settings).
Proof.
  unfold capture_items, with_default_device.
  induction entries as [| dp rest IH]; intros first prop settings w.
  - cbn. destruct prop, first; rewrite ?app_nil_r; reflexivity.
  - cbn [scan_devices List.filter].
    destruct (d_is_dir dp) eqn:Hdir.
    { replace (capture_capable dp) with false
        by (unfold capture_capable; rewrite Hdir; reflexivity).
      apply IH. }
    destruct (probe_fd dp =? -1) eqn:Hfd.
    { replace (capture_capable dp) with false
        by (unfold capture_capable; rewrite Hdir, Hfd; reflexivity).
      apply IH. }
    destruct (probe_cap dp) as [[caps card] |] eqn:Hcap.
    2: { replace (capture_capable dp) with false
           by (unfold capture_capable; rewrite Hdir, Hfd, Hcap; reflexivity).
         apply IH. }
    destruct (Z.land caps V4L2_CAP_VIDEO_CAPTURE =? 0) eqn:Hbit.
    { replace (capture_capable dp) with false
        by (unfold capture_capable; rewrite Hdir, Hfd, Hcap, Hbit; reflexivity).
      apply IH. }
    replace (capture_capable dp) with true
      by (unfold capture_capable; rewrite Hdir, Hfd, Hcap, Hbit; reflexivity).
    rewrite IH.
    destruct prop; cbn; unfold card_name, device_path;
      rewrite ?Hcap, <- ?app_assoc; destruct first; reflexivity.
Qed.

Lemma capture_capable_filter entries :
  List.filter capture_capable (List.filter capture_capable entries)
  = List.filter capture_capable entries.
Proof.
  induction entries as [| dp rest IH]; [reflexivity |].
  cbn [List.filter]. destruct (capture_capable dp) eqn:Hdp; [| exact IH].
  cbn [List.filter]. rewrite Hdp, IH. reflexivity.
Qed.

(** C6: on the calls that are made of it, [v4l2_device_list] writes the
    first capture device as the device id only when no device is
    configured.  [v4l2_update] runs it only for a blank device id, and
    the id then becomes the first capture-capable device of the
    directory (it stays blank when there is none); a configured id is
    left as it is, the enumeration not being run at all.
    [v4l2_properties] runs it without a configuration, and nothing is
    written.  Entries that are directories, do not open, fail the
    capability query or lack video capture are skipped without an error:
    the enumeration returns normally with the list and the default of
    the capture devices alone.  When the directory cannot be opened
    nothing is listed or written. *)
Theorem v4l2_device_list_default (sysfs : option (list dir_entry))
    (entries : list dir_entry) (prop : list (string * string))
    (settings : obs_data) (e : device) (data : v4l2_data) (w : world) :
  (device_id settings = EmptyString ->
   (v4l2_device_list (Some entries) None (Some settings) w).1.2
   = with_default_device entries (Some settings)
   /\ Some (v4l2_update (Some entries) e data settings w).1.2
      = with_default_device entries (Some settings))
  /\ (device_id settings <> EmptyString ->
      select_device sysfs settings w = (settings, w)
      /\ (v4l2_update sysfs e data settings w).1.2 = settings)
  /\ (v4l2_device_list (Some entries) (Some prop) None w).1
     = (Some (capture_items entries), None)
  /\ (forall p s,
        (v4l2_device_list (Some entries) p s w).1
        = (v4l2_device_list (Some (List.filter capture_capable entries))
                            p s w).1)
  /\ (forall p s, v4l2_device_list None p s w = (p, s, w)).
Proof.
  split; [| split; [| split; [| split; [| reflexivity]]]].
  - intros Hid.
    assert (Hlist : (v4l2_device_list (Some entries) None (Some settings) w).1.2
                    = with_default_device entries (Some settings)).
    { unfold v4l2_device_list. rewrite scan_devices_result. reflexivity. }
    split; [exact Hlist |].
    rewrite v4l2_update_settings.
    unfold select_device, strlen. rewrite Hid.
    change (Z.of_nat (String.length "") =? 0) with true. cbv iota.
    destruct (v4l2_device_list (Some entries) None (Some settings) w)
      as [[p s] w'].
    cbn [fst snd] in Hlist. subst s. unfold with_default_device.
    destruct (List.filter capture_capable entries); reflexivity.
  - intros Hid. rewrite v4l2_update_settings.
    rewrite (select_device_named _ _ _ Hid). split; reflexivity.
  - unfold v4l2_device_list. rewrite scan_devices_result. cbn.
    unfold with_default_device.
    destruct (List.filter capture_capable entries); reflexivity.
  - intros p s. unfold v4l2_device_list. rewrite !scan_devices_result.
    unfold capture_items, with_default_device.
    rewrite capture_capable_filter. reflexivity.
Qed.

(** Entries that are directories, do not open, fail the capability query
    or cannot capture are passed over; the scan goes on to the camera. *)
Example v4l2_device_list_skips :
  v4l2_device_list
    (Some [mk_entry "v4l-subdev0" true 0 None;
           mk_entry "video0" false (-1) None;
           mk_entry "video1" false 4 None;
           mk_entry "video2" false 5 (Some (2, "tuner"%string));
           mk_entry "video3" false 6 (Some (1, "camera"%string))])
    (Some []) (Some blank_settings) idle_world
  = (Some [("camera"%string, "/dev/video3"%string)],
     Some (mk_settings "/dev/video3" V4L2_PIX_FMT_YUYV (pack_tuple 640 480)
                       (pack_tuple 1 30)),
     mk_world []
       [OpOpen "/dev/video0" (-1);
        OpOpen "/dev/video1" 4; OpQueryCap 4 false; OpClose 4;
        OpOpen "/dev/video2" 5; OpQueryCap 5 true; OpClose 5;
        OpOpen "/dev/video3" 6; OpQueryCap 6 true;
        OpListAdd "camera" "/dev/video3"; OpClose 6]).
Proof. reflexivity. Qed.

(** ** Capture thread *)

Lemma log_log ops1 ops2 w : log ops2 (log ops1 w) = log (ops1 ++ ops2) w.
Proof. unfold log. cbn. rewrite app_assoc. reflexivity. Qed.

Lemma log_nil w : log [] w = w.
Proof. unfold log. rewrite app_nil_r. destruct w; reflexivity. Qed.

Lemma filter_streamoff_select fd sec usec ops :
  filter is_streamoff (OpSelect fd sec usec :: ops) = filter is_streamoff ops.
Proof. reflexivity. Qed.

Lemma filter_select_select fd sec usec ops :
  filter is_select (OpSelect fd sec usec :: ops)
  = OpSelect fd sec usec :: filter is_select ops.
Proof. reflexivity. Qed.

Lemma queue_buffers_log s todo : forall i data w,
  exists ops,
    (queue_buffers s todo i data w).2 = log ops w
    /\ filter is_streamoff ops = []
    /\ filter is_deliver ops = []
    /\ filter is_select ops = [].
Proof.
  induction todo as [| todo IH]; intros i data w.
  - exists []. rewrite log_nil. repeat split.
  - cbn [queue_buffers]. destruct (answer_qbuf s i).
    + destruct (IH (S i) data (log [OpQbuf (dev data) i true] w))
        as (ops & Heq & H1 & H2 & H3).
      exists (OpQbuf (dev data) i true :: ops).
      rewrite Heq, log_log. repeat split; assumption.
    + exists [OpQbuf (dev data) i false]. repeat split.
Qed.

Lemma v4l2_start_capture_log s data w :
  exists ops,
    (v4l2_start_capture s data w).2 = log ops w
    /\ filter is_streamoff ops = []
    /\ filter is_deliver ops = []
    /\ filter is_select ops = [].
Proof.
  unfold v4l2_start_capture.
  destruct (queue_buffers_log s (Z.to_nat (buf_count data)) 0 data w)
    as (ops & Heq & H1 & H2 & H3).
  destruct (queue_buffers s (Z.to_nat (buf_count data)) 0 data w) as [r w1].
  cbn in Heq. subst w1.
  destruct (r <? 0); [exists ops; repeat split; assumption |].
  destruct (answer_streamon s); cbn; rewrite log_log;
    eexists; (split; [reflexivity |]);
    rewrite !filter_app, H1, H2, H3; repeat split.
Qed.

(** The loop never issues stream-off, keeps the descriptor, and every
    wait it makes is bounded by one second. *)
Lemma capture_loop_log script : forall stopped out offsets data w data' w',
  capture_loop script stopped out offsets data w = Some (data', w') ->
  exists ops,
    w' = log ops w
    /\ dev data' = dev data
    /\ filter is_streamoff ops = []
    /\ waits_one_second (dev data) ops
    /\ (length (filter is_select ops) <= length script)%nat.
Proof.
  unfold waits_one_second.
  induction script as [| t rest IH]; intros stopped out offsets data w data' w' Hrun;
    cbn [capture_loop] in Hrun; destruct stopped;
    try (injection Hrun as <- <-; exists []; rewrite log_nil;
         repeat split; cbn; lia);
    try discriminate Hrun.
  assert (Hstep : forall ops0 data0,
             dev data0 = dev data ->
             filter is_streamoff ops0 = [] ->
             filter is_select ops0 = [] ->
             capture_loop rest (stop_during_wait t) out offsets data0
                          (log (OpSelect (dev data) 1 0 :: ops0) w)
               = Some (data', w') ->
             exists ops,
               w' = log ops w /\ dev data' = dev data
               /\ filter is_streamoff ops = []
               /\ filter is_select ops =
                    replicate (length (filter is_select ops))
                              (OpSelect (dev data) 1 0)
               /\ (length (filter is_select ops) <= S (length rest))%nat).
  { intros ops0 data0 Hdev Hoff Hsel Hrest.
    destruct (IH _ _ _ _ _ _ _ Hrest) as (ops & -> & Hd & H1 & H2 & H3).
    exists ((OpSelect (dev data) 1 0 :: ops0) ++ ops).
    rewrite log_log. split; [reflexivity |].
    split; [congruence |].
    rewrite !filter_app, filter_streamoff_select, filter_select_select.
    rewrite Hoff, Hsel, H1. cbn [app length replicate].
    rewrite Hdev in H2. rewrite <- H2.
    repeat split. lia. }
  assert (Hstop : forall ops0,
             filter is_streamoff ops0 = [] ->
             filter is_select ops0 = [] ->
             Some (data, log (OpSelect (dev data) 1 0 :: ops0) w)
               = Some (data', w') ->
             exists ops,
               w' = log ops w /\ dev data' = dev data
               /\ filter is_streamoff ops = []
               /\ filter is_select ops =
                    replicate (length (filter is_select ops))
                              (OpSelect (dev data) 1 0)
               /\ (length (filter is_select ops) <= S (length rest))%nat).
  { intros ops0 Hoff Hsel Heq. injection Heq as <- <-.
    exists (OpSelect (dev data) 1 0 :: ops0).
    rewrite filter_streamoff_select, filter_select_select, Hoff, Hsel.
    cbn. repeat split. lia. }
  cbn [length].
  destruct (tick_select t) as [errno | |].
  - destruct (errno =? EINTR).
    + apply (Hstep [] data); [reflexivity .. | exact Hrun].
    + apply (Hstop []); [reflexivity .. | exact Hrun].
  - apply (Hstep [] data); [reflexivity .. | exact Hrun].
  - destruct (tick_dqbuf t) as [errno | index sec usec].
    + rewrite log_log in Hrun. destruct (errno =? EAGAIN).
      * apply (Hstep [OpDqbuf (dev data) false] data); [reflexivity .. | exact Hrun].
      * apply (Hstop [OpDqbuf (dev data) false]); [reflexivity .. | exact Hrun].
    + rewrite !log_log in Hrun. destruct (tick_requeue t).
      * eapply Hstep; [| | | exact Hrun]; reflexivity.
      * eapply Hstop; [| | exact Hrun]; reflexivity.
Qed.

(** A run of the loop that uses up [pre] without leaving: whatever
    follows is read from the same state, after one wait per tick. *)
Lemma capture_loop_running pre : forall stopped out offsets data w,
  capture_loop pre stopped out offsets data w = None ->
  exists data' ops,
    dev data' = dev data
    /\ filter is_streamoff ops = []
    /\ filter is_select ops = replicate (length pre) (OpSelect (dev data) 1 0)
    /\ forall rest,
         capture_loop (pre ++ rest) stopped out offsets data w
         = capture_loop rest false out offsets data' (log ops w).
Proof.
  induction pre as [| t pre IH]; intros stopped out offsets data w Hrun;
    cbn [capture_loop] in Hrun; destruct stopped; try discriminate Hrun.
  - exists data, []. rewrite log_nil. repeat split.
  - assert (Hstep : forall ops0 data0,
               dev data0 = dev data ->
               filter is_streamoff ops0 = [] ->
               filter is_select ops0 = [] ->
               capture_loop pre (stop_during_wait t) out offsets data0
                            (log (OpSelect (dev data) 1 0 :: ops0) w) = None ->
               exists data' ops,
                 dev data' = dev data
                 /\ filter is_streamoff ops = []
                 /\ filter is_select ops
                    = replicate (S (length pre)) (OpSelect (dev data) 1 0)
                 /\ forall rest,
                      capture_loop (pre ++ rest) (stop_during_wait t) out
                                   offsets data0
                                   (log (OpSelect (dev data) 1 0 :: ops0) w)
                      = capture_loop rest false out offsets data' (log ops w)).
    { intros ops0 data0 Hdev Hoff Hsel Hpre.
      destruct (IH _ _ _ _ _ Hpre) as (data' & ops & Hd & Hno & Hn & Hrest).
      exists data', ((OpSelect (dev data) 1 0 :: ops0) ++ ops).
      split; [congruence |].
      rewrite !filter_app, filter_streamoff_select, filter_select_select.
      rewrite Hoff, Hsel, Hno, Hn, Hdev.
      split; [reflexivity |]. split; [reflexivity |].
      intros rest. rewrite Hrest, log_log. reflexivity. }
    cbn [app capture_loop length].
    destruct (tick_select t) as [errno | |].
    + destruct (errno =? EINTR); [| discriminate Hrun].
      apply (Hstep [] data); [reflexivity .. | exact Hrun].
    + apply (Hstep [] data); [reflexivity .. | exact Hrun].
    + destruct (tick_dqbuf t) as [errno | index sec usec].
      * rewrite log_log in Hrun |- *.
        destruct (errno =? EAGAIN); [| discriminate Hrun].
        apply (Hstep [OpDqbuf (dev data) false] data);
          [reflexivity .. | exact Hrun].
      * rewrite !log_log in Hrun.
        destruct (tick_requeue t); [| discriminate Hrun].
        destruct (Hstep [OpDqbuf (dev data) true;
                         OpDeliver (source data)
                           (output_frame data out offsets index sec usec);
                         OpQbuf (dev data) index true]
                        (with_frames (wrap_u64 (frames data + 1)) data)
                        eq_refl eq_refl eq_refl Hrun)
          as (data' & ops & Hd & Hno & Hn & Hrest).
        exists data', ops. split; [exact Hd |]. split; [exact Hno |].
        split; [exact Hn |].
        intros rest. rewrite !log_log. apply Hrest.
Qed.

(** The pass during which the stop event is signalled is the last one:
    the loop is left after it, whatever the script holds next. *)
Lemma capture_loop_stop t out offsets data w :
  stop_during_wait t = true ->
  exists data' ops,
    dev data' = dev data
    /\ filter is_streamoff ops = []
    /\ filter is_select ops = [OpSelect (dev data) 1 0]
    /\ forall post,
         capture_loop (t :: post) false out offsets data w
         = Some (data', log ops w).
Proof.
  intros Hstop. cbn [capture_loop]. rewrite Hstop.
  assert (Hloop : forall post d w0,
             capture_loop post true out offsets d w0 = Some (d, w0))
    by (intros [| ? ?] ? ?; reflexivity).
  destruct (tick_select t) as [errno | |].
  - exists data, [OpSelect (dev data) 1 0]. repeat split.
    intros post. destruct (errno =? EINTR); [apply Hloop | reflexivity].
  - exists data, [OpSelect (dev data) 1 0]. repeat split. intros post. apply Hloop.
  - destruct (tick_dqbuf t) as [errno | index sec usec].
    + exists data, [OpSelect (dev data) 1 0; OpDqbuf (dev data) false].
      repeat split. intros post. rewrite log_log.
      destruct (errno =? EAGAIN); [apply Hloop | reflexivity].
    + destruct (tick_requeue t); eexists _, _;
        (split; [| split; [| split; [| intros post; rewrite ?Hloop, !log_log; reflexivity]]]);
        reflexivity.
Qed.

Lemma stream_off_last_once fd ops :
  stream_off_last fd ops ->
  length (filter is_streamoff ops) = 1%nat
  /\ forall l1 o l2, ops = l1 ++ o :: l2 -> is_streamoff o = true ->
       l2 = [].
Proof.
  intros (before & ok & -> & Hnone). split.
  - rewrite filter_app, Hnone. reflexivity.
  - intros l1 o l2 Heq Ho.
    destruct l2 as [| x l2] using rev_ind; [reflexivity |]. clear IHl2.
    change (l1 ++ o :: l2 ++ [x]) with (l1 ++ (o :: l2) ++ [x]) in Heq.
    rewrite app_assoc in Heq. apply app_inj_tail in Heq as [Hb _].
    rewrite Hb, filter_app in Hnone.
    apply app_eq_nil in Hnone as [_ Hnone].
    rewrite filter_cons in Hnone.
    destruct (decide (is_streamoff o)) as [| Hn]; [discriminate Hnone |].
    rewrite Ho in Hn. contradiction Hn. exact I.
Qed.

Lemma replicate_snoc {A : Type} (n : nat) (x : A) :
  replicate n x ++ [x] = x :: replicate n x.
Proof. induction n as [| n IH]; [reflexivity |]. cbn. rewrite IH. reflexivity. Qed.

Lemma stream_off_last_no_frame fd ops :
  stream_off_last fd ops -> no_frame_after_stream_off ops.
Proof.
  intros Hlast l1 o l2 Heq Ho.
  destruct (stream_off_last_once fd ops Hlast) as [_ Hnil].
  rewrite (Hnil l1 o l2 Heq Ho). reflexivity.
Qed.

(** The thread's own operations after a loop that was left. *)
Lemma v4l2_thread_left s script stopped data w data' w' :
  v4l2_thread s script stopped data w = Some (data', w') ->
  exists ops, w' = log ops w /\ stream_off_last (dev data) ops.
Proof.
  unfold v4l2_thread, v4l2_stop_capture.
  destruct (v4l2_start_capture_log s data w) as (ops0 & Hstart & Hoff0 & _ & _).
  destruct (v4l2_start_capture s data w) as [r w1]. cbn in Hstart. subst w1.
  destruct (r <? 0).
  - intros Heq. injection Heq as <- <-. cbn. rewrite log_log.
    eexists. split; [reflexivity |]. exists ops0, (answer_streamoff s).
    split; [reflexivity | exact Hoff0].
  - destruct (v4l2_prep_obs_frame (with_frames 0 data)) as [out offsets].
    destruct (capture_loop script stopped out offsets (with_frames 0 data)
                           (log ops0 w)) as [[data2 w2] |] eqn:Hloop;
      [| discriminate].
    intros Heq. injection Heq as <- <-.
    destruct (capture_loop_log _ _ _ _ _ _ _ _ Hloop)
      as (ops & -> & Hdev & Hoff & _ & _).
    cbn. rewrite !log_log. eexists. split; [reflexivity |].
    exists (ops0 ++ ops), (answer_streamoff s). rewrite Hdev. cbn.
    split; [rewrite app_assoc; reflexivity |].
    rewrite filter_app, Hoff0, Hoff. reflexivity.
Qed.

(** C4: when the stop event is signalled during a pass of the loop, that
    is, while the thread may be blocked in its wait (the thread has
    started and is still looping after the passes [pre]), the thread
    returns without beginning another wait, whatever would have happened
    next: the wait in progress, bounded by one second, is its last.
    Stream-off is then requested exactly once, as the last operation, so
    no frame is delivered after it. *)
Theorem v4l2_thread_stop_signal (s : stream) (pre post : list tick) (t : tick)
    (stopped : bool) (data : v4l2_data) (w : world) :
  v4l2_thread s pre stopped data w = None ->
  stop_during_wait t = true ->
  exists data' ops,
    v4l2_thread s (pre ++ t :: post) stopped data w = Some (data', log ops w)
    /\ v4l2_thread s (pre ++ [t]) stopped data w = Some (data', log ops w)
    /\ filter is_select ops
       = replicate (S (length pre)) (OpSelect (dev data) 1 0)
    /\ length (filter is_streamoff ops) = 1%nat
    /\ stream_off_last (dev data) ops
    /\ no_frame_after_stream_off ops.
Proof.
  intros Hrun Hstop. unfold v4l2_thread, v4l2_stop_capture in *.
  destruct (v4l2_start_capture_log s data w) as (ops0 & Hstart & Hoff0 & _ & Hsel0).
  destruct (v4l2_start_capture s data w) as [r w1]. cbn in Hstart. subst w1.
  destruct (r <? 0); [discriminate Hrun |].
  destruct (v4l2_prep_obs_frame (with_frames 0 data)) as [out offsets].
  destruct (capture_loop pre stopped out offsets (with_frames 0 data)
                         (log ops0 w)) as [[? ?] |] eqn:Hpre;
    [discriminate Hrun |].
  destruct (capture_loop_running _ _ _ _ _ _ Hpre)
    as (data1 & ops1 & Hdev1 & Hoff1 & Hsel1 & Hrest).
  destruct (capture_loop_stop t out offsets data1 (log ops1 (log ops0 w)) Hstop)
    as (data2 & ops2 & Hdev2 & Hoff2 & Hsel2 & Hlast).
  cbn [dev with_frames] in Hdev1, Hsel1.
  assert (Hoff : stream_off_last (dev data)
                   (ops0 ++ ops1 ++ ops2 ++ [OpStreamOff (dev data)
                                                (answer_streamoff s)])).
  { exists (ops0 ++ ops1 ++ ops2), (answer_streamoff s).
    split; [rewrite <- !app_assoc; reflexivity |].
    rewrite !filter_app, Hoff0, Hoff1, Hoff2. reflexivity. }
  exists data2,
    (ops0 ++ ops1 ++ ops2 ++ [OpStreamOff (dev data) (answer_streamoff s)]).
  rewrite !Hrest, !Hlast. cbn. rewrite !log_log. rewrite Hdev2, Hdev1.
  rewrite <- ?app_assoc.
  split; [reflexivity |]. split; [reflexivity |].
  split.
  { rewrite !filter_app, Hsel0, Hsel1, Hsel2, Hdev1. cbn [app].
    change (filter is_select [OpStreamOff (dev data) (answer_streamoff s)])
      with (@nil op).
    apply replicate_snoc. }
  split; [exact (proj1 (stream_off_last_once _ _ Hoff)) |].
  split; [exact Hoff |].
  exact (stream_off_last_no_frame _ _ Hoff).
Qed.

Lemma v4l2_thread_stop_signal_witness :
  exists data' ops,
    v4l2_thread good_stream ([idle_tick] ++ stop_tick :: [idle_tick]) false
                live_session live_world = Some (data', log ops live_world)
    /\ v4l2_thread good_stream ([idle_tick] ++ [stop_tick]) false
                   live_session live_world = Some (data', log ops live_world)
    /\ filter is_select ops
       = replicate (S (length [idle_tick])) (OpSelect (dev live_session) 1 0)
    /\ length (filter is_streamoff ops) = 1%nat
    /\ stream_off_last (dev live_session) ops
    /\ no_frame_after_stream_off ops.
Proof.
  apply (v4l2_thread_stop_signal good_stream [idle_tick] [idle_tick] stop_tick
           false live_session live_world); reflexivity.
Defined.

(** The run of the witness: the frame that was ready is still delivered,
    then the thread leaves the loop and requests stream-off. *)
Example v4l2_thread_stopped_run :
  option_map (fun r => (frames r.1, trace r.2))
    (v4l2_thread good_stream [idle_tick; stop_tick; idle_tick] false
                 live_session live_world)
  = Some (1,
      [OpQbuf 3 0 true; OpQbuf 3 1 true; OpQbuf 3 2 true; OpQbuf 3 3 true;
       OpStreamOn 3 true; OpSelect 3 1 0; OpSelect 3 1 0; OpDqbuf 3 true;
       OpDeliver 0
         (mk_frame [8192; 8192; 8192; 8192; 8192; 8192; 8192; 8192]
                   [1280; 0; 0; 0; 0; 0; 0; 0] 640 480 10500000000
                   VIDEO_FORMAT_YUY2);
       OpQbuf 3 1 true; OpStreamOff 3 true]).
Proof. reflexivity. Qed.

(** C9: the thread requests stream-off exactly once, as its last
    operation, on every path on which it returns; when start-up fails
    (a buffer cannot be queued or stream-on is refused) it does return,
    having delivered no frame and waited for none. *)
Theorem v4l2_thread_stream_off (s : stream) (script : list tick)
    (stopped : bool) (data : v4l2_data) (w : world) :
  ((v4l2_start_capture s data w).1 < 0 ->
   exists ops,
     v4l2_thread s script stopped data w = Some (data, log ops w)
     /\ filter is_deliver ops = []
     /\ filter is_select ops = [])
  /\ (forall data' w',
        v4l2_thread s script stopped data w = Some (data', w') ->
        exists ops,
          w' = log ops w
          /\ stream_off_last (dev data) ops
          /\ length (filter is_streamoff ops) = 1%nat
          /\ no_frame_after_stream_off ops).
Proof.
  split.
  - intros Hfail. unfold v4l2_thread, v4l2_stop_capture.
    destruct (v4l2_start_capture_log s data w) as (ops0 & Hstart & _ & Hdel & Hsel).
    destruct (v4l2_start_capture s data w) as [r w1]. cbn in Hstart, Hfail.
    subst w1. destruct (Z.ltb_spec r 0) as [_ | Hge]; [| lia].
    cbn. rewrite log_log. eexists. split; [reflexivity |].
    rewrite !filter_app, Hdel, Hsel. split; reflexivity.
  - intros data' w' Hrun.
    destruct (v4l2_thread_left _ _ _ _ _ _ _ Hrun) as (ops & Hw & Hlast).
    exists ops. split; [exact Hw |]. split; [exact Hlast |].
    split; [exact (proj1 (stream_off_last_once _ _ Hlast)) |].
    exact (stream_off_last_no_frame _ _ Hlast).
Qed.

Lemma v4l2_thread_stream_off_witness :
  (exists ops,
     v4l2_thread bad_queue [idle_tick] false live_session live_world
       = Some (live_session, log ops live_world)
     /\ filter is_deliver ops = []
     /\ filter is_select ops = [])
  /\ (exists ops,
        log [OpQbuf 3 0 true; OpQbuf 3 1 false; OpStreamOff 3 true] live_world
          = log ops live_world
        /\ stream_off_last (dev live_session) ops
        /\ length (filter is_streamoff ops) = 1%nat
        /\ no_frame_after_stream_off ops).
Proof.
  pose proof (v4l2_thread_stream_off bad_queue [idle_tick] false live_session
                live_world) as [Hfail Hexit].
  split.
  - apply Hfail. vm_compute. reflexivity.
  - apply (Hexit live_session). reflexivity.
Defined.

Example v4l2_thread_start_fails :
  option_map (fun r => trace r.2)
    (v4l2_thread bad_queue [idle_tick] false live_session live_world)
  = Some [OpQbuf 3 0 true; OpQbuf 3 1 false; OpStreamOff 3 true].
Proof. reflexivity. Qed.

(** ** Concrete runs of the reconfiguration and enumeration properties *)

Lemma v4l2_update_restart_witness :
  v4l2_update None third_mapping_fails vga_request video0_settings idle_world
    = (vga_request, video0_settings, idle_world)
  /\ v4l2_update None working_device vga_request video1_settings idle_world
     = ((restart working_device (committed vga_request video1_settings)
                 idle_world).1,
        video1_settings,
        (restart working_device (committed vga_request video1_settings)
                 idle_world).2).
Proof.
  split.
  - apply (v4l2_update_restart None third_mapping_fails vga_request
             video0_settings idle_world).
    reflexivity.
  - apply (v4l2_update_restart None working_device vga_request
             video1_settings idle_world).
    intros H. discriminate H.
Defined.

Lemma v4l2_device_list_default_witness :
  (v4l2_update one_camera working_device vga_request video1_settings
               idle_world).1.2 = video1_settings
  /\ Some (v4l2_update (Some [mk_entry "video0" false 5
                                       (Some (1, "camera"%string))])
                       working_device vga_request blank_settings
                       idle_world).1.2
     = with_default_device [mk_entry "video0" false 5
                                     (Some (1, "camera"%string))]
                           (Some blank_settings).
Proof.
  split.
  - apply (v4l2_device_list_default one_camera [] [] video1_settings
             working_device vga_request idle_world).
    discriminate.
  - apply (v4l2_device_list_default None
             [mk_entry "video0" false 5 (Some (1, "camera"%string))] []
             blank_settings working_device vga_request idle_world).
    reflexivity.
Defined.

(** ** Initialisation never leaves a half-built session *)

Lemma v4l2_terminate_owned data w :
  owns_mappings data w -> mapped (v4l2_terminate data w).2 = [].
Proof.
  intros [Hnil | (done & pending & Hbuf & Hok & Hmap & Hlen)].
  - apply v4l2_terminate_mapped_nil, Hnil.
  - exact (v4l2_terminate_unmaps data w done pending Hbuf Hok Hmap Hlen).
Qed.

(** The loop keeps the filled slots and the mapped regions in step,
    whether it runs to the end or stops at a failure. *)
Lemma map_buffers_invariant (e : device) :
  forall (todo : nat) (done pending : list v4l2_buffer_data)
         (data : v4l2_data) (w : world),
    buf data = done ++ pending ->
    (todo <= length pending)%nat ->
    Forall is_mapped done ->
    mapped w = map region done ->
    exists (r : Z) (data' : v4l2_data) (w' : world)
           (done' pending' : list v4l2_buffer_data),
      map_buffers e todo (length done) data w = (r, data', w')
      /\ buf data' = done' ++ pending'
      /\ Forall is_mapped done'
      /\ mapped w' = map region done'
      /\ buf_count data' = buf_count data
      /\ length (buf data') = length (buf data).
Proof.
  induction todo as [| todo IH]; intros done pending data w Hbuf Hlen Hok Hmap.
  - exists 0, data, w, done, pending. repeat split; assumption.
  - cbn [map_buffers].
    destruct (answer_querybuf e (length done)) as [[len off] |] eqn:Hq.
    2: { do 3 eexists. exists done, pending. split; [reflexivity |].
         repeat split; assumption. }
    destruct pending as [| p pending]; [simpl in Hlen; lia |].
    destruct (Z.eqb_spec (answer_mmap e (length done)) MAP_FAILED) as [Hfail | Hgood].
    + do 3 eexists. exists done, (mk_buffer len (answer_mmap e (length done)) :: pending).
      split; [reflexivity |]. cbn.
      split; [| split; [exact Hok | split; [| split; [reflexivity | apply length_insert]]]].
      * rewrite Hbuf.
        replace (length done) with (length done + 0)%nat at 1 by lia.
        rewrite insert_app_r. reflexivity.
      * rewrite Hfail. cbn. exact Hmap.
    + set (b := mk_buffer len (answer_mmap e (length done))).
      replace (S (length done)) with (length (done ++ [b]))
        by (rewrite length_app; simpl; lia).
      edestruct (IH (done ++ [b]) pending)
        as (r & data' & w' & done' & pending' & H1 & H2 & H3 & H4 & H5 & H6);
        [| | | | exists r, data', w', done', pending';
               repeat split; [exact H1 | exact H2 | exact H3 | exact H4 | exact H5 |]].
      * cbn. rewrite Hbuf.
        replace (length done) with (length done + 0)%nat at 1 by lia.
        rewrite insert_app_r. cbn. rewrite <- app_assoc. reflexivity.
      * simpl in Hlen. lia.
      * apply Forall_app. split; [exact Hok |].
        constructor; [exact Hgood | constructor].
      * cbn. destruct (Z.eqb_spec (answer_mmap e (length done)) MAP_FAILED) as [|_];
          [contradiction |].
        rewrite Hmap, map_app. reflexivity.
      * rewrite H6. cbn. apply length_insert.
Qed.

Lemma v4l2_create_mmap_owned e data w :
  mapped w = [] ->
  owns_mappings (v4l2_create_mmap e data w).1.2 (v4l2_create_mmap e data w).2.
Proof.
  intros Hw. unfold v4l2_create_mmap.
  destruct (answer_reqbufs e) as [count |]; [| left; exact Hw].
  destruct (count <? 2); [left; exact Hw |].
  set (n := Z.to_nat count).
  set (data1 := with_buffers count (replicate n (mk_buffer 0 0)) data).
  set (w1 := log [OpBzalloc count] (log [OpReqBufs (dev data) true] w)).
  destruct (map_buffers_invariant e n [] (replicate n (mk_buffer 0 0)) data1 w1)
    as (r & data' & w' & done' & pending' & Hrun & Hbuf & Hok & Hmap & Hcnt & Hsize).
  - reflexivity.
  - rewrite length_replicate. lia.
  - constructor.
  - exact Hw.
  - cbn [length] in Hrun. rewrite Hrun. cbn. right.
    exists done', pending'. repeat split; try assumption.
    rewrite Hsize, Hcnt. cbn. rewrite length_replicate. lia.
Qed.

Lemma owns_mappings_ext data data' w w' :
  buf data' = buf data -> buf_count data' = buf_count data ->
  mapped w' = mapped w ->
  owns_mappings data w -> owns_mappings data' w'.
Proof.
  intros Hb Hc Hm [Hnil | (done & pending & H1 & H2 & H3 & H4)].
  - left. congruence.
  - right. exists done, pending. rewrite Hb, Hc, Hm. repeat split; assumption.
Qed.

Lemma unmap_buffers_extends bs : forall w,
  exists ops,
    trace (unmap_buffers bs w) = trace w ++ ops
    /\ forallb is_release ops = true.
Proof.
  induction bs as [| b bs IH]; intros w.
  - exists []. rewrite app_nil_r. split; reflexivity.
  - cbn [unmap_buffers]. destruct (buf_start b =? MAP_FAILED); [apply IH |].
    destruct (IH (do_munmap (buf_start b) (buf_length b) w)) as (ops & -> & Hall).
    exists (OpMunmap (buf_start b) (buf_length b) :: ops). cbn.
    rewrite <- app_assoc. split; [reflexivity | exact Hall].
Qed.

(** The mapping loop logs requests only, and leaves the descriptor and
    the thread handles of the data alone. *)
Lemma map_buffers_setup e todo : forall i data w,
  exists ops,
    trace (map_buffers e todo i data w).2 = trace w ++ ops
    /\ forallb is_setup_op ops = true
    /\ dev (map_buffers e todo i data w).1.2 = dev data
    /\ thread (map_buffers e todo i data w).1.2 = thread data
    /\ event (map_buffers e todo i data w).1.2 = event data.
Proof.
  induction todo as [| todo IH]; intros i data w.
  - exists []. rewrite app_nil_r. repeat split.
  - cbn [map_buffers]. destruct (answer_querybuf e i) as [[len off] |].
    + destruct (answer_mmap e i =? MAP_FAILED).
      * eexists. cbn. rewrite <- app_assoc. repeat split.
      * match goal with
        | |- context [map_buffers e todo ?j ?d ?w0] =>
            destruct (IH j d w0) as (ops & -> & Hall & -> & -> & ->)
        end.
        eexists. cbn. rewrite <- !app_assoc.
        split; [reflexivity |]. split; [exact Hall |]. repeat split.
    + eexists. cbn. repeat split.
Qed.

Lemma v4l2_create_mmap_setup e data w :
  exists ops,
    trace (v4l2_create_mmap e data w).2 = trace w ++ ops
    /\ forallb is_setup_op ops = true
    /\ dev (v4l2_create_mmap e data w).1.2 = dev data
    /\ thread (v4l2_create_mmap e data w).1.2 = thread data
    /\ event (v4l2_create_mmap e data w).1.2 = event data.
Proof.
  unfold v4l2_create_mmap. destruct (answer_reqbufs e) as [count |].
  - destruct (count <? 2); [eexists; cbn; repeat split |].
    match goal with
    | |- context [map_buffers e ?n ?j ?d ?w0] =>
        destruct (map_buffers_setup e n j d w0) as (ops & -> & Hall & -> & -> & ->)
    end.
    eexists. cbn. rewrite <- !app_assoc.
    split; [reflexivity |]. split; [exact Hall |]. repeat split.
  - eexists. cbn. repeat split.
Qed.

(** What [v4l2_terminate] appends to a log that already extends [w] by
    [pre]: the thread operations, the releases, and the close of [dev]. *)
Lemma v4l2_terminate_shape data w0 w pre :
  trace w0 = trace w ++ pre ->
  exists releases,
    trace (v4l2_terminate data w0).2
    = trace w ++ pre ++ stop_thread_ops data ++ releases
        ++ (if dev data =? -1 then [] else [OpV4l2Close (dev data)])
    /\ forallb is_release releases = true
    /\ (buf_count data = 0 -> releases = []).
Proof.
  intros Hpre. unfold v4l2_terminate, stop_thread_ops.
  set (stop := if thread data =? 0 then []
               else [OpEventSignal (event data); OpThreadJoin (thread data);
                     OpEventDestroy (event data)]).
  assert (Hw1 : (if thread data =? 0 then w0
                 else log [OpEventSignal (event data);
                           OpThreadJoin (thread data);
                           OpEventDestroy (event data)] w0) = log stop w0).
  { unfold stop. destruct (thread data =? 0); [rewrite log_nil |]; reflexivity. }
  rewrite Hw1.
  destruct (Z.eqb_spec (buf_count data) 0) as [Hb | Hb].
  - exists []. cbn. destruct (dev data =? -1); cbn; rewrite Hpre;
      rewrite <- ?app_assoc, ?app_nil_r; repeat split.
  - unfold v4l2_destroy_mmap.
    destruct (unmap_buffers_extends (take (Z.to_nat (buf_count data)) (buf data))
                                    (log stop w0)) as (ops & Hops & Hall).
    exists (ops ++ [OpBfree]).
    cbn. destruct (dev data =? -1); cbn; rewrite Hops; cbn; rewrite Hpre;
      rewrite <- ?app_assoc, ?app_nil_r;
      (split; [reflexivity |]);
      (split; [rewrite forallb_app, Hall; reflexivity |]);
      intros H0; contradiction.
Qed.

(** The log of [v4l2_init]: the open, the set-up requests, and then
    either the creation of the thread or the teardown of [fail]. *)
Lemma v4l2_init_shape e data w :
  let path := default EmptyString (set_device data) in
  let fd := match set_device data with
            | Some p => answer_open e p
            | None => -1
            end in
  exists setup,
    forallb is_setup_op setup = true
    /\ ((exists tid,
           answer_thread_create e = Some tid
           /\ fd <> -1
           /\ trace (v4l2_init e data w).2
              = trace w ++ OpOpen path fd :: setup ++ [OpThreadCreate true]
           /\ thread (v4l2_init e data w).1 = tid
           /\ dev (v4l2_init e data w).1 = fd)
        \/ (exists ev releases,
              trace (v4l2_init e data w).2
              = trace w ++ OpOpen path fd :: setup
                  ++ (if thread data =? 0 then []
                      else [OpEventSignal ev; OpThreadJoin (thread data);
                            OpEventDestroy ev])
                  ++ releases
                  ++ (if fd =? -1 then [] else [OpV4l2Close fd])
              /\ forallb is_release releases = true
              /\ thread (v4l2_init e data w).1 = thread data
              /\ dev (v4l2_init e data w).1 = -1)).
Proof.
  cbv zeta.
  set (path := default EmptyString (set_device data)).
  set (fd := match set_device data with
             | Some p => answer_open e p
             | None => -1
             end).
  assert (Hfail : forall d w0 setup,
            trace w0 = trace w ++ OpOpen path fd :: setup ->
            forallb is_setup_op setup = true ->
            dev d = fd -> thread d = thread data ->
            exists setup',
              forallb is_setup_op setup' = true
              /\ ((exists tid,
                     answer_thread_create e = Some tid
                     /\ fd <> -1
                     /\ trace (v4l2_terminate d w0).2
                        = trace w ++ OpOpen path fd :: setup'
                            ++ [OpThreadCreate true]
                     /\ thread (v4l2_terminate d w0).1 = tid
                     /\ dev (v4l2_terminate d w0).1 = fd)
                  \/ (exists ev releases,
                        trace (v4l2_terminate d w0).2
                        = trace w ++ OpOpen path fd :: setup'
                            ++ (if thread data =? 0 then []
                                else [OpEventSignal ev;
                                      OpThreadJoin (thread data);
                                      OpEventDestroy ev])
                            ++ releases
                            ++ (if fd =? -1 then [] else [OpV4l2Close fd])
                        /\ forallb is_release releases = true
                        /\ thread (v4l2_terminate d w0).1 = thread data
                        /\ dev (v4l2_terminate d w0).1 = -1))).
  { intros d w0 setup Hw0 Hall Hdev Hthr.
    destruct (v4l2_terminate_shape d w0 w (OpOpen path fd :: setup) Hw0)
      as (releases & Htr & Hrel & _).
    destruct (v4l2_terminate_fields d w0) as (Ht & _ & _ & Hd).
    exists setup. split; [exact Hall |]. right.
    exists (event d), releases.
    rewrite Htr, Ht, Hd, Hthr. unfold stop_thread_ops.
    rewrite Hthr, Hdev. cbn [app]. rewrite <- ?app_assoc.
    repeat split. exact Hrel. }
  unfold v4l2_init. fold path fd.
  destruct (Z.eqb_spec fd (-1)) as [Hfd | Hfd].
  { apply (Hfail _ _ []); reflexivity. }
  destruct (unpack_tuple (wrap_int (set_res data))) as [rw rh].
  destruct (answer_s_fmt e _ _ _) as [[[[gw gh] gf] stride] |].
  2: { apply (Hfail _ _ [OpSetFormat fd (wrap_u32 rw) (wrap_u32 rh)
                                     (wrap_u32 (set_pixfmt data)) false]);
         [cbn; rewrite <- app_assoc | ..]; reflexivity. }
  destruct (unpack_tuple (wrap_int (set_fps data))) as [num den].
  destruct (answer_s_parm e _ _); cbn [negb].
  2: { apply (Hfail _ _ [OpSetFormat fd (wrap_u32 rw) (wrap_u32 rh)
                                     (wrap_u32 (set_pixfmt data)) true;
                         OpSetParm fd (wrap_u32 num) (wrap_u32 den) false]);
         [cbn; rewrite <- !app_assoc | ..]; reflexivity. }
  match goal with
  | |- context [v4l2_create_mmap e ?d ?w0] =>
      destruct (v4l2_create_mmap_setup e d w0)
        as (mops & Hmtr & Hmall & Hmdev & Hmthr & _);
      destruct (v4l2_create_mmap e d w0) as [[r data3] w4]
  end.
  cbn in Hmtr, Hmdev, Hmthr. rewrite <- !app_assoc in Hmtr. cbn [app] in Hmtr.
  set (neg := [OpSetFormat fd (wrap_u32 rw) (wrap_u32 rh)
                           (wrap_u32 (set_pixfmt data)) true;
               OpSetParm fd (wrap_u32 num) (wrap_u32 den) true]) in *.
  assert (Hw4 : trace w4 = trace w ++ OpOpen path fd :: neg ++ mops)
    by exact Hmtr.
  assert (Hneg : forallb is_setup_op (neg ++ mops) = true)
    by (rewrite forallb_app, Hmall; reflexivity).
  destruct (r <? 0).
  { apply (Hfail _ _ (neg ++ mops)); assumption. }
  destruct (answer_event_init e) as [ev |].
  2: { apply (Hfail _ _ ((neg ++ mops) ++ [OpEventInit false])).
       - cbn [snd trace log]. rewrite Hw4, <- !app_assoc. cbn [app].
         rewrite <- ?app_assoc. reflexivity.
       - rewrite forallb_app, Hneg. reflexivity.
       - exact Hmdev.
       - exact Hmthr. }
  destruct (answer_thread_create e) as [tid |].
  - exists ((neg ++ mops) ++ [OpEventInit true]).
    split; [rewrite forallb_app, Hneg; reflexivity |].
    left. exists tid. split; [reflexivity |]. split; [exact Hfd |].
    split; [| split; [reflexivity | exact Hmdev]].
    cbn [snd trace log]. rewrite Hw4, <- !app_assoc. cbn [app].
    rewrite <- ?app_assoc. reflexivity.
  - apply (Hfail _ _ ((neg ++ mops) ++ [OpEventInit true; OpThreadCreate false])).
    + cbn [snd trace log]. rewrite Hw4, <- !app_assoc. cbn [app].
      rewrite <- ?app_assoc. reflexivity.
    + rewrite forallb_app, Hneg. reflexivity.
    + exact Hmdev.
    + exact Hmthr.
Qed.

Lemma is_setup_op_quiet ops :
  forallb is_setup_op ops = true ->
  filter is_thread_start ops = [] /\ filter is_thread_stop ops = []
  /\ forallb (fun o => negb (is_fd_op o)) ops = true.
Proof.
  induction ops as [| o ops IH]; [repeat split |].
  cbn [forallb]. intros Hall. apply andb_true_iff in Hall as [Ho Hall].
  destruct (IH Hall) as (H1 & H2 & H3).
  destruct o; try discriminate Ho;
    try (destruct ok; try discriminate Ho);
    rewrite !filter_cons; cbn; rewrite ?H1, ?H2, ?H3; repeat split.
Qed.

Lemma is_release_quiet ops :
  forallb is_release ops = true ->
  filter is_thread_start ops = [] /\ filter is_thread_stop ops = []
  /\ forallb (fun o => negb (is_fd_op o)) ops = true.
Proof.
  induction ops as [| o ops IH]; [repeat split |].
  cbn [forallb]. intros Hall. apply andb_true_iff in Hall as [Ho Hall].
  destruct (IH Hall) as (H1 & H2 & H3).
  destruct o; try discriminate Ho;
    rewrite !filter_cons; cbn; rewrite ?H1, ?H2, ?H3; repeat split.
Qed.




(** X2: a device that grants fewer than two buffers makes
    [v4l2_create_mmap] fail before anything is allocated or mapped. *)
Theorem v4l2_create_mmap_too_few (e : device) (count : Z) (data : v4l2_data)
    (w : world) :
  answer_reqbufs e = Some count -> count < 2 ->
  v4l2_create_mmap e data w = (-1, data, log [OpReqBufs (dev data) true] w).
Proof.
  intros Hreq Hcount. unfold v4l2_create_mmap. rewrite Hreq.
  destruct (Z.ltb_spec count 2) as [_ | Hge]; [reflexivity | lia].
Qed.

Lemma v4l2_create_mmap_too_few_witness :
  v4l2_create_mmap one_buffer vga_request idle_world
  = (-1, vga_request, log [OpReqBufs (dev vga_request) true] idle_world).
Proof.
  apply (v4l2_create_mmap_too_few one_buffer 1 vga_request idle_world);
    [reflexivity | lia].
Defined.

(** ** Packed-tuple codec: what is kept of values that do not fit *)

Lemma mod_shift_low x b :
  0 <= b < 2 ^ 16 ->
  (x * 2 ^ 16 + b) mod 2 ^ 32 = (x mod 2 ^ 16) * 2 ^ 16 + b.
Proof.
  intros Hb.
  pose proof (Z.mod_pos_bound x (2 ^ 16) ltac:(lia)) as Hr.
  symmetry. apply Z.mod_unique with (q := x / 2 ^ 16); [lia |].
  pose proof (Z.div_mod x (2 ^ 16) ltac:(lia)) as Hdm. lia.
Qed.

(** X3: for all integers, unpacking a packed pair returns the low 16 bits
    of [a] read as a signed number and the low 16 bits of [b] read as an
    unsigned one: what does not fit is dropped silently. *)
Theorem unpack_pack_tuple_truncates (a b : Z) :
  unpack_tuple (pack_tuple a b)
  = ((a + 2 ^ 15) mod 2 ^ 16 - 2 ^ 15, b mod 2 ^ 16).
Proof.
  pose proof (Z.mod_pos_bound b (2 ^ 16) ltac:(lia)) as Hb.
  pose proof (Z.mod_pos_bound (a + 2 ^ 15) (2 ^ 16) ltac:(lia)) as Ha.
  assert (Hpack : pack_tuple a b
                  = ((a + 2 ^ 15) mod 2 ^ 16 - 2 ^ 15) * 2 ^ 16 + b mod 2 ^ 16).
  { unfold pack_tuple. rewrite land_low_mask, lor_shiftl_low by exact Hb.
    unfold wrap_int.
    replace (a * 2 ^ 16 + b mod 2 ^ 16 + 2 ^ 31)
      with ((a + 2 ^ 15) * 2 ^ 16 + b mod 2 ^ 16) by lia.
    rewrite mod_shift_low by exact Hb. lia. }
  rewrite Hpack. unfold unpack_tuple. f_equal.
  - rewrite Z.shiftr_div_pow2 by lia.
    rewrite Z.div_add_l by lia. rewrite (Z.div_small (b mod 2 ^ 16)) by lia. lia.
  - rewrite land_low_mask.
    rewrite Z.add_comm, Z.mod_add by lia. apply Z.mod_small. lia.
Qed.

(** ** Plane layout for any negotiated size *)

Lemma wrap_u64_small z : 0 <= z < 2 ^ 64 -> wrap_u64 z = z.
Proof. intros Hz. apply Z.mod_small, Hz. Qed.

Lemma wrap_u32_small z : 0 <= z < 2 ^ 32 -> wrap_u32 z = z.
Proof. intros Hz. apply Z.mod_small, Hz. Qed.

(** X4: for every stride and height whose image size does not overflow,
    the layout is: packed formats one plane at offset 0; NV12 a second
    plane at stride*height; the planar formats two chroma planes of half
    the stride at stride*height and stride*height*5/4, YVU420 with the
    two offsets exchanged.  The planar chroma planes do not overlap and
    end within the stride*height*3/2 bytes of the image. *)
Theorem v4l2_prep_obs_frame_layout (data : v4l2_data) :
  0 <= linesize data < 2 ^ 32 -> 0 <= height data ->
  linesize data * height data * 5 < 2 ^ 64 ->
  let L := linesize data in
  let H := height data in
  let layout := v4l2_prep_obs_frame data in
  (pixfmt data = V4L2_PIX_FMT_YUV420 ->
     layout.2 = [0; L * H; L * H * 5 / 4; 0; 0; 0; 0; 0]
     /\ frame_linesize layout.1 = [L; L / 2; L / 2; 0; 0; 0; 0; 0])
  /\ (pixfmt data = V4L2_PIX_FMT_YVU420 ->
     layout.2 = [0; L * H * 5 / 4; L * H; 0; 0; 0; 0; 0]
     /\ frame_linesize layout.1 = [L; L / 2; L / 2; 0; 0; 0; 0; 0])
  /\ (pixfmt data = V4L2_PIX_FMT_NV12 ->
     layout.2 = [0; L * H; 0; 0; 0; 0; 0; 0]
     /\ frame_linesize layout.1 = [L; L / 2; 0; 0; 0; 0; 0; 0])
  /\ (pixfmt data <> V4L2_PIX_FMT_NV12 -> ~ is_planar_420 (pixfmt data) ->
     layout.2 = [0; 0; 0; 0; 0; 0; 0; 0]
     /\ frame_linesize layout.1 = [L; 0; 0; 0; 0; 0; 0; 0])
  /\ (L * H + chroma_bytes data <= L * H * 5 / 4
      /\ L * H * 5 / 4 + chroma_bytes data <= L * H * 3 / 2).
Proof.
  intros HL HH Hsize. cbv zeta.
  assert (HLH : 0 <= linesize data * height data) by nia.
  assert (Hluma : wrap_u64 (linesize data * wrap_u64 (height data))
                  = linesize data * height data).
  { destruct (Z.eq_dec (linesize data) 0) as [Hz | Hnz].
    - rewrite Hz. reflexivity.
    - rewrite (wrap_u64_small (height data)) by nia.
      apply wrap_u64_small. lia. }
  assert (Hluma5 : wrap_u64 (linesize data * height data * 5)
                   = linesize data * height data * 5)
    by (apply wrap_u64_small; lia).
  assert (Hhalf : wrap_u32 (linesize data / 2) = linesize data / 2).
  { apply wrap_u32_small. split; [apply Z.div_pos; lia |].
    apply Z.div_lt_upper_bound; lia. }
  unfold v4l2_prep_obs_frame.
  rewrite Hluma, Hluma5, Hhalf, (wrap_u32_small (linesize data)) by exact HL.
  split; [| split; [| split; [| split]]].
  - intros ->. split; reflexivity.
  - intros ->. split; reflexivity.
  - intros ->. split; reflexivity.
  - intros Hnv Hpl. unfold is_planar_420 in Hpl.
    destruct (Z.eqb_spec (pixfmt data) V4L2_PIX_FMT_NV12); [contradiction |].
    destruct (Z.eqb_spec (pixfmt data) V4L2_PIX_FMT_YVU420); [tauto |].
    destruct (Z.eqb_spec (pixfmt data) V4L2_PIX_FMT_YUV420); [tauto |].
    split; reflexivity.
  - unfold chroma_bytes.
    pose proof (Z.div_mod (linesize data) 2 ltac:(lia)) as Hl.
    pose proof (Z.mod_pos_bound (linesize data) 2 ltac:(lia)) as Hlb.
    pose proof (Z.div_mod (height data) 2 ltac:(lia)) as Hh.
    pose proof (Z.mod_pos_bound (height data) 2 ltac:(lia)) as Hhb.
    set (x := linesize data / 2) in *. set (y := height data / 2) in *.
    assert (Hx0 : 0 <= x) by lia. assert (Hy0 : 0 <= y) by lia.
    assert (Hxy : 4 * (x * y) <= linesize data * height data) by nia.
    assert (Hx : 0 <= x * y) by nia.
    split.
    + apply Z.div_le_lower_bound; lia.
    + apply Z.div_le_lower_bound; [lia |].
      pose proof (Z.mul_div_le (linesize data * height data * 5) 4 ltac:(lia)).
      lia.
Qed.

Lemma v4l2_prep_obs_frame_layout_witness :
  (v4l2_prep_obs_frame (vga_data V4L2_PIX_FMT_NV12 (fresh_data 0))).2
    = [0; 640 * 480; 0; 0; 0; 0; 0; 0]
  /\ frame_linesize (v4l2_prep_obs_frame (vga_data V4L2_PIX_FMT_NV12 (fresh_data 0))).1
     = [640; 640 / 2; 0; 0; 0; 0; 0; 0].
Proof.
  apply (v4l2_prep_obs_frame_layout (vga_data V4L2_PIX_FMT_NV12 (fresh_data 0)));
    cbn; [lia | lia | lia | reflexivity].
Defined.

(** ** Buffer pool: a full mapping run and its undoing *)

Lemma map_buffers_succeeds (e : device) :
  forall (todo : nat) (done pending : list v4l2_buffer_data)
         (data : v4l2_data) (w : world),
    maps_until e (length done + todo) ->
    buf data = done ++ pending ->
    length pending = todo ->
    exists w',
      map_buffers e todo (length done) data w
      = (0, with_buffers (buf_count data)
              (done ++ map (granted_buffer e) (seq (length done) todo)) data,
         w')
      /\ mapped w'
         = mapped w ++ map region (map (granted_buffer e) (seq (length done) todo))
      /\ filter is_munmap (trace w') = filter is_munmap (trace w).
Proof.
  induction todo as [| todo IH]; intros done pending data w Hmaps Hbuf Hlen.
  - exists w. cbn. rewrite !app_nil_r. destruct pending; [| discriminate Hlen].
    rewrite app_nil_r in Hbuf. rewrite <- Hbuf.
    destruct data; repeat split.
  - cbn [map_buffers].
    destruct (Hmaps (length done) ltac:(lia)) as [(len & off & Hq) Haddr].
    rewrite Hq.
    destruct (Z.eqb_spec (answer_mmap e (length done)) MAP_FAILED) as [| _];
      [contradiction |].
    destruct pending as [| p pending]; [discriminate Hlen |].
    injection Hlen as Hlen.
    set (b := mk_buffer len (answer_mmap e (length done))).
    assert (Hb : granted_buffer e (length done) = b)
      by (unfold granted_buffer; rewrite Hq; reflexivity).
    match goal with
    | |- context [map_buffers e todo _ ?d ?w0] =>
        destruct (IH (done ++ [b]) pending d w0) as (w' & Hrun & Hmap & Htr)
    end.
    + rewrite length_app. cbn. replace (length done + 1 + todo)%nat
        with (length done + S todo)%nat by lia. exact Hmaps.
    + cbn. rewrite Hbuf.
      replace (length done) with (length done + 0)%nat at 1 by lia.
      rewrite insert_app_r. cbn. rewrite <- app_assoc. reflexivity.
    + exact Hlen.
    + exists w'.
      replace (length (done ++ [b])) with (S (length done)) in Hrun, Hmap
        by (rewrite length_app; cbn; lia).
      rewrite Hrun. cbn [seq map]. rewrite Hb, <- app_assoc.
      split; [reflexivity |]. split.
      * rewrite Hmap. cbn.
        destruct (Z.eqb_spec (answer_mmap e (length done)) MAP_FAILED) as [| _];
          [contradiction |].
        rewrite <- app_assoc. reflexivity.
      * rewrite Htr. cbn. rewrite !filter_app. cbn. rewrite !app_nil_r.
        reflexivity.
Qed.

Lemma unmap_buffers_trace bs : forall w,
  Forall is_mapped bs ->
  trace (unmap_buffers bs w) = trace w ++ map munmap_of bs.
Proof.
  induction bs as [| b bs IH]; intros w Hok; cbn [unmap_buffers map].
  - rewrite app_nil_r. reflexivity.
  - inversion Hok as [| ? ? Hb Hok']; subst.
    destruct (Z.eqb_spec (buf_start b) MAP_FAILED) as [| _]; [contradiction |].
    rewrite IH by exact Hok'. cbn. rewrite <- app_assoc. reflexivity.
Qed.

Lemma granted_buffers_mapped e n :
  maps_until e n -> Forall is_mapped (granted_buffers e n).
Proof.
  intros Hmaps. unfold granted_buffers. apply List.Forall_forall.
  intros b Hin. apply in_map_iff in Hin as (i & <- & Hi).
  apply in_seq in Hi. exact (proj2 (Hmaps i ltac:(lia))).
Qed.

(** X5: when the device grants [count] >= 2 buffers and every query and
    mapping succeeds, [v4l2_create_mmap] returns 0 with [buf_count] =
    [count] and one array slot and one mapped region per buffer, in index
    order, and unmaps nothing; [v4l2_destroy_mmap] on the result unmaps
    each of those regions exactly once, in the same order, frees the
    array and leaves nothing mapped and [buf_count] = 0. *)
Theorem v4l2_create_destroy_mmap (e : device) (count : Z) (data : v4l2_data)
    (w : world) :
  answer_reqbufs e = Some count -> 2 <= count ->
  maps_until e (Z.to_nat count) -> mapped w = [] ->
  let bufs := granted_buffers e (Z.to_nat count) in
  exists w',
    v4l2_create_mmap e data w = (0, with_buffers count bufs data, w')
    /\ mapped w' = map region bufs
    /\ filter is_munmap (trace w') = filter is_munmap (trace w)
    /\ v4l2_destroy_mmap (with_buffers count bufs data) w'
       = (with_buffers 0 bufs data,
          mk_world [] (trace w' ++ map munmap_of bufs ++ [OpBfree])).
Proof.
  intros Hreq Hcount Hmaps Hw. cbv zeta. unfold v4l2_create_mmap.
  rewrite Hreq. destruct (Z.ltb_spec count 2) as [| _]; [lia |].
  set (n := Z.to_nat count) in *.
  match goal with
  | |- context [map_buffers e n 0 ?d ?w0] =>
      destruct (map_buffers_succeeds e n [] (replicate n (mk_buffer 0 0)) d w0)
        as (w' & Hrun & Hmap & Htr)
  end.
  - exact Hmaps.
  - reflexivity.
  - apply length_replicate.
  - cbn [length app] in Hrun, Hmap. exists w'. rewrite Hrun.
    split; [reflexivity |].
    cbn in Hmap. rewrite Hw in Hmap. cbn in Hmap.
    split; [exact Hmap |]. split.
    + rewrite Htr. cbn. rewrite !filter_app. cbn. rewrite !app_nil_r.
      reflexivity.
    + pose proof (granted_buffers_mapped e n Hmaps) as Hok.
      unfold v4l2_destroy_mmap. cbn [buf buf_count with_buffers].
      rewrite take_ge
        by (unfold granted_buffers; rewrite length_map, length_seq; lia).
      f_equal. unfold log.
      rewrite (unmap_buffers_trace _ _ Hok), <- app_assoc.
      f_equal.
      pose proof (unmap_buffers_all (granted_buffers e n) [] w' Hok Hmap) as Hnil.
      rewrite app_nil_r in Hnil. exact Hnil.
Qed.

Lemma v4l2_create_destroy_mmap_witness :
  let bufs := granted_buffers working_device (Z.to_nat 4) in
  exists w',
    v4l2_create_mmap working_device vga_request idle_world
      = (0, with_buffers 4 bufs vga_request, w')
    /\ mapped w' = map region bufs
    /\ filter is_munmap (trace w') = filter is_munmap (trace idle_world)
    /\ v4l2_destroy_mmap (with_buffers 4 bufs vga_request) w'
       = (with_buffers 0 bufs vga_request,
          mk_world [] (trace w' ++ map munmap_of bufs ++ [OpBfree])).
Proof.
  apply (v4l2_create_destroy_mmap working_device 4 vga_request idle_world).
  - reflexivity.
  - lia.
  - intros j Hj. split; [eexists _, _; reflexivity |].
    unfold working_device, MAP_FAILED. cbn. lia.
  - reflexivity.
Defined.

(** ** A source's life: nothing leaks over reconfigurations *)

Lemma open_after_app ops1 ops2 : forall open,
  open_after (ops1 ++ ops2) open
  = match open_after ops1 open with
    | Some open' => open_after ops2 open'
    | None => None
    end.
Proof.
  induction ops1 as [| o ops1 IH]; intros open; [reflexivity |].
  destruct o; cbn [app open_after]; try apply IH;
    destruct (close_fd fd open); try apply IH; reflexivity.
Qed.

Lemma open_after_quiet ops : forall open,
  forallb (fun o => negb (is_fd_op o)) ops = true ->
  open_after ops open = Some open.
Proof.
  induction ops as [| o ops IH]; intros open Hall; [reflexivity |].
  cbn [forallb] in Hall. apply andb_true_iff in Hall as [Ho Hall].
  destruct o; try discriminate Ho; cbn [open_after]; apply IH, Hall.
Qed.

Lemma close_fd_head fd open : close_fd fd (fd :: open) = Some open.
Proof. cbn. rewrite Z.eqb_refl. reflexivity. Qed.

(** A probe closes the descriptor it opened: the scan leaves the open
    descriptors as they are, whichever they are. *)
Lemma scan_devices_descriptors entries : forall first prop settings w,
  exists ops,
    trace (scan_devices entries first prop settings w).2 = trace w ++ ops
    /\ forall open, open_after ops open = Some open.
Proof.
  induction entries as [| dp rest IH]; intros first prop settings w.
  - exists []. rewrite app_nil_r. split; reflexivity.
  - cbn [scan_devices]. destruct (d_is_dir dp); [apply IH |].
    assert (Hgo : forall first' prop' settings' probe,
              (forall open, open_after probe open = Some open) ->
              exists ops,
                trace (scan_devices rest first' prop' settings'
                         (log probe w)).2 = trace w ++ ops
                /\ forall open, open_after ops open = Some open).
    { intros first' prop' settings' probe Hprobe.
      destruct (IH first' prop' settings' (log probe w)) as (ops & -> & Hops).
      exists (probe ++ ops). cbn. rewrite <- app_assoc.
      split; [reflexivity |]. intros open.
      rewrite open_after_app, Hprobe. apply Hops. }
    destruct (Z.eqb_spec (probe_fd dp) (-1)) as [Hfd | Hfd].
    { apply Hgo. intros open. cbn. rewrite Hfd. reflexivity. }
    assert (Hprobe : forall mid,
              forallb (fun o => negb (is_fd_op o)) mid = true ->
              forall open,
                open_after (OpOpen ("/dev/" ++ d_name dp) (probe_fd dp)
                            :: mid ++ [OpClose (probe_fd dp)]) open
                = Some open).
    { intros mid Hmid open. cbn [open_after].
      destruct (Z.eqb_spec (probe_fd dp) (-1)) as [| _]; [contradiction |].
      rewrite open_after_app, (open_after_quiet mid _ Hmid).
      cbn [open_after]. rewrite close_fd_head. reflexivity. }
    destruct (probe_cap dp) as [[caps card] |].
    + destruct (Z.land caps V4L2_CAP_VIDEO_CAPTURE =? 0); rewrite log_log;
        apply Hgo; intros open.
      * apply (Hprobe [OpQueryCap (probe_fd dp) true]). reflexivity.
      * apply (Hprobe [OpQueryCap (probe_fd dp) true;
                       OpListAdd card ("/dev/" ++ d_name dp)]).
        reflexivity.
    + rewrite log_log. apply Hgo. intros open.
      apply (Hprobe [OpQueryCap (probe_fd dp) false]). reflexivity.
Qed.

Lemma select_device_descriptors sysfs settings w :
  exists ops,
    trace (select_device sysfs settings w).2 = trace w ++ ops
    /\ (forall open, open_after ops open = Some open)
    /\ mapped (select_device sysfs settings w).2 = mapped w.
Proof.
  assert (Hm : mapped (select_device sysfs settings w).2 = mapped w).
  { destruct (select_device_probes sysfs settings w) as (ops & -> & _).
    reflexivity. }
  assert (Hnone : exists ops : list op,
            trace w = trace w ++ ops
            /\ (forall open, open_after ops open = Some open)
            /\ mapped w = mapped w).
  { exists []. rewrite app_nil_r. repeat split. }
  revert Hm. unfold select_device, v4l2_device_list.
  destruct (strlen (device_id settings) =? 0); [| intros _; exact Hnone].
  destruct sysfs as [entries |]; [| intros _; exact Hnone].
  destruct (scan_devices_descriptors entries true (obs_property_list_clear None)
              (Some settings) w) as (ops & Htr & Hops).
  destruct (scan_devices entries true (obs_property_list_clear None)
              (Some settings) w) as [[p s] w'].
  intros Hm. exists ops. destruct s; cbn in Htr, Hm |- *; repeat split;
    assumption.
Qed.

(** [v4l2_terminate] closes the descriptor the data holds, and no
    other. *)
Lemma v4l2_terminate_descriptors data w open0 open :
  open_after (trace w) open0 = Some (held_descriptors data ++ open) ->
  open_after (trace (v4l2_terminate data w).2) open0 = Some open.
Proof.
  intros Hw.
  destruct (v4l2_terminate_shape data w w [] (eq_sym (app_nil_r _)))
    as (releases & Htr & Hrel & _).
  destruct (is_release_quiet releases Hrel) as (_ & _ & Hq).
  rewrite Htr. cbn [app]. rewrite open_after_app, Hw.
  assert (Hstop : open_after (stop_thread_ops data)
                             (held_descriptors data ++ open)
                  = Some (held_descriptors data ++ open)).
  { unfold stop_thread_ops. destruct (thread data =? 0); reflexivity. }
  rewrite open_after_app, Hstop, open_after_app,
          (open_after_quiet releases _ Hq).
  unfold held_descriptors. destruct (dev data =? -1); [reflexivity |].
  cbn [app open_after]. rewrite close_fd_head. reflexivity.
Qed.

(** After [v4l2_init] the descriptor in [dev], if any, is open in
    addition to those that were. *)
Lemma v4l2_init_descriptors e data w open0 open :
  open_after (trace w) open0 = Some open ->
  open_after (trace (v4l2_init e data w).2) open0
  = Some (held_descriptors (v4l2_init e data w).1 ++ open).
Proof.
  intros Hw.
  destruct (v4l2_init_shape e data w) as (setup & Hsetup & Hcase).
  destruct (is_setup_op_quiet setup Hsetup) as (_ & _ & Hq).
  set (path := default EmptyString (set_device data)) in *.
  set (fd := match set_device data with
             | Some p => answer_open e p
             | None => -1
             end) in *.
  destruct Hcase as [(tid & Htid & Hfd & Htr & Ht & Hd)
                    | (ev & releases & Htr & Hrel & Ht & Hd)].
  - rewrite Htr, open_after_app, Hw. unfold held_descriptors. rewrite Hd.
    cbn [open_after].
    destruct (Z.eqb_spec fd (-1)) as [| _]; [contradiction |].
    rewrite open_after_app, (open_after_quiet setup _ Hq). reflexivity.
  - destruct (is_release_quiet releases Hrel) as (_ & _ & Hqr).
    rewrite Htr, open_after_app, Hw. unfold held_descriptors. rewrite Hd.
    cbn [open_after Z.eqb app].
    assert (Hstop : forall opened,
              open_after (if thread data =? 0 then []
                          else [OpEventSignal ev; OpThreadJoin (thread data);
                                OpEventDestroy ev]) opened = Some opened)
      by (intros opened; destruct (thread data =? 0); reflexivity).
    change ((if (1 =? 1)%positive then [] else [-1]) ++ open) with open.
    rewrite open_after_app, (open_after_quiet setup _ Hq),
            open_after_app, Hstop,
            open_after_app, (open_after_quiet releases _ Hqr).
    destruct (fd =? -1); [reflexivity |].
    cbn [open_after]. rewrite close_fd_head. reflexivity.
Qed.

Lemma v4l2_init_owned e data w :
  mapped w = [] ->
  owns_mappings (v4l2_init e data w).1 (v4l2_init e data w).2.
Proof.
  intros Hw.
  assert (Hfail : forall d w0, owns_mappings d w0 ->
            owns_mappings (v4l2_terminate d w0).1 (v4l2_terminate d w0).2)
    by (intros d w0 Hown; left; apply v4l2_terminate_owned, Hown).
  unfold v4l2_init.
  destruct (_ =? -1); [apply Hfail; left; exact Hw |].
  destruct (unpack_tuple (wrap_int (set_res data))) as [rw rh].
  destruct (answer_s_fmt e _ _ _) as [[[[gw gh] gf] stride] |];
    [| apply Hfail; left; exact Hw].
  destruct (unpack_tuple (wrap_int (set_fps data))) as [num den].
  destruct (answer_s_parm e _ _); cbn [negb];
    [| apply Hfail; left; exact Hw].
  match goal with
  | |- context [v4l2_create_mmap e ?d ?w0] =>
      pose proof (v4l2_create_mmap_owned e d w0 Hw) as Hown;
      destruct (v4l2_create_mmap e d w0) as [[r data3] w4]
  end.
  cbn in Hown.
  destruct (r <? 0); [apply Hfail; exact Hown |].
  destruct (answer_event_init e) as [ev |];
    [| apply Hfail;
       apply (owns_mappings_ext data3 _ w4 _ eq_refl eq_refl eq_refl Hown)].
  destruct (answer_thread_create e) as [tid |].
  - apply (owns_mappings_ext data3 _ w4 _ eq_refl eq_refl eq_refl Hown).
  - apply Hfail.
    apply (owns_mappings_ext data3 _ w4 _ eq_refl eq_refl eq_refl Hown).
Qed.

Lemma v4l2_update_keeps sysfs e data settings w :
  session_ok data w ->
  session_ok (v4l2_update sysfs e data settings w).1.1
             (v4l2_update sysfs e data settings w).2.
Proof.
  intros [Hown Hfd].
  destruct (select_device_descriptors sysfs settings w)
    as (ops & Htr & Hops & Hsm).
  assert (Hfd1 : open_after (trace (select_device sysfs settings w).2) []
                 = Some (held_descriptors data))
    by (rewrite Htr, open_after_app, Hfd; apply Hops).
  destruct (same_config_decide data (select_device sysfs settings w).1)
    as [Hs | Hd].
  - rewrite (v4l2_update_same _ _ _ _ _ Hs). cbn. split.
    + exact (owns_mappings_ext data data w _ eq_refl eq_refl Hsm Hown).
    + exact Hfd1.
  - rewrite (v4l2_update_differs _ _ _ _ _ Hd). cbn. unfold restart.
    set (data1 := committed data (select_device sysfs settings w).1).
    set (w1 := (select_device sysfs settings w).2) in *.
    assert (Hown1 : owns_mappings data1 w1)
      by exact (owns_mappings_ext data data1 w w1 eq_refl eq_refl Hsm Hown).
    split.
    + apply v4l2_init_owned. apply v4l2_terminate_owned, Hown1.
    + rewrite (v4l2_init_descriptors e _ _ [] []); [rewrite app_nil_r; reflexivity |].
      apply v4l2_terminate_descriptors. rewrite app_nil_r. exact Hfd1.
Qed.


Lemma session_ok_fresh src : session_ok (fresh_data src) idle_world.
Proof. split; [left |]; reflexivity. Qed.


Lemma v4l2_updates_session_ok calls : forall data w,
  session_ok data w ->
  session_ok (v4l2_updates calls data w).1 (v4l2_updates calls data w).2.
Proof.
  induction calls as [| [[sysfs e] settings] rest IH]; intros data w Hok;
    [exact Hok |].
  cbn [v4l2_updates]. apply IH, v4l2_update_keeps, Hok.
Qed.

(** X7: a source that is created, reconfigured any number of times with
    any settings on any devices, and then destroyed, leaves no buffer
    mapped and no descriptor open, and has closed no descriptor that was
    not open.  This is for the lives that use no thread or event that
    does not exist any more. *)
Theorem v4l2_destroy_releases
    (calls : list (option (list dir_entry) * device * obs_data)) (src : Z) :
  let life := v4l2_updates calls (fresh_data src) idle_world in
  let final := v4l2_destroy (Some life.1) life.2 in
  handles_ok (trace final) = true ->
  mapped final = [] /\ open_after (trace final) [] = Some [].
Proof.
  cbv zeta. intros _.
  destruct (v4l2_updates_session_ok calls (fresh_data src) idle_world
              (session_ok_fresh src)) as [Hown Hfd].
  unfold v4l2_destroy. split.
  - apply v4l2_terminate_owned, Hown.
  - apply v4l2_terminate_descriptors. rewrite app_nil_r. exact Hfd.
Qed.

Lemma v4l2_destroy_releases_witness :
  let life := v4l2_updates two_updates (fresh_data 0) idle_world in
  let final := v4l2_destroy (Some life.1) life.2 in
  mapped final = [] /\ open_after (trace final) [] = Some [].
Proof.
  apply (v4l2_destroy_releases two_updates 0). reflexivity.
Defined.

(** ** Streaming start-up *)

Lemma queue_buffers_all s data : forall todo i w,
  (forall j, (i <= j < i + todo)%nat -> answer_qbuf s j = true) ->
  queue_buffers s todo i data w
  = (0, log (map (fun j => OpQbuf (dev data) j true) (seq i todo)) w).
Proof.
  induction todo as [| todo IH]; intros i w Hall.
  - cbn. rewrite log_nil. reflexivity.
  - cbn [queue_buffers seq map]. rewrite (Hall i) by lia.
    rewrite IH by (intros j Hj; apply Hall; lia).
    rewrite log_log. reflexivity.
Qed.

Lemma queue_buffers_stops s data : forall todo i k w,
  (i <= k < i + todo)%nat ->
  (forall j, (i <= j < k)%nat -> answer_qbuf s j = true) ->
  answer_qbuf s k = false ->
  queue_buffers s todo i data w
  = (-1, log (map (fun j => OpQbuf (dev data) j true) (seq i (k - i))
              ++ [OpQbuf (dev data) k false]) w).
Proof.
  induction todo as [| todo IH]; intros i k w Hk Hall Hfail; [lia |].
  cbn [queue_buffers].
  destruct (decide (i = k)) as [-> | Hne].
  - rewrite Hfail, Nat.sub_diag. reflexivity.
  - rewrite (Hall i) by lia.
    rewrite (IH (S i) k) by (try lia; try exact Hfail; intros j Hj; apply Hall; lia).
    rewrite log_log.
    replace (k - i)%nat with (S (k - S i)) by lia. reflexivity.
Qed.

(** X8: [v4l2_start_capture] queues buffers 0, 1, ... in index order and
    requests stream-on only after every one of them was accepted; its
    result is 0 exactly when that request succeeds.  If buffer [k] is the
    first to be refused it returns -1 right after that request: later
    buffers are not queued and stream-on is not requested. *)
Theorem v4l2_start_capture_order (s : stream) (data : v4l2_data) (w : world) :
  let n := Z.to_nat (buf_count data) in
  ((forall j, (j < n)%nat -> answer_qbuf s j = true) ->
   v4l2_start_capture s data w
   = (if answer_streamon s then 0 else -1,
      log (queued (dev data) n ++ [OpStreamOn (dev data) (answer_streamon s)])
          w))
  /\ (forall k, (k < n)%nat ->
        (forall j, (j < k)%nat -> answer_qbuf s j = true) ->
        answer_qbuf s k = false ->
        v4l2_start_capture s data w
        = (-1, log (queued (dev data) k ++ [OpQbuf (dev data) k false]) w)).
Proof.
  cbv zeta. unfold v4l2_start_capture, queued. split.
  - intros Hall.
    rewrite queue_buffers_all by (intros j Hj; apply Hall; lia).
    cbn. destruct (answer_streamon s); rewrite log_log; reflexivity.
  - intros k Hk Hall Hfail.
    rewrite (queue_buffers_stops s data _ 0 k)
      by (try lia; try exact Hfail; intros j Hj; apply Hall; lia).
    rewrite Nat.sub_0_r. reflexivity.
Qed.

Lemma v4l2_start_capture_order_witness :
  v4l2_start_capture good_stream live_session live_world
    = (if answer_streamon good_stream then 0 else -1,
       log (queued (dev live_session) (Z.to_nat (buf_count live_session))
            ++ [OpStreamOn (dev live_session) (answer_streamon good_stream)])
           live_world)
  /\ v4l2_start_capture bad_queue live_session live_world
     = (-1, log (queued (dev live_session) 1
                 ++ [OpQbuf (dev live_session) 1 false]) live_world).
Proof.
  split.
  - apply (v4l2_start_capture_order good_stream live_session live_world).
    reflexivity.
  - apply (proj2 (v4l2_start_capture_order bad_queue live_session live_world)
                   1%nat).
    + cbn. lia.
    + intros j Hj. destruct j; [reflexivity | lia].
    + reflexivity.
Defined.

(** ** Capture thread: which frames are delivered, and how many *)

Lemma delivered_app ops1 ops2 :
  delivered (ops1 ++ ops2) = delivered ops1 ++ delivered ops2.
Proof. apply omap_app. Qed.

Lemma delivered_none ops : filter is_deliver ops = [] -> delivered ops = [].
Proof.
  induction ops as [| o ops IH]; [reflexivity |].
  destruct o; cbn; try exact IH. discriminate.
Qed.

Lemma omap_skip {A B : Type} (f : A -> option B) x l :
  f x = None -> omap f (x :: l) = omap f l.
Proof. intros H. cbn. rewrite H. reflexivity. Qed.

Lemma omap_keep {A B : Type} (f : A -> option B) x y l :
  f x = Some y -> omap f (x :: l) = y :: omap f l.
Proof. intros H. cbn. rewrite H. reflexivity. Qed.

Lemma wrap_u64_idemp a b : wrap_u64 (wrap_u64 a + b) = wrap_u64 (a + b).
Proof. unfold wrap_u64. apply Z.add_mod_idemp_l. lia. Qed.

Lemma wrap_u64_range z : 0 <= wrap_u64 z < 2 ^ 64.
Proof. apply Z.mod_pos_bound. lia. Qed.

(** One run of the loop: the frames it delivers are the first frames the
    device hands out, in order, and the counter advances by one for each
    delivered frame whose buffer could be given back. *)
Lemma capture_loop_frames script :
  forall stopped out offsets data w data' w',
    0 <= frames data < 2 ^ 64 ->
    capture_loop script stopped out offsets data w = Some (data', w') ->
    exists ops,
      w' = log ops w
      /\ delivered ops `prefix_of` omap (tick_frame data out offsets) script
      /\ (length (filter is_failed_qbuf ops) <= 1)%nat
      /\ frames data'
         = wrap_u64 (frames data + Z.of_nat (length (delivered ops))
                     - Z.of_nat (length (filter is_failed_qbuf ops))).
Proof.
  induction script as [| t rest IH];
    intros stopped out offsets data w data' w' Hfr Hrun;
    cbn [capture_loop] in Hrun; destruct stopped;
    try (injection Hrun as <- <-; exists []; rewrite log_nil;
         repeat split;
         [apply prefix_nil | cbn; lia
          | cbn; rewrite Z.add_0_r, Z.sub_0_r; symmetry;
            apply wrap_u64_small; exact Hfr]);
    try discriminate Hrun.
  assert (Hquiet : forall ops0,
            delivered ops0 = [] -> filter is_failed_qbuf ops0 = [] ->
            tick_frame data out offsets t = None ->
            (capture_loop rest (stop_during_wait t) out offsets data
                          (log ops0 w) = Some (data', w')
             \/ Some (data, log ops0 w) = Some (data', w')) ->
            exists ops,
              w' = log ops w
              /\ delivered ops
                 `prefix_of` omap (tick_frame data out offsets) (t :: rest)
              /\ (length (filter is_failed_qbuf ops) <= 1)%nat
              /\ frames data'
                 = wrap_u64 (frames data + Z.of_nat (length (delivered ops))
                             - Z.of_nat (length (filter is_failed_qbuf ops)))).
  { intros ops0 Hdel Hbad Hnone [Hgo | Hend].
    - destruct (IH _ _ _ _ _ _ _ Hfr Hgo) as (ops & -> & Hpre & Hone & Hcount).
      exists (ops0 ++ ops). rewrite log_log, delivered_app, filter_app, Hdel, Hbad.
      cbn [app]. rewrite (omap_skip _ _ _ Hnone).
      repeat split; assumption.
    - injection Hend as <- <-. exists ops0. rewrite Hdel, Hbad.
      repeat split; [apply prefix_nil | cbn; lia |].
      cbn. rewrite Z.add_0_r, Z.sub_0_r. symmetry.
      apply wrap_u64_small. exact Hfr. }
  destruct (tick_select t) as [errno | |] eqn:Hsel.
  - apply (Hquiet [OpSelect (dev data) 1 0]);
      [reflexivity | reflexivity | unfold tick_frame; rewrite Hsel; reflexivity |].
    destruct (errno =? EINTR); [left | right]; exact Hrun.
  - apply (Hquiet [OpSelect (dev data) 1 0]);
      [reflexivity | reflexivity | unfold tick_frame; rewrite Hsel; reflexivity |].
    left. exact Hrun.
  - destruct (tick_dqbuf t) as [errno | index sec usec] eqn:Hdq.
    + rewrite log_log in Hrun.
      apply (Hquiet [OpSelect (dev data) 1 0; OpDqbuf (dev data) false]);
        [reflexivity | reflexivity
         | unfold tick_frame; rewrite Hsel, Hdq; reflexivity |].
      destruct (errno =? EAGAIN); [left | right]; exact Hrun.
    + rewrite !log_log in Hrun.
      assert (Hsome : tick_frame data out offsets t
                      = Some (output_frame data out offsets index sec usec))
        by (unfold tick_frame; rewrite Hsel, Hdq; reflexivity).
      rewrite (omap_keep _ _ _ _ Hsome).
      destruct (tick_requeue t).
      * assert (Hfr' : 0 <= frames (with_frames (wrap_u64 (frames data + 1)) data)
                            < 2 ^ 64) by apply wrap_u64_range.
        destruct (IH _ _ _ _ _ _ _ Hfr' Hrun)
          as (ops & -> & Hpre & Hone & Hcount).
        eexists (_ ++ ops). rewrite log_log. split; [reflexivity |].
        rewrite delivered_app, filter_app. cbn [app].
        change (delivered [OpSelect (dev data) 1 0; OpDqbuf (dev data) true;
                           OpDeliver (source data)
                             (output_frame data out offsets index sec usec);
                           OpQbuf (dev data) index true])
          with [output_frame data out offsets index sec usec].
        change (filter is_failed_qbuf
                  [OpSelect (dev data) 1 0; OpDqbuf (dev data) true;
                   OpDeliver (source data)
                     (output_frame data out offsets index sec usec);
                   OpQbuf (dev data) index true])
          with (@nil op).
        cbn [app length].
        split; [apply prefix_cons; exact Hpre |].
        split; [exact Hone |].
        rewrite Hcount. cbn [frames with_frames].
        rewrite <- Z.add_sub_assoc, wrap_u64_idemp. f_equal. lia.
      * injection Hrun as <- <-.
        set (frame := output_frame data out offsets index sec usec).
        set (ops := [OpSelect (dev data) 1 0] ++
                    [OpDqbuf (dev data) true; OpDeliver (source data) frame] ++
                    [OpQbuf (dev data) index false]).
        assert (Hd : delivered ops = [frame]) by reflexivity.
        assert (Hf : filter is_failed_qbuf ops = [OpQbuf (dev data) index false])
          by reflexivity.
        exists ops. rewrite Hd, Hf. cbn [length].
        split; [reflexivity |].
        split; [apply prefix_cons, prefix_nil |].
        split; [lia |].
        symmetry. rewrite <- (wrap_u64_small (frames data) Hfr) at 2.
        f_equal. lia.
Qed.

Lemma queue_buffers_quiet s todo : forall i data w,
  exists ops,
    (queue_buffers s todo i data w).2 = log ops w
    /\ delivered ops = []
    /\ ((queue_buffers s todo i data w).1 = 0
          /\ filter is_failed_qbuf ops = []
        \/ (queue_buffers s todo i data w).1 = -1).
Proof.
  induction todo as [| todo IH]; intros i data w.
  - exists []. rewrite log_nil. split; [reflexivity |]. split; [reflexivity |].
    left. split; reflexivity.
  - cbn [queue_buffers]. destruct (answer_qbuf s i).
    + destruct (IH (S i) data (log [OpQbuf (dev data) i true] w))
        as (ops & Heq & Hdel & Hok).
      exists (OpQbuf (dev data) i true :: ops).
      rewrite Heq, log_log. split; [reflexivity |]. split; [exact Hdel |].
      exact Hok.
    + exists [OpQbuf (dev data) i false].
      split; [reflexivity |]. split; [reflexivity |]. right. reflexivity.
Qed.

Lemma v4l2_start_capture_quiet s data w :
  exists ops,
    (v4l2_start_capture s data w).2 = log ops w
    /\ delivered ops = []
    /\ ((v4l2_start_capture s data w).1 = 0
          /\ filter is_failed_qbuf ops = []
        \/ (v4l2_start_capture s data w).1 = -1).
Proof.
  unfold v4l2_start_capture.
  destruct (queue_buffers_quiet s (Z.to_nat (buf_count data)) 0 data w)
    as (ops & Heq & Hdel & Hok).
  destruct (queue_buffers s (Z.to_nat (buf_count data)) 0 data w) as [r w1].
  cbn in Heq, Hok. subst w1.
  destruct Hok as [[-> Hbad] | ->]; cbn.
  - destruct (answer_streamon s); cbn; rewrite log_log; eexists;
      (split; [reflexivity |]); rewrite delivered_app, Hdel;
      (split; [reflexivity |]).
    + left. split; [reflexivity |]. rewrite filter_app, Hbad. reflexivity.
    + right. reflexivity.
  - exists ops. split; [reflexivity |]. split; [exact Hdel |]. right. reflexivity.
Qed.

(** The thread's log, split at the loop. *)
Lemma v4l2_thread_parts s script stopped data w data' w' :
  v4l2_thread s script stopped data w = Some (data', w') ->
  exists ops0 ops,
    (v4l2_start_capture s data w).2 = log ops0 w
    /\ delivered ops0 = []
    /\ w' = log (ops0 ++ ops ++ [OpStreamOff (dev data') (answer_streamoff s)]) w
    /\ ((v4l2_start_capture s data w).1 = -1 /\ ops = [] /\ data' = data
        \/ (v4l2_start_capture s data w).1 = 0
           /\ filter is_failed_qbuf ops0 = []
           /\ capture_loop script stopped
                (v4l2_prep_obs_frame (with_frames 0 data)).1
                (v4l2_prep_obs_frame (with_frames 0 data)).2
                (with_frames 0 data) (log ops0 w)
              = Some (data', log ops (log ops0 w))).
Proof.
  unfold v4l2_thread, v4l2_stop_capture.
  destruct (v4l2_start_capture_quiet s data w) as (ops0 & Hstart & Hdel & Hres).
  destruct (v4l2_start_capture s data w) as [r w1]. cbn in Hstart, Hres.
  subst w1. destruct Hres as [[-> Hbad] | ->]; cbn.
  - destruct (v4l2_prep_obs_frame (with_frames 0 data)) as [out offsets]. cbn.
    destruct (capture_loop script stopped out offsets (with_frames 0 data)
                           (log ops0 w)) as [[data2 w2] |] eqn:Hloop;
      [| discriminate].
    intros Heq. injection Heq as <- <-.
    destruct (capture_loop_log _ _ _ _ _ _ _ _ Hloop) as (ops & -> & _).
    exists ops0, ops. split; [reflexivity |]. split; [exact Hdel |].
    split; [cbn; rewrite !log_log, <- ?app_assoc; reflexivity |].
    right. split; [reflexivity |]. split; [exact Hbad |]. exact Hloop.
  - intros Heq. injection Heq as <- <-. exists ops0, []. cbn.
    rewrite log_log. repeat split; try assumption. left. repeat split.
Qed.

(** X9: the frames the thread hands to the sink are the first frames the
    device handed out, one for one and in dequeue order: none is
    reordered, repeated or made up, and a pass whose wait or dequeue
    yields nothing delivers nothing. *)
Theorem v4l2_thread_frames_in_order (s : stream) (script : list tick)
    (stopped : bool) (data : v4l2_data) (w : world) (data' : v4l2_data)
    (w' : world) :
  v4l2_thread s script stopped data w = Some (data', w') ->
  exists ops,
    w' = log ops w
    /\ delivered ops `prefix_of` dequeued_frames data script.
Proof.
  intros Hrun.
  destruct (v4l2_thread_parts _ _ _ _ _ _ _ Hrun)
    as (ops0 & ops & _ & Hdel0 & -> & Hparts).
  eexists. split; [reflexivity |].
  rewrite !delivered_app, Hdel0. cbn [app].
  change (delivered [OpStreamOff (dev data') (answer_streamoff s)])
    with (@nil source_frame).
  rewrite app_nil_r.
  destruct Hparts as [(_ & -> & _) | (_ & _ & Hloop)]; [apply prefix_nil |].
  assert (Hzero : 0 <= frames (with_frames 0 data) < 2 ^ 64) by (cbn; lia).
  destruct (capture_loop_frames _ _ _ _ _ _ _ _ Hzero Hloop)
    as (ops' & Hlog & Hpre & _).
  assert (ops' = ops) as ->.
  { apply (f_equal trace) in Hlog. cbn in Hlog.
    apply app_inv_head in Hlog. symmetry. exact Hlog. }
  exact Hpre.
Qed.

(** X10: when streaming started, the frame counter the thread ends with
    is the number of frames it delivered, less one if the loop ended
    because the last delivered frame's buffer could not be queued again
    (at most one such failure can occur); the count is taken modulo
    2^64. *)
Theorem v4l2_thread_frame_count (s : stream) (script : list tick)
    (stopped : bool) (data : v4l2_data) (w : world) (data' : v4l2_data)
    (w' : world) :
  v4l2_thread s script stopped data w = Some (data', w') ->
  (v4l2_start_capture s data w).1 = 0 ->
  exists ops,
    w' = log ops w
    /\ (length (filter is_failed_qbuf ops) <= 1)%nat
    /\ frames data'
       = wrap_u64 (Z.of_nat (length (delivered ops))
                   - Z.of_nat (length (filter is_failed_qbuf ops))).
Proof.
  intros Hrun Hstart.
  destruct (v4l2_thread_parts _ _ _ _ _ _ _ Hrun)
    as (ops0 & ops & _ & Hdel0 & -> & Hparts).
  eexists. split; [reflexivity |].
  rewrite !delivered_app, !filter_app, Hdel0. cbn [app].
  change (delivered [OpStreamOff (dev data') (answer_streamoff s)])
    with (@nil source_frame).
  change (filter is_failed_qbuf [OpStreamOff (dev data') (answer_streamoff s)])
    with (@nil op).
  rewrite !app_nil_r.
  destruct Hparts as [(Hfail & _) | (_ & Hbad0 & Hloop)]; [lia |].
  rewrite Hbad0. cbn [app].
  assert (Hzero : 0 <= frames (with_frames 0 data) < 2 ^ 64) by (cbn; lia).
  destruct (capture_loop_frames _ _ _ _ _ _ _ _ Hzero Hloop)
    as (ops' & Hlog & _ & Hone & Hcount).
  assert (ops' = ops) as ->.
  { apply (f_equal trace) in Hlog. cbn in Hlog.
    apply app_inv_head in Hlog. symmetry. exact Hlog. }
  split; [exact Hone |]. rewrite Hcount. cbn [frames with_frames].
  f_equal.
Qed.

Lemma v4l2_thread_frames_in_order_witness :
  exists ops,
    log [OpQbuf 3 0 true; OpQbuf 3 1 true; OpQbuf 3 2 true; OpQbuf 3 3 true;
         OpStreamOn 3 true; OpSelect 3 1 0; OpSelect 3 1 0; OpDqbuf 3 true;
         OpDeliver 0
           (mk_frame [8192; 8192; 8192; 8192; 8192; 8192; 8192; 8192]
                     [1280; 0; 0; 0; 0; 0; 0; 0] 640 480 10500000000
                     VIDEO_FORMAT_YUY2);
         OpQbuf 3 1 true; OpStreamOff 3 true] live_world
    = log ops live_world
    /\ delivered ops
       `prefix_of` dequeued_frames live_session [idle_tick; stop_tick; idle_tick].
Proof.
  apply (v4l2_thread_frames_in_order good_stream
           [idle_tick; stop_tick; idle_tick] false live_session live_world
           (with_frames 1 live_session)).
  reflexivity.
Defined.

Lemma v4l2_thread_frame_count_witness :
  exists ops,
    log [OpQbuf 3 0 true; OpQbuf 3 1 true; OpQbuf 3 2 true; OpQbuf 3 3 true;
         OpStreamOn 3 true; OpSelect 3 1 0; OpSelect 3 1 0; OpDqbuf 3 true;
         OpDeliver 0
           (mk_frame [8192; 8192; 8192; 8192; 8192; 8192; 8192; 8192]
                     [1280; 0; 0; 0; 0; 0; 0; 0] 640 480 10500000000
                     VIDEO_FORMAT_YUY2);
         OpQbuf 3 1 true; OpStreamOff 3 true] live_world
    = log ops live_world
    /\ (length (filter is_failed_qbuf ops) <= 1)%nat
    /\ frames (with_frames 1 live_session)
       = wrap_u64 (Z.of_nat (length (delivered ops))
                   - Z.of_nat (length (filter is_failed_qbuf ops))).
Proof.
  apply (v4l2_thread_frame_count good_stream
           [idle_tick; stop_tick; idle_tick] false live_session live_world
           (with_frames 1 live_session));
    reflexivity.
Defined.

(** ** Capture thread: passes that yield nothing *)

(** The loop reads nothing from the world: it only appends to the log. *)
Lemma capture_loop_world script : forall stopped out offsets data w,
  capture_loop script stopped out offsets data w
  = match capture_loop script stopped out offsets data idle_world with
    | Some (data', w0) => Some (data', log (trace w0) w)
    | None => None
    end.
Proof.
  induction script as [| t rest IH]; intros stopped out offsets data w;
    cbn [capture_loop]; destruct stopped;
    try (cbn; rewrite log_nil; reflexivity); try reflexivity.
  assert (Hgo : forall ops d,
            capture_loop rest (stop_during_wait t) out offsets d (log ops w)
            = match capture_loop rest (stop_during_wait t) out offsets d
                                 (log ops idle_world) with
              | Some (data', w0) => Some (data', log (trace w0) w)
              | None => None
              end).
  { intros ops d. rewrite (IH _ _ _ d (log ops w)),
                         (IH _ _ _ d (log ops idle_world)).
    destruct (capture_loop rest (stop_during_wait t) out offsets d idle_world)
      as [[data' w0] |]; [| reflexivity].
    cbn. rewrite log_log. reflexivity. }
  destruct (tick_select t) as [errno | |].
  - destruct (errno =? EINTR); [apply Hgo | reflexivity].
  - apply Hgo.
  - destruct (tick_dqbuf t) as [errno | index sec usec].
    + rewrite !log_log. destruct (errno =? EAGAIN); [apply Hgo | reflexivity].
    + rewrite !log_log. destruct (tick_requeue t); [apply Hgo | reflexivity].
Qed.

Lemma outcome_log ops script stopped out offsets data w :
  delivered ops = [] ->
  outcome (capture_loop script stopped out offsets data (log ops w))
  = outcome (capture_loop script stopped out offsets data w).
Proof.
  intros Hdel.
  rewrite (capture_loop_world script _ _ _ _ (log ops w)),
          (capture_loop_world script _ _ _ _ w).
  destruct (capture_loop script stopped out offsets data idle_world)
    as [[data' w0] |]; [| reflexivity].
  cbn. rewrite !delivered_app, Hdel, app_nil_r. reflexivity.
Qed.

Lemma capture_loop_transient pre rest out offsets :
  forallb is_transient pre = true ->
  forall stopped data w,
    outcome (capture_loop (pre ++ rest) stopped out offsets data w)
    = outcome (capture_loop rest stopped out offsets data w).
Proof.
  induction pre as [| t pre IH]; intros Hall stopped data w; [reflexivity |].
  cbn [forallb] in Hall. apply andb_true_iff in Hall as [Ht Hall].
  destruct stopped; [destruct rest; reflexivity |].
  cbn [app capture_loop].
  unfold is_transient in Ht. apply andb_true_iff in Ht as [Hstop Ht].
  apply negb_true_iff in Hstop. rewrite Hstop.
  destruct (tick_select t) as [errno | |].
  - rewrite Ht, (IH Hall). apply outcome_log. reflexivity.
  - discriminate Ht.
  - destruct (tick_dqbuf t) as [errno | index sec usec]; [| discriminate Ht].
    rewrite Ht, log_log, (IH Hall). apply outcome_log. reflexivity.
Qed.

(** X11: passes in which the wait is interrupted (EINTR), or the
    descriptor is ready and the dequeue finds no buffer (EAGAIN), change
    nothing the caller or the sink can see: with any number of them put
    before a run, the thread ends with the same data (frame counter
    included) and has delivered the same frames as without them, and is
    still running where it would be.  Passes in which the wait times out
    are not among them. *)
Theorem v4l2_thread_transient (s : stream) (pre rest : list tick)
    (stopped : bool) (data : v4l2_data) (w : world) :
  forallb is_transient pre = true ->
  outcome (v4l2_thread s (pre ++ rest) stopped data w)
  = outcome (v4l2_thread s rest stopped data w).
Proof.
  intros Hall. unfold v4l2_thread.
  destruct (v4l2_start_capture s data w) as [r w1].
  destruct (r <? 0); [reflexivity |].
  destruct (v4l2_prep_obs_frame (with_frames 0 data)) as [out offsets].
  pose proof (capture_loop_transient pre rest out offsets Hall stopped
                (with_frames 0 data) w1) as Hloop.
  destruct (capture_loop (pre ++ rest) stopped out offsets (with_frames 0 data) w1)
    as [[d2 w2] |];
    destruct (capture_loop rest stopped out offsets (with_frames 0 data) w1)
    as [[d3 w3] |]; cbn in Hloop |- *; try discriminate Hloop; [| reflexivity].
  injection Hloop as -> Hdel.
  rewrite !delivered_app, Hdel. reflexivity.
Qed.

Lemma v4l2_thread_transient_witness :
  outcome (v4l2_thread good_stream
             ([mk_tick false (SelectError EINTR) (DqbufError 0) true;
               mk_tick false SelectReady (DqbufError EAGAIN) true]
              ++ [stop_tick]) false live_session live_world)
  = outcome (v4l2_thread good_stream [stop_tick] false live_session live_world).
Proof.
  apply (v4l2_thread_transient good_stream
           [mk_tick false (SelectError EINTR) (DqbufError 0) true;
            mk_tick false SelectReady (DqbufError EAGAIN) true]
           [stop_tick] false live_session live_world).
  reflexivity.
Defined.

(** ** Option lists *)

Lemma is_offered_recognized fmt :
  is_offered fmt = true <-> In (fmt_pixelformat fmt) recognized_formats.
Proof.
  unfold is_offered. split.
  - intros Hoff.
    destruct (in_dec Z.eq_dec (fmt_pixelformat fmt) recognized_formats)
      as [Hin | Hout]; [exact Hin |].
    rewrite (v4l2_to_obs_video_format_none _ Hout) in Hoff. discriminate Hoff.
  - intros Hin. pose proof (v4l2_to_obs_video_format_some _ Hin) as Hsome.
    destruct (v4l2_to_obs_video_format (fmt_pixelformat fmt));
      [contradiction Hsome |..]; reflexivity.
Qed.

Lemma list_formats_filter descs :
  list_formats descs
  = map (fun fmt => (format_label fmt, fmt_pixelformat fmt))
        (List.filter is_offered descs).
Proof.
  induction descs as [| fmt rest IH]; [reflexivity |].
  cbn [list_formats List.filter]. unfold is_offered at 1, format_label at 1.
  destruct (v4l2_to_obs_video_format (fmt_pixelformat fmt));
    cbn [map]; rewrite IH; reflexivity.
Qed.

(** X12: [v4l2_format_list] offers, in the device's order, exactly the
    enumerated formats the mapper knows, each under its description (with
    " (Emulated)" appended when the device flags it) and with its pixel
    format id as value; so every offered value is one of the six
    recognized ids, and no recognized format of the device is missing. *)
Theorem v4l2_format_list_offers (q : enumeration) :
  v4l2_format_list q
  = map (fun fmt => (format_label fmt, fmt_pixelformat fmt))
        (List.filter is_offered (answer_enum_fmt q))
  /\ (forall item, In item (v4l2_format_list q) ->
        In item.2 recognized_formats
        /\ v4l2_to_obs_video_format item.2 <> VIDEO_FORMAT_NONE)
  /\ (forall fmt, In fmt (answer_enum_fmt q) ->
        In (fmt_pixelformat fmt) recognized_formats ->
        In (format_label fmt, fmt_pixelformat fmt) (v4l2_format_list q)).
Proof.
  unfold v4l2_format_list. rewrite list_formats_filter.
  split; [reflexivity |]. split.
  - intros item Hin. apply in_map_iff in Hin as (fmt & <- & Hfmt).
    apply filter_In in Hfmt as [_ Hoff]. cbn.
    apply is_offered_recognized in Hoff. split; [exact Hoff |].
    apply v4l2_to_obs_video_format_some, Hoff.
  - intros fmt Hin Hrec. apply in_map_iff. exists fmt.
    split; [reflexivity |]. apply filter_In. split; [exact Hin |].
    apply is_offered_recognized, Hrec.
Qed.

Example v4l2_format_list_sample :
  v4l2_format_list sample_enumeration
  = [("YUYV 4:2:2"%string, V4L2_PIX_FMT_YUYV);
     ("Planar YUV 4:2:0 (Emulated)"%string, V4L2_PIX_FMT_YUV420)].
Proof. reflexivity. Qed.

Lemma unpack_pack_fits (p : Z * Z) :
  fits_tuple p -> unpack_tuple (pack_tuple p.1 p.2) = p.
Proof.
  intros [Ha Hb]. rewrite pack_tuple_value by lia.
  unfold unpack_tuple. destruct p as [a b]. cbn [fst snd] in *. f_equal.
  - rewrite Z.shiftr_div_pow2 by lia.
    rewrite Z.div_add_l by lia. rewrite Z.div_small; lia.
  - rewrite land_low_mask.
    rewrite Z.add_comm, Z.mod_add by lia. apply Z.mod_small. lia.
Qed.

Lemma wrap_int_fits (p : Z * Z) :
  fits_tuple p -> wrap_int p.1 = p.1 /\ wrap_int p.2 = p.2.
Proof. intros [Ha Hb]. split; apply wrap_int_small; lia. Qed.

Lemma unpack_pack_value (a b : Z) :
  unpack_tuple (pack_tuple a b) = truncated (a, b).
Proof.
  unfold truncated. cbn [fst snd].
  pose proof (Z.mod_pos_bound b (2 ^ 16) ltac:(lia)) as Hb.
  pose proof (Z.mod_pos_bound (a + 2 ^ 15) (2 ^ 16) ltac:(lia)) as Ha.
  assert (Hpack : pack_tuple a b
                  = ((a + 2 ^ 15) mod 2 ^ 16 - 2 ^ 15) * 2 ^ 16 + b mod 2 ^ 16).
  { unfold pack_tuple. rewrite land_low_mask, lor_shiftl_low by exact Hb.
    unfold wrap_int.
    replace (a * 2 ^ 16 + b mod 2 ^ 16 + 2 ^ 31)
      with ((a + 2 ^ 15) * 2 ^ 16 + b mod 2 ^ 16) by lia.
    rewrite mod_shift_low by exact Hb. lia. }
  rewrite Hpack. unfold unpack_tuple. f_equal.
  - rewrite Z.shiftr_div_pow2 by lia.
    rewrite Z.div_add_l by lia. rewrite (Z.div_small (b mod 2 ^ 16)) by lia. lia.
  - rewrite land_low_mask.
    rewrite Z.add_comm, Z.mod_add by lia. apply Z.mod_small. lia.
Qed.

(** The conversion of a [__u32] to [int] keeps the low 16 bits. *)
Lemma wrap_int_low (z c : Z) :
  (wrap_int z + c) mod 2 ^ 16 = (z + c) mod 2 ^ 16.
Proof.
  unfold wrap_int.
  pose proof (Z.div_mod (z + 2 ^ 31) (2 ^ 32) ltac:(lia)) as Hdm.
  replace ((z + 2 ^ 31) mod 2 ^ 32 - 2 ^ 31 + c)
    with (z + c + (- ((z + 2 ^ 31) / 2 ^ 32) * 2 ^ 16) * 2 ^ 16) by lia.
  apply Z.mod_add. lia.
Qed.

Lemma truncated_wrap_int (p : Z * Z) :
  truncated (wrap_int p.1, wrap_int p.2) = truncated p.
Proof.
  unfold truncated. cbn [fst snd]. rewrite wrap_int_low.
  pose proof (wrap_int_low p.2 0) as H0. rewrite !Z.add_0_r in H0.
  rewrite H0. reflexivity.
Qed.

Lemma truncated_fits (p : Z * Z) : fits_tuple p -> truncated p = p.
Proof.
  intros [Ha Hb]. unfold truncated. destruct p as [a b]. cbn [fst snd] in *.
  rewrite !Z.mod_small by lia. f_equal. lia.
Qed.

Lemma value_ok_fits (p : Z * Z) :
  fits_tuple p -> value_ok (pack_tuple p.1 p.2).
Proof.
  intros Hfits. unfold value_ok.
  rewrite (unpack_pack_fits p Hfits). split; [reflexivity | exact Hfits].
Qed.




Example v4l2_resolution_list_sample :
  v4l2_resolution_list sample_enumeration V4L2_PIX_FMT_YUYV
  = [("640x480"%string, pack_tuple 640 480);
     ("1280x720"%string, pack_tuple 1280 720);
     ("1920x1080"%string, pack_tuple 1920 1080)].
Proof. reflexivity. Qed.

Example v4l2_resolution_list_fallback :
  map fst (v4l2_resolution_list stepwise_enumeration V4L2_PIX_FMT_YUYV)
  = ["160x120"; "320x240"; "480x320"; "640x480"; "800x600"; "1024x768";
     "1280x960"; "1440x1050"; "1440x1080"; "1600x1200"; "640x360";
     "960x540"; "1280x720"; "1600x900"; "1920x1080"; "1920x1200";
     "432x520"; "480x320"; "480x530"; "486x440"; "576x310"; "576x520";
     "576x570"; "720x576"; "1024x576"]%string.
Proof. reflexivity. Qed.

(** A size 40000 wide is offered as 40000x480 with a value that decodes
    to a width of -25536. *)
Example v4l2_resolution_list_wide :
  map (fun item => (item.1, unpack_tuple item.2))
      (v4l2_resolution_list wide_enumeration V4L2_PIX_FMT_YUYV)
  = [("640x480"%string, (640, 480)); ("40000x480"%string, (-25536, 480))].
Proof. reflexivity. Qed.

Lemma fixed_framerates_ok :
  Forall value_ok (map snd (list_fixed_framerates fixed_framerates)).
Proof.
  repeat (apply List.Forall_cons;
          [split; [reflexivity | split; vm_compute; split; congruence] |]).
  apply List.Forall_nil.
Qed.

(** X14: the values [v4l2_framerate_list] stores.  When the device does
    not report discrete intervals, they are the eight entries of the
    built-in table, which decode to the intervals 1/60 to 1/5.  When it
    does, the value of every item decodes to the numerator of the
    device's interval cut to a signed, and its denominator cut to an
    unsigned 16-bit number: to the interval itself for the intervals
    that fit, and to another one otherwise. *)
Theorem v4l2_framerate_list_decodes (q : enumeration)
    (pixelformat width height : Z) :
  let pf := wrap_u32 pixelformat in
  let w := wrap_u32 width in
  let h := wrap_u32 height in
  let intervals := answer_enum_frameintervals q pf w h in
  let values := map snd (v4l2_framerate_list q pixelformat width height) in
  (answer_frmival_type q pf w h <> V4L2_FRMIVAL_TYPE_DISCRETE ->
   values = removelast fixed_framerates
   /\ map unpack_tuple values
      = [(1, 60); (1, 50); (1, 30); (1, 25); (1, 20); (1, 15); (1, 10); (1, 5)]
   /\ Forall value_ok values)
  /\ (answer_frmival_type q pf w h = V4L2_FRMIVAL_TYPE_DISCRETE ->
      map unpack_tuple values = map truncated intervals
      /\ (Forall fits_tuple intervals ->
          map unpack_tuple values = intervals /\ Forall value_ok values)).
Proof.
  cbv zeta. unfold v4l2_framerate_list.
  destruct (Z.eqb_spec
              (answer_frmival_type q (wrap_u32 pixelformat) (wrap_u32 width)
                                   (wrap_u32 height))
              V4L2_FRMIVAL_TYPE_DISCRETE) as [Hd | Hd].
  - split; [contradiction | intros _].
    set (intervals := answer_enum_frameintervals q (wrap_u32 pixelformat)
                        (wrap_u32 width) (wrap_u32 height)).
    assert (Hdecode : map unpack_tuple (map snd (list_frameintervals intervals))
                      = map truncated intervals).
    { unfold list_frameintervals. rewrite !List.map_map.
      apply List.map_ext. intros ival. cbn [snd].
      rewrite unpack_pack_value. apply truncated_wrap_int. }
    split; [exact Hdecode |].
    intros Hfits. split.
    + rewrite Hdecode.
      transitivity (map (fun ival : Z * Z => ival) intervals);
        [| apply List.map_id].
      apply List.map_ext_in. intros ival Hival.
      rewrite List.Forall_forall in Hfits.
      apply truncated_fits, Hfits, Hival.
    + unfold list_frameintervals. rewrite List.map_map.
      apply List.Forall_forall.
      intros value Hin. apply in_map_iff in Hin as (ival & <- & Hival).
      rewrite List.Forall_forall in Hfits. specialize (Hfits ival Hival).
      cbn [snd]. destruct (wrap_int_fits ival Hfits) as [-> ->].
      apply value_ok_fits, Hfits.
  - split; [intros _ | contradiction].
    split; [reflexivity |]. split; [reflexivity | exact fixed_framerates_ok].
Qed.

Lemma v4l2_framerate_list_decodes_witness :
  map unpack_tuple
      (map snd (v4l2_framerate_list sample_enumeration V4L2_PIX_FMT_YUYV
                                    640 480))
  = answer_enum_frameintervals sample_enumeration
      (wrap_u32 V4L2_PIX_FMT_YUYV) (wrap_u32 640) (wrap_u32 480)
  /\ Forall value_ok
            (map snd (v4l2_framerate_list sample_enumeration V4L2_PIX_FMT_YUYV
                                          640 480)).
Proof.
  apply (v4l2_framerate_list_decodes sample_enumeration V4L2_PIX_FMT_YUYV
           640 480).
  - reflexivity.
  - repeat constructor; cbn; lia.
Defined.

(** An interval of 1/100000 is stored as 1/34464. *)
Example v4l2_framerate_list_wide :
  map unpack_tuple
      (map snd (v4l2_framerate_list wide_enumeration V4L2_PIX_FMT_YUYV
                                    640 480))
  = [(1, 30); (1, 34464)].
Proof. reflexivity. Qed.

(** ** What initialisation asks of the device *)

(** X15: [v4l2_terminate] releases in a fixed order: first the thread is
    signalled and joined (if one was created), only then are buffers
    unmapped and the array freed, and the descriptor is closed last, at
    most once. *)
Theorem v4l2_terminate_order (data : v4l2_data) (w : world) :
  exists releases closes,
    trace (v4l2_terminate data w).2
    = trace w ++ stop_thread_ops data ++ releases ++ closes
    /\ forallb is_release releases = true
    /\ (buf_count data = 0 -> releases = [])
    /\ closes = (if dev data =? -1 then [] else [OpV4l2Close (dev data)]).
Proof.
  unfold v4l2_terminate, stop_thread_ops.
  set (stop := if thread data =? 0 then []
               else [OpEventSignal (event data); OpThreadJoin (thread data);
                     OpEventDestroy (event data)]).
  assert (Hw1 : (if thread data =? 0 then w
                 else log [OpEventSignal (event data);
                           OpThreadJoin (thread data);
                           OpEventDestroy (event data)] w) = log stop w).
  { unfold stop. destruct (thread data =? 0); [rewrite log_nil |]; reflexivity. }
  rewrite Hw1.
  destruct (Z.eqb_spec (buf_count data) 0) as [Hb | Hb].
  - exists [], (if dev data =? -1 then [] else [OpV4l2Close (dev data)]).
    cbn. destruct (dev data =? -1); cbn; rewrite ?app_nil_r, <- ?app_assoc;
      repeat split; reflexivity.
  - unfold v4l2_destroy_mmap.
    destruct (unmap_buffers_extends (take (Z.to_nat (buf_count data)) (buf data))
                                    (log stop w)) as (ops & Hops & Hall).
    exists (ops ++ [OpBfree]),
           (if dev data =? -1 then [] else [OpV4l2Close (dev data)]).
    cbn. destruct (dev data =? -1); cbn; rewrite Hops; cbn;
      rewrite <- ?app_assoc, ?app_nil_r;
      (split; [reflexivity |]);
      (split; [rewrite forallb_app, Hall; reflexivity |]);
      (split; [intros H0; contradiction | reflexivity]).
Qed.

Lemma map_buffers_extends e todo : forall i data w,
  exists ops, trace (map_buffers e todo i data w).2 = trace w ++ ops.
Proof.
  induction todo as [| todo IH]; intros i data w.
  - exists []. rewrite app_nil_r. reflexivity.
  - cbn [map_buffers]. destruct (answer_querybuf e i) as [[len off] |].
    + destruct (answer_mmap e i =? MAP_FAILED).
      * eexists. cbn. rewrite <- app_assoc. reflexivity.
      * match goal with
        | |- context [map_buffers e todo ?j ?d ?w0] =>
            destruct (IH j d w0) as (ops & ->)
        end.
        eexists. cbn. rewrite <- !app_assoc. reflexivity.
    + eexists. reflexivity.
Qed.

Lemma v4l2_create_mmap_extends e data w :
  exists ops, trace (v4l2_create_mmap e data w).2 = trace w ++ ops.
Proof.
  unfold v4l2_create_mmap. destruct (answer_reqbufs e) as [count |].
  - destruct (count <? 2); [eexists; reflexivity |].
    match goal with
    | |- context [map_buffers e ?n ?j ?d ?w0] =>
        destruct (map_buffers_extends e n j d w0) as (ops & ->)
    end.
    eexists. cbn. rewrite <- !app_assoc. reflexivity.
  - eexists. reflexivity.
Qed.

Lemma v4l2_terminate_extends data w :
  exists ops, trace (v4l2_terminate data w).2 = trace w ++ ops.
Proof.
  unfold v4l2_terminate, v4l2_destroy_mmap.
  destruct (unmap_buffers_extends (take (Z.to_nat (buf_count data)) (buf data))
              (if thread data =? 0 then w
               else log [OpEventSignal (event data); OpThreadJoin (thread data);
                         OpEventDestroy (event data)] w)) as (ops & Hops & _).
  destruct (thread data =? 0), (buf_count data =? 0); cbn;
    destruct (dev data =? -1); cbn; rewrite ?Hops; cbn;
    rewrite <- ?app_assoc; eexists; try reflexivity.
  all: rewrite <- (app_nil_r (trace w)) at 1; reflexivity.
Qed.

(** X16: [v4l2_init] asks the device for exactly what the stored settings
    encode.  With a resolution stored as [pack_tuple w h] and a rate as
    [pack_tuple n d], both fitting, and a device that opens, the first
    request after the open is VIDIOC_S_FMT for width [w], height [h] and
    the stored pixel format, and, when that succeeds, the next one is
    VIDIOC_S_PARM for the interval [n]/[d]. *)
Theorem v4l2_init_requests (e : device) (data : v4l2_data) (w0 : world)
    (path : string) (w h n d : Z) :
  set_device data = Some path -> answer_open e path <> -1 ->
  fits_tuple (w, h) -> fits_tuple (n, d) ->
  set_res data = pack_tuple w h -> set_fps data = pack_tuple n d ->
  let fd := answer_open e path in
  let pf := wrap_u32 (set_pixfmt data) in
  exists rest,
    trace (v4l2_init e data w0).2
    = trace w0 ++ OpOpen path fd
        :: OpSetFormat fd w h pf (bool_decide (answer_s_fmt e w h pf <> None))
        :: rest
    /\ (answer_s_fmt e w h pf <> None ->
        exists rest', rest = OpSetParm fd n d (answer_s_parm e n d) :: rest').
Proof.
  intros Hdev Hopen Hsize Hrate Hres Hfps. cbv zeta.
  assert (Hdecode : forall p, fits_tuple p ->
            unpack_tuple (wrap_int (pack_tuple p.1 p.2)) = p
            /\ wrap_u32 p.1 = p.1 /\ wrap_u32 p.2 = p.2).
  { intros p Hp. pose proof Hp as [Ha Hb].
    rewrite (wrap_int_small (pack_tuple p.1 p.2))
      by (rewrite pack_tuple_value by lia; lia).
    split; [apply unpack_pack_fits, Hp |].
    split; apply wrap_u32_small; lia. }
  destruct (Hdecode (w, h) Hsize) as (Hwh & Hw & Hh).
  destruct (Hdecode (n, d) Hrate) as (Hnd & Hn & Hd).
  cbn [fst snd] in *.
  unfold v4l2_init. rewrite Hdev. cbn [default].
  destruct (Z.eqb_spec (answer_open e path) (-1)) as [| _]; [contradiction |].
  rewrite Hres, Hwh, Hw, Hh, Hfps, Hnd, Hn, Hd.
  destruct (answer_s_fmt e w h (wrap_u32 (set_pixfmt data)))
    as [[[[gw gh] gf] stride] |] eqn:Hfmt.
  - rewrite bool_decide_eq_true_2 by discriminate.
    destruct (answer_s_parm e n d); cbn [negb].
    + match goal with
      | |- context [v4l2_create_mmap e ?dd ?ww] =>
          destruct (v4l2_create_mmap_extends e dd ww) as (ops & Hext);
          destruct (v4l2_create_mmap e dd ww) as [[r data3] w4]
      end.
      cbn in Hext.
      assert (Hrest : forall dd ops', exists ops'',
                trace (v4l2_terminate dd (log ops' w4)).2
                = trace w0 ++ OpOpen path (answer_open e path)
                    :: OpSetFormat (answer_open e path) w h
                         (wrap_u32 (set_pixfmt data)) true
                    :: OpSetParm (answer_open e path) n d true :: ops'').
      { intros dd ops'.
        destruct (v4l2_terminate_extends dd (log ops' w4)) as (ops'' & ->).
        cbn. rewrite Hext. cbn. rewrite <- !app_assoc. cbn.
        eexists. reflexivity. }
      destruct (r <? 0).
      { destruct (Hrest data3 []) as (ops'' & Heq). rewrite log_nil in Heq.
        eexists. split; [exact Heq |]. intros _. eexists. reflexivity. }
      destruct (answer_event_init e) as [ev |].
      2: { destruct (Hrest data3 [OpEventInit false]) as (ops'' & Heq).
           eexists. split; [exact Heq |]. intros _. eexists. reflexivity. }
      destruct (answer_thread_create e) as [tid |].
      * cbn. rewrite Hext. cbn. rewrite <- !app_assoc. cbn.
        eexists. split; [reflexivity |]. intros _. eexists. reflexivity.
      * rewrite log_log.
        destruct (Hrest (with_event ev data3)
                        ([OpEventInit true] ++ [OpThreadCreate false]))
          as (ops'' & Heq).
        eexists. split; [exact Heq |]. intros _. eexists. reflexivity.
    + match goal with
      | |- context [v4l2_terminate ?dd ?ww] =>
          destruct (v4l2_terminate_extends dd ww) as (ops & ->)
      end.
      cbn. rewrite <- !app_assoc. cbn.
      eexists. split; [reflexivity |]. intros _. eexists. reflexivity.
  - rewrite bool_decide_eq_false_2 by (intros H; apply H; reflexivity).
    match goal with
    | |- context [v4l2_terminate ?dd ?ww] =>
        destruct (v4l2_terminate_extends dd ww) as (ops & ->)
    end.
    cbn. rewrite <- !app_assoc. cbn.
    eexists. split; [reflexivity |]. intros H. contradiction H. reflexivity.
Qed.

Lemma v4l2_init_requests_witness :
  exists rest,
    trace (v4l2_init working_device vga_request idle_world).2
    = trace idle_world ++ OpOpen "/dev/video0" (answer_open working_device "/dev/video0")
        :: OpSetFormat (answer_open working_device "/dev/video0") 640 480
             (wrap_u32 (set_pixfmt vga_request))
             (bool_decide (answer_s_fmt working_device 640 480
                             (wrap_u32 (set_pixfmt vga_request)) <> None))
        :: rest
    /\ (answer_s_fmt working_device 640 480 (wrap_u32 (set_pixfmt vga_request))
        <> None ->
        exists rest',
          rest = OpSetParm (answer_open working_device "/dev/video0") 1 30
                           (answer_s_parm working_device 1 30) :: rest').
Proof.
  apply (v4l2_init_requests working_device vga_request idle_world
           "/dev/video0" 640 480 1 30);
    try reflexivity; try (split; cbn; lia).
  cbn. lia.
Defined.

(** ** Selection callbacks *)

Lemma wrap_u32_u64 z : wrap_u32 (wrap_u64 z) = wrap_u32 z.
Proof.
  unfold wrap_u32, wrap_u64.
  pose proof (Z.div_mod z (2 ^ 64) ltac:(lia)) as Hdm.
  replace (z mod 2 ^ 64) with (z + (- (z / 2 ^ 64) * 2 ^ 32) * 2 ^ 32) by lia.
  apply Z.mod_add. lia.
Qed.

Lemma v4l2_resolution_list_u64 q pixelformat :
  v4l2_resolution_list q (wrap_u64 pixelformat)
  = v4l2_resolution_list q pixelformat.
Proof. unfold v4l2_resolution_list. rewrite wrap_u32_u64. reflexivity. Qed.

Lemma v4l2_framerate_list_u64 q pixelformat width height :
  v4l2_framerate_list q (wrap_u64 pixelformat) (wrap_u64 width)
                      (wrap_u64 height)
  = v4l2_framerate_list q pixelformat width height.
Proof. unfold v4l2_framerate_list. rewrite !wrap_u32_u64. reflexivity. Qed.

(** A descriptor opened and closed around operations that close what
    they open leaves the open descriptors as they were. *)
Lemma open_after_bracket path fd inner :
  fd <> -1 ->
  (forall open, open_after inner open = Some open) ->
  forall open,
    open_after (OpOpen path fd :: inner ++ [OpV4l2Close fd]) open = Some open.
Proof.
  intros Hfd Hinner open. cbn [open_after].
  destruct (Z.eqb_spec fd (-1)) as [| _]; [contradiction |].
  rewrite open_after_app, Hinner. cbn [open_after].
  rewrite close_fd_head. reflexivity.
Qed.

Lemma resolution_selected_run open q n props settings w :
  let path := device_id settings in
  let size := unpack_tuple (wrap_int (resolution settings)) in
  let run := resolution_selected open q n props settings w in
  run.1.1 = opens open path n 1
  /\ run.1.2
     = mk_properties (list_device_id props) (list_pixelformat props)
         (list_resolution props)
         (if opens open path n 1
          then v4l2_framerate_list q (pixelformat settings) size.1 size.2
          else list_framerate props)
  /\ exists ops,
       run.2 = log ops w /\ forall opened, open_after ops opened = Some opened.
Proof.
  cbv zeta. unfold resolution_selected, opens. cbn [seq forallb].
  rewrite andb_true_r.
  destruct (Z.eqb_spec (open n (device_id settings)) (-1)) as [Hfd | Hfd].
  - cbn. split; [reflexivity |]. split; [destruct props; reflexivity |].
    eexists. split; [reflexivity |]. intros opened. cbn. rewrite Hfd.
    reflexivity.
  - destruct (unpack_tuple (wrap_int (resolution settings))) as [width height].
    cbn [obs_property_modified fst snd negb]. rewrite v4l2_framerate_list_u64.
    split; [reflexivity |]. split; [reflexivity |].
    rewrite log_log. eexists. split; [reflexivity |].
    apply (open_after_bracket _ _ [] Hfd). reflexivity.
Qed.

Lemma format_selected_run open q n props settings w :
  let path := device_id settings in
  let size := unpack_tuple (wrap_int (resolution settings)) in
  let run := format_selected open q n props settings w in
  run.1.1 = opens open path n 1
  /\ run.1.2
     = mk_properties (list_device_id props) (list_pixelformat props)
         (if opens open path n 1
          then v4l2_resolution_list q (pixelformat settings)
          else list_resolution props)
         (if opens open path n 2
          then v4l2_framerate_list q (pixelformat settings) size.1 size.2
          else list_framerate props)
  /\ exists ops,
       run.2 = log ops w /\ forall opened, open_after ops opened = Some opened.
Proof.
  cbv zeta. unfold format_selected, opens. cbn [seq forallb].
  rewrite !andb_true_r.
  destruct (Z.eqb_spec (open n (device_id settings)) (-1)) as [Hfd | Hfd].
  - cbn. split; [reflexivity |]. split; [destruct props; reflexivity |].
    eexists. split; [reflexivity |]. intros opened. cbn. rewrite Hfd.
    reflexivity.
  - cbn [obs_property_modified negb andb].
    match goal with
    | |- context [resolution_selected open q (S n) ?p settings ?w1] =>
        destruct (resolution_selected_run open q (S n) p settings w1)
          as (_ & Hprops & ops & Hw & Hops);
        destruct (resolution_selected open q (S n) p settings w1)
          as [[flag props2] w2]
    end.
    cbn [fst snd] in Hprops, Hw |- *. subst props2 w2.
    unfold opens. cbn [seq forallb list_device_id list_pixelformat
                       list_resolution list_framerate].
    rewrite andb_true_r, v4l2_resolution_list_u64.
    split; [reflexivity |]. split; [reflexivity |].
    rewrite !log_log. eexists. split; [reflexivity |].
    apply (open_after_bracket _ _ ops Hfd Hops).
Qed.

(** X17: a selection callback re-enumerates every list downstream of the
    selection, as far as the device can be opened again, and no list
    upstream of it.  [device_selected] fills the format list if its open
    succeeds, the resolution list if the open of [format_selected], which
    it notifies, succeeds as well, and the frame-rate list if that of
    [resolution_selected] does too; [format_selected] and
    [resolution_selected] do the same from their lists on.  The lists are
    those of the stored pixel format and of the width and height the
    stored resolution decodes to.  The result only tells whether the
    callback's own open succeeded.  Every descriptor opened is closed
    again, and none is closed that is not open. *)
Theorem selection_callbacks (open : nat -> string -> Z) (q : enumeration)
    (n : nat) (props : obs_properties) (settings : obs_data) (w : world) :
  let path := device_id settings in
  let size := unpack_tuple (wrap_int (resolution settings)) in
  let formats := v4l2_format_list q in
  let sizes := v4l2_resolution_list q (pixelformat settings) in
  let rates := v4l2_framerate_list q (pixelformat settings) size.1 size.2 in
  let dev_run := device_selected open q n props settings w in
  let fmt_run := format_selected open q n props settings w in
  let res_run := resolution_selected open q n props settings w in
  (dev_run.1.1 = opens open path n 1
   /\ fmt_run.1.1 = opens open path n 1
   /\ res_run.1.1 = opens open path n 1)
  /\ dev_run.1.2
     = mk_properties (list_device_id props)
         (if opens open path n 1 then formats else list_pixelformat props)
         (if opens open path n 2 then sizes else list_resolution props)
         (if opens open path n 3 then rates else list_framerate props)
  /\ fmt_run.1.2
     = mk_properties (list_device_id props) (list_pixelformat props)
         (if opens open path n 1 then sizes else list_resolution props)
         (if opens open path n 2 then rates else list_framerate props)
  /\ res_run.1.2
     = mk_properties (list_device_id props) (list_pixelformat props)
         (list_resolution props)
         (if opens open path n 1 then rates else list_framerate props)
  /\ (forall run, In run [dev_run; fmt_run; res_run] ->
        exists ops,
          run.2 = log ops w
          /\ forall opened, open_after ops opened = Some opened).
Proof.
  cbv zeta.
  destruct (resolution_selected_run open q n props settings w)
    as (Hr1 & Hr2 & Hr3).
  destruct (format_selected_run open q n props settings w)
    as (Hf1 & Hf2 & Hf3).
  assert (Hdev :
    (device_selected open q n props settings w).1.1
    = opens open (device_id settings) n 1
    /\ (device_selected open q n props settings w).1.2
       = mk_properties (list_device_id props)
           (if opens open (device_id settings) n 1
            then v4l2_format_list q else list_pixelformat props)
           (if opens open (device_id settings) n 2
            then v4l2_resolution_list q (pixelformat settings)
            else list_resolution props)
           (if opens open (device_id settings) n 3
            then v4l2_framerate_list q (pixelformat settings)
                   (unpack_tuple (wrap_int (resolution settings))).1
                   (unpack_tuple (wrap_int (resolution settings))).2
            else list_framerate props)
    /\ exists ops,
         (device_selected open q n props settings w).2 = log ops w
         /\ forall opened, open_after ops opened = Some opened).
  { unfold device_selected, opens. cbn [seq forallb].
    rewrite !andb_true_r.
    destruct (Z.eqb_spec (open n (device_id settings)) (-1)) as [Hfd | Hfd].
    - cbn. split; [reflexivity |]. split; [destruct props; reflexivity |].
      eexists. split; [reflexivity |]. intros opened. cbn. rewrite Hfd.
      reflexivity.
    - cbn [obs_property_modified negb andb].
      match goal with
      | |- context [format_selected open q (S n) ?p settings ?w1] =>
          destruct (format_selected_run open q (S n) p settings w1)
            as (_ & Hprops & ops & Hw & Hops);
          destruct (format_selected open q (S n) p settings w1)
            as [[flag props2] w2]
      end.
      cbn [fst snd] in Hprops, Hw |- *. subst props2 w2.
      unfold opens. cbn [seq forallb list_device_id list_pixelformat
                         list_resolution list_framerate].
      rewrite !andb_true_r.
      split; [reflexivity |]. split; [reflexivity |].
      rewrite !log_log. eexists. split; [reflexivity |].
      apply (open_after_bracket _ _ ops Hfd Hops). }
  destruct Hdev as (Hd1 & Hd2 & Hd3).
  split; [repeat split; assumption |].
  split; [exact Hd2 |]. split; [exact Hf2 |]. split; [exact Hr2 |].
  intros run [<- | [<- | [<- | []]]]; assumption.
Qed.

(** On a device that can be opened twice but not a third time,
    [device_selected] fills the format and the resolution list and
    leaves the frame-rate list; the descriptors are closed in the
    reverse order of their opening. *)
Example device_selected_two_opens :
  device_selected two_opens sample_enumeration 0
                  (mk_properties [] [] [] []) video0_settings idle_world
  = (true,
     mk_properties []
       [("YUYV 4:2:2"%string, V4L2_PIX_FMT_YUYV);
        ("Planar YUV 4:2:0 (Emulated)"%string, V4L2_PIX_FMT_YUV420)]
       [("640x480"%string, pack_tuple 640 480);
        ("1280x720"%string, pack_tuple 1280 720);
        ("1920x1080"%string, pack_tuple 1920 1080)]
       [],
     mk_world []
       [OpOpen "/dev/video0" 5; OpOpen "/dev/video0" 6;
        OpOpen "/dev/video0" (-1); OpV4l2Close 6; OpV4l2Close 5]).
Proof. reflexivity. Qed.

(** X18: [v4l2_properties] fills the device list with exactly the capture
    devices of the directory, in order, leaves the three dependent lists
    empty for the callbacks to fill, and only probes: what it does to
    descriptors is to open device nodes and to close each of them again,
    so that the open descriptors are the same afterwards, whichever they
    were, and it maps nothing. *)
Theorem v4l2_properties_lists (entries : list dir_entry) (w : world) :
  (v4l2_properties (Some entries) w).1
  = mk_properties (capture_items entries) [] [] []
  /\ (v4l2_properties None w) = (mk_properties [] [] [] [], w)
  /\ (exists ops,
        trace (v4l2_properties (Some entries) w).2 = trace w ++ ops
        /\ forallb is_probe_op ops = true
        /\ forall opened, open_after ops opened = Some opened)
  /\ mapped (v4l2_properties (Some entries) w).2 = mapped w.
Proof.
  unfold v4l2_properties, v4l2_device_list. cbn [fst snd].
  rewrite scan_devices_result. cbn.
  split; [reflexivity |]. split; [reflexivity |].
  destruct (scan_devices_probes entries true (Some []) None w)
    as (ops & Hw & Hprobe).
  destruct (scan_devices_descriptors entries true (Some []) None w)
    as (ops' & Htr & Hops).
  rewrite Hw in Htr |- *. cbn in Htr |- *.
  apply app_inv_head in Htr. subst ops'.
  split; [| reflexivity].
  exists ops. repeat split; assumption.
Qed.

(** ** Timestamps *)

(** X19: for every capture time with microseconds below a million and
    seconds below 2^34, [timeval2ns] is the exact number of nanoseconds,
    without wrap-around, so that an earlier capture time always gives a
    smaller timestamp. *)
Theorem timeval2ns_exact (tv tv' : Z * Z) :
  is_timeval tv -> is_timeval tv' ->
  timeval2ns tv.1 tv.2 = tv.1 * 1000000000 + tv.2 * 1000
  /\ (timeval_lt tv tv' <-> timeval2ns tv.1 tv.2 < timeval2ns tv'.1 tv'.2).
Proof.
  assert (Hexact : forall t, is_timeval t ->
            timeval2ns t.1 t.2 = t.1 * 1000000000 + t.2 * 1000).
  { intros t [Hs Hu]. unfold timeval2ns.
    rewrite (wrap_u64_small t.1), (wrap_u64_small t.2) by lia.
    rewrite (wrap_u64_small (t.1 * 1000000000)),
            (wrap_u64_small (t.2 * 1000)) by lia.
    apply wrap_u64_small. lia. }
  intros Htv Htv'. split; [apply Hexact, Htv |].
  rewrite (Hexact tv Htv), (Hexact tv' Htv').
  destruct Htv as [Hs Hu], Htv' as [Hs' Hu']. unfold timeval_lt. lia.
Qed.

Lemma timeval2ns_exact_witness :
  timeval2ns 10 500000 = 10 * 1000000000 + 500000 * 1000
  /\ (timeval_lt (10, 500000) (11, 0)
      <-> timeval2ns 10 500000 < timeval2ns 11 0).
Proof.
  apply (timeval2ns_exact (10, 500000) (11, 0)); split; cbn; lia.
Defined.

(** ** Capture thread: passes that end the run *)

Lemma capture_loop_fatal t out offsets data w :
  is_fatal t = true ->
  exists ops,
    filter is_streamoff ops = []
    /\ forall post,
         capture_loop (t :: post) false out offsets data w
         = Some (data, log ops w).
Proof.
  intros Hfatal. unfold is_fatal in Hfatal. cbn [capture_loop].
  destruct (tick_select t) as [errno | |]; [| discriminate Hfatal |].
  - apply negb_true_iff in Hfatal. rewrite Hfatal.
    exists [OpSelect (dev data) 1 0]. split; reflexivity.
  - destruct (tick_dqbuf t) as [errno | index sec usec].
    + apply negb_true_iff in Hfatal. rewrite Hfatal.
      eexists. split; [| intros post; rewrite log_log; reflexivity].
      reflexivity.
    + apply negb_true_iff in Hfatal. rewrite Hfatal.
      eexists. split; [| intros post; rewrite !log_log; reflexivity].
      reflexivity.
Qed.

(** X20: a pass in which the wait fails otherwise than by interruption,
    the dequeue fails otherwise than for lack of a buffer, or the
    delivered buffer cannot be queued again ends the run: the thread
    (started, and still looping after the passes [pre]) leaves the loop
    after that pass whatever would have come next, and returns after
    requesting stream-off once, as its last operation. *)
Theorem v4l2_thread_fatal (s : stream) (pre post : list tick) (t : tick)
    (stopped : bool) (data : v4l2_data) (w : world) :
  v4l2_thread s pre stopped data w = None ->
  is_fatal t = true ->
  exists data' ops,
    v4l2_thread s (pre ++ t :: post) stopped data w = Some (data', log ops w)
    /\ v4l2_thread s (pre ++ [t]) stopped data w = Some (data', log ops w)
    /\ stream_off_last (dev data) ops.
Proof.
  intros Hrun Hfatal. unfold v4l2_thread, v4l2_stop_capture in *.
  destruct (v4l2_start_capture_log s data w) as (ops0 & Hstart & Hoff0 & _ & _).
  destruct (v4l2_start_capture s data w) as [r w1]. cbn in Hstart. subst w1.
  destruct (r <? 0); [discriminate Hrun |].
  destruct (v4l2_prep_obs_frame (with_frames 0 data)) as [out offsets].
  destruct (capture_loop pre stopped out offsets (with_frames 0 data)
                         (log ops0 w)) as [[? ?] |] eqn:Hpre;
    [discriminate Hrun |].
  destruct (capture_loop_running _ _ _ _ _ _ Hpre)
    as (data1 & ops1 & Hdev1 & Hoff1 & _ & Hrest).
  destruct (capture_loop_fatal t out offsets data1 (log ops1 (log ops0 w)) Hfatal)
    as (ops2 & Hoff2 & Hlast).
  cbn [dev with_frames] in Hdev1.
  exists data1,
    (ops0 ++ ops1 ++ ops2 ++ [OpStreamOff (dev data) (answer_streamoff s)]).
  rewrite !Hrest, !Hlast. cbn. rewrite !log_log, Hdev1, <- ?app_assoc.
  split; [reflexivity |]. split; [reflexivity |].
  exists (ops0 ++ ops1 ++ ops2), (answer_streamoff s).
  split; [rewrite <- !app_assoc; reflexivity |].
  rewrite !filter_app, Hoff0, Hoff1, Hoff2. reflexivity.
Qed.

Lemma v4l2_thread_fatal_witness :
  exists data' ops,
    v4l2_thread good_stream
      ([idle_tick] ++ mk_tick false SelectReady (DqbufOk 2 11 0) false
                   :: [idle_tick])
      false live_session live_world = Some (data', log ops live_world)
    /\ v4l2_thread good_stream
         ([idle_tick] ++ [mk_tick false SelectReady (DqbufOk 2 11 0) false])
         false live_session live_world = Some (data', log ops live_world)
    /\ stream_off_last (dev live_session) ops.
Proof.
  apply (v4l2_thread_fatal good_stream [idle_tick] [idle_tick]
           (mk_tick false SelectReady (DqbufOk 2 11 0) false) false
           live_session live_world); reflexivity.
Defined.

(** ** A successful initialisation *)

(** X21: when the device opens, accepts a format and a frame rate, grants
    [count] >= 2 buffers that all map, and the event and the thread can
    be created, [v4l2_init] returns a running session: [dev] is the
    descriptor, the width, height, pixel format and stride are the ones
    the device answered (not the ones requested), one slot and one mapped
    region exist per granted buffer, and [thread] and [event] are the new
    ones.  The stored configuration is untouched. *)
Theorem v4l2_init_success (e : device) (data : v4l2_data) (w : world)
    (path : string) (gw gh gf stride count ev tid : Z) :
  set_device data = Some path -> answer_open e path <> -1 ->
  answer_s_fmt e (wrap_u32 (unpack_tuple (wrap_int (set_res data))).1)
                 (wrap_u32 (unpack_tuple (wrap_int (set_res data))).2)
                 (wrap_u32 (set_pixfmt data))
  = Some (gw, gh, gf, stride) ->
  answer_s_parm e (wrap_u32 (unpack_tuple (wrap_int (set_fps data))).1)
                  (wrap_u32 (unpack_tuple (wrap_int (set_fps data))).2)
  = true ->
  answer_reqbufs e = Some count -> 2 <= count ->
  maps_until e (Z.to_nat count) ->
  answer_event_init e = Some ev -> answer_thread_create e = Some tid ->
  mapped w = [] ->
  let bufs := granted_buffers e (Z.to_nat count) in
  (v4l2_init e data w).1
  = with_thread tid ev
      (with_buffers count bufs
         (with_format gw gh gf stride (with_dev (answer_open e path) data)))
  /\ mapped (v4l2_init e data w).2 = map region bufs
  /\ stored_config (v4l2_init e data w).1 = stored_config data.
Proof.
  intros Hdev Hopen Hfmt Hparm Hreq Hcount Hmaps Hev Htid Hw. cbv zeta.
  assert (Hrun : v4l2_init e data w
                 = (with_thread tid ev
                      (with_buffers count (granted_buffers e (Z.to_nat count))
                         (with_format gw gh gf stride
                            (with_dev (answer_open e path) data))),
                    (v4l2_init e data w).2)
                 /\ mapped (v4l2_init e data w).2
                    = map region (granted_buffers e (Z.to_nat count))).
  { unfold v4l2_init. rewrite Hdev.
    destruct (Z.eqb_spec (answer_open e path) (-1)) as [| _]; [contradiction |].
    destruct (unpack_tuple (wrap_int (set_res data))) as [rw rh].
    cbn [fst snd] in Hfmt. rewrite Hfmt.
    destruct (unpack_tuple (wrap_int (set_fps data))) as [num den].
    cbn [fst snd] in Hparm. rewrite Hparm. cbn [negb].
    unfold v4l2_create_mmap. rewrite Hreq.
    destruct (Z.ltb_spec count 2) as [| _]; [lia |].
    set (n := Z.to_nat count) in *.
    match goal with
    | |- context [map_buffers e n 0 ?d ?w0] =>
        destruct (map_buffers_succeeds e n [] (replicate n (mk_buffer 0 0)) d w0
                    Hmaps eq_refl (length_replicate _ _))
          as (w' & Hmb & Hmap & _)
    end.
    cbn [length app] in Hmb, Hmap. rewrite Hmb. cbn [Z.ltb Z.compare].
    rewrite Hev, Htid. split; [reflexivity |].
    cbn in Hmap |- *. rewrite Hw in Hmap. exact Hmap. }
  destruct Hrun as [Hrun Hmap].
  split; [rewrite Hrun; reflexivity |].
  split; [exact Hmap | apply v4l2_init_config].
Qed.

Lemma v4l2_init_success_witness :
  let bufs := granted_buffers working_device (Z.to_nat 4) in
  (v4l2_init working_device vga_request idle_world).1
  = with_thread 7 1
      (with_buffers 4 bufs
         (with_format 640 480 V4L2_PIX_FMT_YUYV 1280
            (with_dev (answer_open working_device "/dev/video0") vga_request)))
  /\ mapped (v4l2_init working_device vga_request idle_world).2
     = map region bufs
  /\ stored_config (v4l2_init working_device vga_request idle_world).1
     = stored_config vga_request.
Proof.
  apply (v4l2_init_success working_device vga_request idle_world
           "/dev/video0" 640 480 V4L2_PIX_FMT_YUYV 1280 4 1 7);
    try reflexivity; try lia; try discriminate.
  intros j Hj. split; [eexists _, _; reflexivity |].
  unfold working_device, MAP_FAILED. cbn. lia.
Defined.
